(** * PyBulkPDF: field reconciliation and row-processing engine

    A shallow embedding of [pybulkpdf/config.py], [pybulkpdf/exceptions.py],
    [pybulkpdf/core/pdf_analyzer.py], [pybulkpdf/core/template_generator.py]
    and [pybulkpdf/core/form_filler.py], followed by the properties of the
    mail-merge engine that are established on it.

    Conventions of the embedding:
    - a Python [str] is a [string]; every character is read as a code point
      below 256, on which [str.strip], [str.lower] and the ordering used by
      [sorted] are the ones defined in [Py];
    - a Python [set] of names is a [gset string], a [dict] keyed by names a
      [gmap string _]; a [dict] whose iteration order matters is a list of
      pairs;
    - the document engine (pypdf), the spreadsheet engine (openpyxl) and the
      file system are external: what they answer is given by a [World], and
      the set of existing paths is threaded through the operations that
      write; a path is the string the program passes to the file system,
      and two strings are two paths;
    - exceptions are values of type [exn] (instances of Python's
      [Exception]); an operation that may raise returns [result A]. *)

From Stdlib Require Import ZArith NArith Ascii String List Lia Strings.Byte.
From stdpp Require Import base strings list gmap sets sorting pretty.

Set Warnings "-register-all".

Local Open Scope Z_scope.
Local Open Scope stdpp_scope.

(** ** config.py *)

Module Config.

Definition OUTPUT_FILENAME_COL : string := "_output_filename".
Definition DEFAULT_SHEET_NAME : string := "Data".
Definition DEFAULT_TABLE_NAME : string := "PDFData".
Definition FIELD_INFO_SUFFIX : string := "_field_info.txt".
Definition TEMPLATE_SUFFIX : string := "_template.xlsx".

Definition FIELD_TYPE_BUTTON : string := "/Btn".
Definition FIELD_TYPE_CHOICE : string := "/Ch".
Definition FIELD_TYPE_TEXT : string := "/Tx".

Definition PDF_VALUE_CHECKBOX_ON : string := "/Yes".
Definition PDF_VALUE_CHECKBOX_OFF : string := "/Off".

End Config.

(** ** The Python built-ins the program relies on *)

Module Py.

(** [c.isspace()] for a code point below 256: TAB..CR, FS..US, SPACE,
    NEL (0x85) and NBSP (0xA0). *)
Definition isspace (c : ascii) : bool :=
  let n := N_of_ascii c in
  (((9 <=? n) && (n <=? 13)) || ((28 <=? n) && (n <=? 32))
   || (n =? 133) || (n =? 160))%N.

(** [c.lower()] for a code point below 256: A..Z and the Latin-1 capitals
    (0xC0..0xDE without the multiplication sign) move up by 32. *)
Definition lower_char (c : ascii) : ascii :=
  let n := N_of_ascii c in
  if (((65 <=? n) && (n <=? 90)) || ((192 <=? n) && (n <=? 214))
      || ((216 <=? n) && (n <=? 222)))%N
  then ascii_of_N (n + 32) else c.

Fixpoint lower (s : string) : string :=
  match s with
  | EmptyString => EmptyString
  | String c s' => String (lower_char c) (lower s')
  end.

Fixpoint lstrip (s : string) : string :=
  match s with
  | EmptyString => EmptyString
  | String c s' => if isspace c then lstrip s' else s
  end.

Fixpoint rstrip (s : string) : string :=
  match s with
  | EmptyString => EmptyString
  | String c s' =>
      match rstrip s' with
      | EmptyString => if isspace c then EmptyString else String c EmptyString
      | r => String c r
      end
  end.

(** [s.strip()] *)
Definition strip (s : string) : string := rstrip (lstrip s).

(** [s.endswith(suffix)] *)
Fixpoint endswith (s suffix : string) : bool :=
  if String.eqb s suffix then true
  else match s with
       | EmptyString => false
       | String _ s' => endswith s' suffix
       end.

(** [s.startswith(prefix)] *)
Definition startswith (s prefix : string) : bool := String.prefix prefix s.

(** [sep.join(parts)] *)
Fixpoint join (sep : string) (parts : list string) : string :=
  match parts with
  | [] => ""
  | [p] => p
  | p :: rest => p +:+ sep +:+ join sep rest
  end.

(** [str(n)] for an [int] *)
Definition str_int (n : Z) : string := pretty n.

(** [sorted(names)] on strings: ascending, code point by code point. *)
Definition sorted (names : list string) : list string :=
  merge_sort String.le names.

(** [os.path.join(a, b)] (POSIX) *)
Definition os_path_join (a b : string) : string :=
  if startswith b "/" then b
  else if String.eqb a "" || endswith a "/" then a +:+ b
  else a +:+ "/" +:+ b.

Fixpoint has_sep (p : string) : bool :=
  match p with
  | EmptyString => false
  | String c p' => if Ascii.eqb c "/" then true else has_sep p'
  end.

(** [os.path.basename(p)] (POSIX): what follows the last separator. *)
Fixpoint os_path_basename (p : string) : string :=
  match p with
  | EmptyString => EmptyString
  | String c p' =>
      if has_sep p' then os_path_basename p'
      else if Ascii.eqb c "/" then p' else p
  end.

End Py.

(** ** exceptions.py, with the library exceptions the code handles *)

Module Exceptions.

Inductive exn_class : Type :=
  | PdfReadError                    (* pypdf.errors.PdfReadError *)
  | KeyError
  | TypeError
  | IndexError
  | FileNotFoundError
  | OtherException (name : string)  (* OSError, PermissionError, ... *)
  | PyBulkPDFError
  | PDFProcessingError
  | PDFReadError
  | PDFWriteError
  | ExcelProcessingError
  | ExcelReadError
  | ExcelWriteError
  | ConfigurationError
  | FileOperationError.

Global Instance exn_class_eq_dec : EqDecision exn_class.
Proof. solve_decision. Defined.

(** An exception object: its class, the message given to the constructor
    and, for the classes of this package, [original_exception]. *)
Inductive exn : Type :=
  | Exn (cls : exn_class) (message : string) (original_exception : option exn).

Definition exn_cls (e : exn) : exn_class :=
  match e with Exn c _ _ => c end.

(** The classes deriving from [PyBulkPDFError], whose [__str__] is
    overridden. *)
Definition is_PyBulkPDFError (c : exn_class) : bool :=
  match c with
  | PyBulkPDFError | PDFProcessingError | PDFReadError | PDFWriteError
  | ExcelProcessingError | ExcelReadError | ExcelWriteError
  | ConfigurationError | FileOperationError => true
  | _ => false
  end.

(** [str(e)]: [PyBulkPDFError.__str__] appends the original error when
    there is one. *)
Fixpoint exn_str (e : exn) : string :=
  match e with
  | Exn c m o =>
      if is_PyBulkPDFError c then
        match o with
        | Some e' => m +:+ " (Original error: " +:+ exn_str e' +:+ ")"
        | None => m
        end
      else m
  end.

(** [isinstance(e, classes)] for the handlers of this program; a class
    of [exn_class] stands for the Python class and its subclasses. *)
Definition isinstance (e : exn) (classes : list exn_class) : bool :=
  bool_decide (exn_cls e ∈ classes).

(** A computation that returns or raises. *)
Inductive result (A : Type) : Type :=
  | Ok (a : A)
  | Raise (e : exn).
Global Arguments Ok {A} a.
Global Arguments Raise {A} e.

Definition bind {A B} (m : result A) (k : A → result B) : result B :=
  match m with
  | Ok a => k a
  | Raise e => Raise e
  end.

(** [try: body  except ...: handler] *)
Definition try_except {A} (body : result A) (handler : exn → result A)
  : result A :=
  match body with
  | Ok a => Ok a
  | Raise e => handler e
  end.

End Exceptions.

Global Instance result_ret : MRet Exceptions.result :=
  fun A a => Exceptions.Ok a.
Global Instance result_bind : MBind Exceptions.result :=
  fun A B k m => Exceptions.bind m k.

(** ** core/pdf_analyzer.py *)

Module PDFAnalyzer.
Import Exceptions.

(** A key of a dictionary: a number, read as the integer it is equal to,
    or a name. *)
Inductive pykey : Type :=
  | KInt (n : Z)
  | KStr (s : string).

Global Instance pykey_eq_dec : EqDecision pykey.
Proof. solve_decision. Defined.

Global Instance pykey_countable : Countable pykey :=
  inj_countable'
    (fun k => match k with KInt n => inl n | KStr s => inr s end)
    (fun x => match x with inl n => KInt n | inr s => KStr s end)
    (fun k => match k with KInt _ | KStr _ => eq_refl end).

(** The values found in a field's property dictionary: a text string, a
    list or tuple, an object without [len()] (a number, a boolean, [None],
    an indirect reference) with the name of its type, a byte string, or a
    dictionary. All but the text string come with their [str()]. *)
Inductive pyval : Type :=
  | VStr (s : string)
  | VSeq (items : list pyval) (shown : string)
  | VObj (type_name : string) (shown : string)
  | VBytes (data : list byte) (shown : string)
  | VDict (entries : gmap pykey pyval) (shown : string).

Definition py_str (v : pyval) : string :=
  match v with
  | VStr s => s
  | VSeq _ shown => shown
  | VObj _ shown => shown
  | VBytes _ shown => shown
  | VDict _ shown => shown
  end.

(** [isinstance(v, (list, tuple))] *)
Definition is_list_or_tuple (v : pyval) : bool :=
  match v with VSeq _ _ => true | _ => false end.

(** [len(v)] *)
Definition py_len (v : pyval) : result nat :=
  match v with
  | VStr s => Ok (String.length s)
  | VSeq items _ => Ok (length items)
  | VObj type_name _ =>
      Raise (Exn TypeError
               ("object of type '" +:+ type_name +:+ "' has no len()") None)
  | VBytes data _ => Ok (length data)
  | VDict entries _ => Ok (size entries)
  end.

(** [v[i]] for [i] 0 or 1: an element of a sequence, the number of a
    byte, the value a dictionary holds under the key [i]. *)
Definition py_index (v : pyval) (i : nat) : result pyval :=
  match v with
  | VStr s =>
      match String.get i s with
      | Some c => Ok (VStr (String c EmptyString))
      | None => Raise (Exn IndexError "string index out of range" None)
      end
  | VSeq items _ =>
      match items !! i with
      | Some x => Ok x
      | None => Raise (Exn IndexError "list index out of range" None)
      end
  | VObj type_name _ =>
      Raise (Exn TypeError
               ("'" +:+ type_name +:+ "' object is not subscriptable") None)
  | VBytes data _ =>
      match data !! i with
      | Some b => Ok (VObj "int" (Py.str_int (Z.of_N (Byte.to_N b))))
      | None => Raise (Exn IndexError "index out of range" None)
      end
  | VDict entries _ =>
      match entries !! KInt (Z.of_nat i) with
      | Some x => Ok x
      | None => Raise (Exn KeyError (Py.str_int (Z.of_nat i)) None)
      end
  end.

(** The ['/N'] entry of an appearance dictionary. *)
Inductive n_entry : Type :=
  | NDict (keys : list string)   (* a dict, with its keys in order *)
  | NOther.

(** The ['/AP'] entry of a field: an object with a [get] method (and
    possibly an ['/N'] entry), or something else. *)
Inductive ap_entry : Type :=
  | ApDict (n : option n_entry)
  | ApOther.

Record field_properties : Type := {
  FT : option string;        (* properties.get('/FT') *)
  AP : option ap_entry;      (* properties['/AP'] when present *)
  Opt : option (list pyval)  (* properties['/Opt'] when present *)
}.

(** What [PdfReader(path).get_fields()] answers: [None] or a dictionary,
    in its iteration order. *)
Definition fields_dict : Type := list (string * field_properties).

Record t : Type := {
  pdf_path : string;
  fields : option fields_dict;
  field_names : option (gset string)
}.

(** [_load], called by [__init__]: [reader] is the outcome of
    [PdfReader(pdf_path).get_fields()]. *)
Definition _load (pdf_path : string) (reader : result (option fields_dict))
  : result t :=
  try_except
    (fs ← reader;
     match fs with
     | Some (f :: fs') =>
         Ok {| pdf_path := pdf_path; fields := Some (f :: fs');
               field_names := Some (list_to_set ((f :: fs').*1)) |}
     | _ =>
         Ok {| pdf_path := pdf_path; fields := None;
               field_names := Some ∅ |}
     end)
    (fun e =>
       if isinstance e [PdfReadError] then
         Raise (Exn PDFReadError
                  ("Error reading PDF structure from '" +:+ pdf_path +:+ "'")
                  (Some e))
       else if isinstance e [FileNotFoundError] then
         Raise (Exn PDFReadError
                  ("PDF file not found at '" +:+ pdf_path +:+ "'") (Some e))
       else
         Raise (Exn PDFReadError
                  ("Unexpected error opening or reading PDF '" +:+ pdf_path
                   +:+ "'")
                  (Some e))).

Definition get_fields (self : t) : option fields_dict := fields self.
Definition get_field_names (self : t) : option (gset string) :=
  field_names self.

(** [list.remove(x)] guarded by [x in l]: drops the first occurrence. *)
Fixpoint list_remove (x : string) (l : list string) : list string :=
  match l with
  | [] => []
  | y :: l' => if String.eqb y x then l' else y :: list_remove x l'
  end.

(** The [export_values] computed in the button branch. *)
Definition button_export_values (properties : field_properties)
  : list string :=
  let ap_dict := default (ApDict None) (AP properties) in
  let export_values :=
    match ap_dict with
    | ApDict n =>
        match default (NDict []) n with
        | NDict keys => keys
        | NOther => []
        end
    | ApOther => []
    end in
  list_remove Config.PDF_VALUE_CHECKBOX_OFF export_values.

(** [str(opt[1]) if len(opt) > 1 else str(opt[0])] *)
Definition pair_export_value (opt : pyval) : result string :=
  n ← py_len opt;
  if (1 <? n)%nat then (v ← py_index opt 1; Ok (py_str v))
  else (v ← py_index opt 0; Ok (py_str v)).

(** [[f(opt) for opt in options]] with an [f] that may raise. *)
Fixpoint comprehension {A B} (f : A → result B) (l : list A)
  : result (list B) :=
  match l with
  | [] => Ok []
  | x :: l' => y ← f x; ys ← comprehension f l'; Ok (y :: ys)
  end.

(** The [export_values] computed in the choice branch. *)
Definition choice_export_values (properties : field_properties)
  : result (list string) :=
  let options := default [] (Opt properties) in
  match options with
  | [] => Ok []
  | first :: _ =>
      let paired :=
        if is_list_or_tuple first
        then (n ← py_len first; Ok (1 <=? n)%nat)
        else Ok false in
      b ← paired;
      if b : bool then comprehension pair_export_value options
      else Ok (py_str <$> options)
  end.

Definition analyze_field (name : string) (properties : field_properties)
  : result (list string) :=
  if bool_decide (FT properties = Some Config.FIELD_TYPE_BUTTON) then
    let export_values := button_export_values properties in
    let info := "Field '" +:+ name +:+ "' (Button): Expected values " in
    Ok [info +:+
        match export_values with
        | [] => "(Check PDF for values like "
                +:+ Config.PDF_VALUE_CHECKBOX_ON +:+ ", /On)"
        | _ => "(e.g., " +:+ Py.join ", " export_values +:+ ")"
        end]
  else if bool_decide (FT properties = Some Config.FIELD_TYPE_CHOICE) then
    let info := "Field '" +:+ name +:+ "' (Choice): Expected values " in
    export_values ← choice_export_values properties;
    Ok [info +:+
        match export_values with
        | [] => "(Check PDF for options)"
        | _ => ": " +:+ Py.join ", " export_values
        end]
  else Ok [].

(** [analyze_field_types]: one line per non-text field, in the order of
    the dictionary. *)
Fixpoint analyze_fields (fs : fields_dict) : result (list string) :=
  match fs with
  | [] => Ok []
  | (name, properties) :: fs' =>
      here ← analyze_field name properties;
      rest ← analyze_fields fs';
      Ok (here ++ rest)
  end.

Definition analyze_field_types (self : t) : result (list string) :=
  match fields self with
  | None | Some [] => Ok []
  | Some fs => analyze_fields fs
  end.

End PDFAnalyzer.

(** ** The external collaborators *)

Module External.
Import Exceptions.

(** A cell value as openpyxl hands it over with [values_only=True]:
    [None] for an empty cell, a [bool], an [int], a [str], or any other
    value (float, date, ...) together with its [str()]. *)
Inductive cell : Type :=
  | CNone
  | CBool (b : bool)
  | CInt (n : Z)
  | CStr (s : string)
  | CObj (shown : string).

Global Instance cell_eq_dec : EqDecision cell.
Proof. solve_decision. Defined.

Definition RowData : Type := list cell.

(** [str(value)] *)
Definition cell_str (v : cell) : string :=
  match v with
  | CNone => "None"
  | CBool true => "True"
  | CBool false => "False"
  | CInt n => Py.str_int n
  | CStr s => s
  | CObj shown => shown
  end.

(** The rows [iter_rows] yields, first row first, and [max_row]. *)
Record Worksheet : Type := {
  sheet_rows : list RowData;
  max_row : Z
}.

Record Workbook : Type := {
  active : option Worksheet
}.

(** What the document engine does when one output is produced; [None]
    stands for a step that returns normally. *)
Record writer_behaviour : Type := {
  clone : option exn;               (* PdfWriter(clone_from=...) *)
  page_updates : list (option exn); (* update_page_form_field_values, per page *)
  cleanup : option exn;             (* the /NeedAppearances clean-up *)
  open_file : option exn;           (* open(output_filepath, "wb") *)
  write : option exn                (* writer.write(output_stream) *)
}.

Record World : Type := {
  isdir : string → bool;                             (* os.path.isdir *)
  isother : string → bool;
          (* what is at the path is a device, a FIFO or a socket *)
  pdf_get_fields : string → result (option PDFAnalyzer.fields_dict);
                                       (* PdfReader(path).get_fields() *)
  load_workbook : string → result Workbook;   (* openpyxl.load_workbook *)
  pdf_writer : nat → writer_behaviour;  (* the engine, at a given row *)
  workbook_save : string → option exn   (* building and saving a workbook *)
}.

(** The file system state is the set of the paths at which something
    other than a directory exists: a regular file, unless the world tells
    that it is of another kind. *)
Definition isfile (w : World) (fs : gset string) (p : string) : bool :=
  bool_decide (p ∈ fs) && negb (isother w p).
Definition exists_ (w : World) (fs : gset string) (p : string) : bool :=
  bool_decide (p ∈ fs) || isdir w p.

End External.

(** ** utils/validation.py *)

Module Validation.
Import Exceptions External.

Definition check_file_exists (w : World) (fs : gset string)
    (filepath : string) : result () :=
  if negb (exists_ w fs filepath) then
    Raise (Exn FileOperationError ("Input file not found: " +:+ filepath) None)
  else if negb (isfile w fs filepath) then
    Raise (Exn FileOperationError
             ("Input path is not a file: " +:+ filepath) None)
  else Ok ().

(** What writing a text file comes to: [open(path, 'w')] creates the
    file, the writes and the closing follow. *)
Inductive text_outcome : Type :=
  | Completed                       (* every call returns *)
  | NotOpened (e : exn)             (* open raises: no file is created *)
  | Interrupted (e : exn) (partial : string).
                                    (* a write or the closing raises: the
                                       file is there, holding [partial] *)

(** What the operating system answers for the directory calls and for
    writing a text file; [None] stands for a call that returns normally. *)
Record Os : Type := {
  listdir : string → result (list string);   (* os.listdir *)
  makedirs : string → option exn;            (* os.makedirs *)
  text_write : string → text_outcome   (* open(path, 'w') and the writes *)
}.

(** The classes a handler of [OSError] catches. *)
Definition is_OSError (e : exn) : bool :=
  match exn_cls e with
  | FileNotFoundError => true
  | OtherException name =>
      bool_decide (name ∈ ["OSError"; "PermissionError"; "FileExistsError";
                           "NotADirectoryError"; "IsADirectoryError";
                           "InterruptedError"; "TimeoutError";
                           "BlockingIOError"; "ConnectionError"])
  | _ => false
  end.

(** [p] is a directory on the way to [dirpath]: [dirpath] goes on behind
    [p] with a separator. *)
Definition leads_to (p dirpath : string) : bool :=
  negb (String.eqb p "") && Py.startswith dirpath (p +:+ "/").

(** The world once [os.makedirs(dirpath)] has returned: [dirpath] is a
    directory, and so is every directory on the way to it. *)
Definition with_dir (w : World) (dirpath : string) : World :=
  {| isdir := fun p =>
       bool_decide (p = dirpath) || leads_to p dirpath || isdir w p;
     isother := isother w;
     pdf_get_fields := pdf_get_fields w;
     load_workbook := load_workbook w;
     pdf_writer := pdf_writer w;
     workbook_save := workbook_save w |}.

(** [prepare_output_directory]: returns the world it leaves behind. *)
Definition prepare_output_directory (w : World) (os : Os) (fs : gset string)
    (dirpath : string) (require_empty allow_overwrite : bool)
  : result World :=
  if exists_ w fs dirpath then
    if negb (isdir w dirpath) then
      Raise (Exn FileOperationError
               ("Output path '" +:+ dirpath
                +:+ "' exists but is not a directory.") None)
    else if require_empty && negb allow_overwrite then
      entries ← listdir os dirpath;
      match entries with
      | _ :: _ =>
          Raise (Exn FileOperationError
                   ("Output directory '" +:+ dirpath
                    +:+ "' is not empty. Use --overwrite flag or specify a different directory.")
                   None)
      | [] => Ok w
      end
    else if require_empty && allow_overwrite then
      _ ← listdir os dirpath; Ok w
    else Ok w
  else
    match makedirs os dirpath with
    | None => Ok (with_dir w dirpath)
    | Some e =>
        if is_OSError e then
          Raise (Exn FileOperationError
                   ("Error creating output directory '" +:+ dirpath +:+ "'")
                   (Some e))
        else Raise e
    end.

End Validation.

(** ** core/template_generator.py *)

Module TemplateGenerator.
Import Exceptions External.

Record t : Type := {
  template_pdf_path : string;
  output_dir : string;
  base_filename : string;
  analyzer : PDFAnalyzer.t
}.

Fixpoint has_dot (s : string) : bool :=
  match s with
  | EmptyString => false
  | String c s' => if Ascii.eqb c "." then true else has_dot s'
  end.

(** [os.path.splitext(b)[0]] for a name without separator: cut at the
    last dot, unless only dots precede it. *)
Fixpoint splitext_root (seen : bool) (b : string) : string :=
  match b with
  | EmptyString => EmptyString
  | String c b' =>
      if Ascii.eqb c "." && seen && negb (has_dot b') then EmptyString
      else String c (splitext_root (seen || negb (Ascii.eqb c ".")) b')
  end.

Definition __init__ (w : World) (template_pdf_path output_dir : string)
  : result t :=
  if negb (isdir w output_dir) then
    Raise (Exn FileOperationError
             ("Output directory '" +:+ output_dir
              +:+ "' does not exist or is not a directory.") None)
  else
    a ← PDFAnalyzer._load template_pdf_path (pdf_get_fields w template_pdf_path);
    Ok {| template_pdf_path := template_pdf_path;
          output_dir := output_dir;
          base_filename :=
            splitext_root false (Py.os_path_basename template_pdf_path);
          analyzer := a |}.

(** The workbook handed to [wb.save]: the sheet title, the appended rows
    and the column widths. *)
Record written_workbook : Type := {
  wb_path : string;
  wb_title : string;
  wb_rows : list (list string);
  wb_widths : list nat
}.

Definition _generate_excel_template (w : World) (self : t)
  : result written_workbook :=
  match PDFAnalyzer.get_field_names (analyzer self) with
  | None =>
      Raise (Exn ExcelWriteError
               "Cannot generate Excel template: PDF fields were not loaded."
               None)
  | Some field_names_set =>
      let field_names := Py.sorted (elements field_names_set) in
      let xlsx_filename := base_filename self +:+ Config.TEMPLATE_SUFFIX in
      let xlsx_filepath := Py.os_path_join (output_dir self) xlsx_filename in
      let xlsx_headers := field_names ++ [Config.OUTPUT_FILENAME_COL] in
      try_except
        (match workbook_save w xlsx_filepath with
         | Some e => Raise e
         | None =>
             Ok {| wb_path := xlsx_filepath;
                   wb_title := Config.DEFAULT_SHEET_NAME;
                   wb_rows := [xlsx_headers];
                   wb_widths :=
                     (fun header => (String.length header + 5)%nat)
                       <$> xlsx_headers |}
         end)
        (fun e =>
           Raise (Exn ExcelWriteError
                    ("Failed to create or save Excel template '"
                     +:+ xlsx_filepath +:+ "'") (Some e)))
  end.

(** A text file and what it holds. *)
Record written_text : Type := {
  txt_path : string;
  txt_content : string
}.

Definition newline : string := String "010" EmptyString.

Definition field_info_header : string :=
  "Information about expected values for non-text PDF fields:" +:+ newline
  +:+ "Note: Checkbox/Radio Button values are often '"
  +:+ Config.PDF_VALUE_CHECKBOX_ON +:+ "' or the specific value shown."
  +:+ newline
  +:+ "If unsure, test with a single row first." +:+ newline
  +:+ "=========================================================" +:+ newline
  +:+ newline.

(** The lines written after the header, each followed by a newline. *)
Fixpoint field_info_lines (lines : list string) : string :=
  match lines with
  | [] => ""
  | line :: rest => line +:+ newline +:+ field_info_lines rest
  end.

(** [_generate_field_info_file]: the text file the call leaves behind, if
    any, and the path it returns or the exception it raises. The analysis
    runs before the [try], so what it raises is not wrapped; the file is
    created by [open], also when a write then fails. *)
Definition _generate_field_info_file (os : Validation.Os) (self : t)
  : option written_text * result (option string) :=
  match PDFAnalyzer.analyze_field_types (analyzer self) with
  | Raise e => (None, Raise e)
  | Ok [] => (None, Ok None)
  | Ok field_info_list =>
      let txt_filename := base_filename self +:+ Config.FIELD_INFO_SUFFIX in
      let txt_filepath := Py.os_path_join (output_dir self) txt_filename in
      let failure e :=
        Raise (Exn FileOperationError
                 ("Failed to write field info file '" +:+ txt_filepath +:+ "'")
                 (Some e)) in
      match Validation.text_write os txt_filepath with
      | Validation.NotOpened e => (None, failure e)
      | Validation.Interrupted e partial =>
          (Some {| txt_path := txt_filepath; txt_content := partial |},
           failure e)
      | Validation.Completed =>
          (Some {| txt_path := txt_filepath;
                   txt_content :=
                     field_info_header +:+ field_info_lines field_info_list |},
           Ok (Some txt_filepath))
      end
  end.

(** What [generate_files] has done: the workbook it saved, the text file
    it leaves behind, and the exception it raised if any. *)
Record generated : Type := {
  xlsx : option written_workbook;
  txt : option written_text;
  raised : option exn
}.

Definition generate_files (w : World) (os : Validation.Os) (self : t)
  : generated :=
  match _generate_excel_template w self with
  | Raise e => {| xlsx := None; txt := None; raised := Some e |}
  | Ok wb =>
      let info := _generate_field_info_file os self in
      {| xlsx := Some wb; txt := info.1;
         raised := match info.2 with Raise e => Some e | Ok _ => None end |}
  end.

(** [generate_template_files]: the exit status is [Some 1] when
    [sys.exit(1)] is called and [None] when the function returns. *)
Definition generate_template_files (w : World) (os : Validation.Os)
    (fs : gset string) (template_pdf_path output_dir : string)
  : generated * option Z :=
  match (_ ← Validation.check_file_exists w fs template_pdf_path;
         __init__ w template_pdf_path output_dir) with
  | Raise e => ({| xlsx := None; txt := None; raised := Some e |}, Some 1)
  | Ok generator =>
      let g := generate_files w os generator in
      (g, match raised g with Some _ => Some 1 | None => None end)
  end.

End TemplateGenerator.

(** ** core/form_filler.py *)

Module FormFiller.
Import Exceptions External.

(** (Success Status, Reason/Message) *)
Definition ProcessingResult : Type := bool * string.
Definition FailedRowInfo : Type := nat * string.

Record t : Type := {
  template_path : string;
  data_path : string;
  output_dir : string;
  overwrite : bool;
  pdf_field_names : option (gset string);
  xlsx_headers : option (list string);
  sheet : option Worksheet;
  total_rows : Z;
  common_fields : option (gset string);
  row_count : nat;
  success_count : nat;
  failed_rows : list FailedRowInfo
}.

Definition __init__ (w : World) (fs : gset string)
    (template_path data_path output_dir : string) (overwrite : bool)
  : result t :=
  if negb (isfile w fs template_path) then
    Raise (Exn FileOperationError
             ("Template PDF not found or is not a file: " +:+ template_path)
             None)
  else if negb (isfile w fs data_path) then
    Raise (Exn FileOperationError
             ("Data file not found or is not a file: " +:+ data_path) None)
  else if negb (isdir w output_dir) then
    Raise (Exn FileOperationError
             ("Output directory not found or is not a directory: "
              +:+ output_dir) None)
  else
    Ok {| template_path := template_path; data_path := data_path;
          output_dir := output_dir; overwrite := overwrite;
          pdf_field_names := None; xlsx_headers := None; sheet := None;
          total_rows := 0; common_fields := None;
          row_count := 0; success_count := 0; failed_rows := [] |}.

Definition set_pdf_field_names (self : t) (names : gset string) : t :=
  {| template_path := template_path self; data_path := data_path self;
     output_dir := output_dir self; overwrite := overwrite self;
     pdf_field_names := Some names; xlsx_headers := xlsx_headers self;
     sheet := sheet self; total_rows := total_rows self;
     common_fields := common_fields self; row_count := row_count self;
     success_count := success_count self; failed_rows := failed_rows self |}.

Definition set_excel_data (self : t) (sh : Worksheet)
    (headers : list string) (total : Z) : t :=
  {| template_path := template_path self; data_path := data_path self;
     output_dir := output_dir self; overwrite := overwrite self;
     pdf_field_names := pdf_field_names self; xlsx_headers := Some headers;
     sheet := Some sh; total_rows := total;
     common_fields := common_fields self; row_count := row_count self;
     success_count := success_count self; failed_rows := failed_rows self |}.

Definition set_common_fields (self : t) (common : gset string) : t :=
  {| template_path := template_path self; data_path := data_path self;
     output_dir := output_dir self; overwrite := overwrite self;
     pdf_field_names := pdf_field_names self;
     xlsx_headers := xlsx_headers self;
     sheet := sheet self; total_rows := total_rows self;
     common_fields := Some common; row_count := row_count self;
     success_count := success_count self; failed_rows := failed_rows self |}.

Definition set_tally (self : t) (rows succeeded : nat)
    (failed : list FailedRowInfo) : t :=
  {| template_path := template_path self; data_path := data_path self;
     output_dir := output_dir self; overwrite := overwrite self;
     pdf_field_names := pdf_field_names self;
     xlsx_headers := xlsx_headers self;
     sheet := sheet self; total_rows := total_rows self;
     common_fields := common_fields self; row_count := rows;
     success_count := succeeded; failed_rows := failed |}.

Definition _read_pdf_template_fields (w : World) (self : t) : result t :=
  try_except
    (fields ← pdf_get_fields w (template_path self);
     match fields with
     | None | Some [] =>
         Raise (Exn ConfigurationError
                  ("No fillable fields found in template PDF: "
                   +:+ template_path self) None)
     | Some fs => Ok (set_pdf_field_names self (list_to_set fs.*1))
     end)
    (fun e =>
       if isinstance e [PdfReadError] then
         Raise (Exn PDFReadError
                  ("Error reading PDF structure from '"
                   +:+ template_path self +:+ "'") (Some e))
       else
         Raise (Exn PDFReadError
                  ("Unexpected error reading PDF template fields '"
                   +:+ template_path self +:+ "'") (Some e))).

(** [str(h).strip() if h is not None else ''] *)
Definition header_name (h : cell) : string :=
  match h with
  | CNone => ""
  | _ => Py.strip (cell_str h)
  end.

Definition _read_excel_data (w : World) (self : t) : result t :=
  try_except
    (workbook ← load_workbook w (data_path self);
     match active workbook with
     | None =>
         Raise (Exn ExcelReadError
                  ("Could not get active sheet from Excel file: "
                   +:+ data_path self) None)
     | Some sh =>
         match sheet_rows sh with
         | [] =>
             Raise (Exn ExcelReadError
                      ("Excel file has no header row: " +:+ data_path self)
                      None)
         | xlsx_headers_raw :: _ =>
             let headers := header_name <$> xlsx_headers_raw in
             if forallb (fun h => String.eqb h "") headers then
               Raise (Exn ExcelReadError
                        ("Excel file has no valid headers in the first row: "
                         +:+ data_path self) None)
             else
               Ok (set_excel_data self sh headers
                     (if 1 <? max_row sh then max_row sh - 1 else 0))
         end
     end)
    (fun e =>
       Raise (Exn ExcelReadError
                ("Error reading Excel file " +:+ data_path self) (Some e))).

Definition _validate_headers_and_map_fields (self : t) : result t :=
  match pdf_field_names self, xlsx_headers self with
  | Some pdf_names, Some headers =>
      let xlsx_header_set : gset string := list_to_set headers in
      if bool_decide (Config.OUTPUT_FILENAME_COL ∉ xlsx_header_set) then
        Raise (Exn ConfigurationError
                 ("Required column '" +:+ Config.OUTPUT_FILENAME_COL
                  +:+ "' not found in Excel file headers.") None)
      else
        let xlsx_data_fields :=
          xlsx_header_set ∖ {[Config.OUTPUT_FILENAME_COL]} in
        let common := pdf_names ∩ xlsx_data_fields in
        if bool_decide (common = ∅) then
          Raise (Exn ConfigurationError
                   "No common fields found between PDF template and Excel headers. Cannot proceed."
                   None)
        else Ok (set_common_fields self common)
  | _, _ =>
      Raise (Exn ConfigurationError
               "Cannot validate headers: PDF fields or Excel headers not loaded."
               None)
  end.

(** The two informational sets logged as warnings by the validation. *)
Definition pdf_only_fields (pdf_names : gset string) (headers : list string)
  : gset string :=
  pdf_names ∖ (list_to_set headers ∖ {[Config.OUTPUT_FILENAME_COL]}).
Definition xlsx_only_fields (pdf_names : gset string) (headers : list string)
  : gset string :=
  (list_to_set headers ∖ {[Config.OUTPUT_FILENAME_COL]}) ∖ pdf_names.

(** [{header: value for header, value in zip(headers, row_values)}]: a
    later column wins over an earlier one of the same name. *)
Definition row_dict_of (headers : list string) (row_values : RowData)
  : gmap string cell :=
  foldl (fun m hv => <[hv.1 := hv.2]> m) ∅ (zip headers row_values).

(** [d.get(key)] *)
Definition dict_get (d : gmap string cell) (key : string) : cell :=
  default CNone (d !! key).

(** The value stored for one field by [_prepare_fill_data]. *)
Definition coerce (value : cell) : string :=
  match value with
  | CBool b =>
      if b then Config.PDF_VALUE_CHECKBOX_ON
      else Config.PDF_VALUE_CHECKBOX_OFF
  | CNone => ""
  | _ => cell_str value
  end.

Definition _prepare_fill_data (self : t) (row_dict : gmap string cell)
  : gmap string string :=
  match common_fields self with
  | None => ∅
  | Some common =>
      set_to_map (fun field => (field, coerce (dict_get row_dict field)))
        common
  end.

(** The loop over [writer.pages]: a [KeyError] is passed over, any other
    exception is logged as a warning; neither leaves the loop. *)
Fixpoint update_pages (pages : list (option exn)) : result () :=
  match pages with
  | [] => Ok ()
  | page :: rest =>
      _ ← try_except
            (match page with Some e => Raise e | None => Ok () end)
            (fun e => if isinstance e [KeyError] then Ok () else Ok ());
      update_pages rest
  end.

Definition step (outcome : option exn) : result () :=
  match outcome with Some e => Raise e | None => Ok () end.

(** [_fill_single_pdf]: returns the file system it leaves behind and
    either nothing or the exception it raises. Opening the output for
    writing creates the file, also when the write itself then fails. *)
Definition _fill_single_pdf (self : t) (b : writer_behaviour)
    (fill_data : gmap string string) (output_filepath : string)
    (fs : gset string) : gset string * result () :=
  let body : gset string * result () :=
    match step (clone b) with
    | Raise e => (fs, Raise e)
    | Ok _ =>
        match (_ ← update_pages (page_updates b); step (cleanup b)) with
        | Raise e => (fs, Raise e)
        | Ok _ =>
            match step (open_file b) with
            | Raise e => (fs, Raise e)
            | Ok _ => ({[output_filepath]} ∪ fs, step (write b))
            end
        end
    end in
  (body.1,
   try_except body.2
     (fun e =>
        if isinstance e [PdfReadError] then
          Raise (Exn PDFReadError
                   ("Template read error during cloning for "
                    +:+ Py.os_path_basename output_filepath) (Some e))
        else
          Raise (Exn PDFWriteError
                   ("PDF write error for "
                    +:+ Py.os_path_basename output_filepath) (Some e)))).

(** [all(v is None for v in row_values)] *)
Definition all_none (row_values : RowData) : bool :=
  forallb (fun v => bool_decide (v = CNone)) row_values.

(** The output file name read from a row, trimmed. *)
Definition output_filename_of (headers : list string) (row_values : RowData)
  : string :=
  match dict_get (row_dict_of headers row_values) Config.OUTPUT_FILENAME_COL
  with
  | CNone => ""
  | output_filename_raw => Py.strip (cell_str output_filename_raw)
  end.

(** The file name after the extension check. *)
Definition with_pdf_extension (current_output_filename : string) : string :=
  if negb (Py.endswith (Py.lower current_output_filename) ".pdf")
  then current_output_filename +:+ ".pdf"
  else current_output_filename.

(** The [try] block of [_process_single_row] with its two handlers, given
    what preparing the data and filling the document did. *)
Definition fill_attempt (current_output_filename : string)
    (body : result ()) : ProcessingResult :=
  match body with
  | Ok _ => (true, "Successfully generated " +:+ current_output_filename)
  | Raise e =>
      if isinstance e [PDFReadError; PDFWriteError] then
        (false, "PDF processing error: " +:+ exn_str e)
      else (false, "Unexpected error: " +:+ exn_str e)
  end.

Definition _process_single_row (w : World) (self : t) (row_num : nat)
    (row_values : RowData) (fs : gset string)
  : gset string * option ProcessingResult :=
  if all_none row_values then (fs, None)
  else
    match xlsx_headers self, common_fields self with
    | Some headers, Some _ =>
        let row_dict := row_dict_of headers row_values in
        let current_output_filename := output_filename_of headers row_values in
        if String.eqb current_output_filename "" then
          (fs, Some (false,
                     "'" +:+ Config.OUTPUT_FILENAME_COL +:+ "' is empty"))
        else
          let current_output_filename :=
            with_pdf_extension current_output_filename in
          let output_filepath :=
            Py.os_path_join (output_dir self) current_output_filename in
          if negb (overwrite self) && exists_ w fs output_filepath then
            (fs, Some (false,
                       "Output file exists: " +:+ current_output_filename
                       +:+ " (use --overwrite)"))
          else
            let fill_data := _prepare_fill_data self row_dict in
            let filled :=
              _fill_single_pdf self (pdf_writer w row_num) fill_data
                output_filepath fs in
            (filled.1, Some (fill_attempt current_output_filename filled.2))
    | _, _ =>
        (fs, Some (false,
                   "Internal error: Headers/common fields not available."))
    end.

(** The body of the loop of [run], after the call of
    [_process_single_row]. *)
Definition record (self : t) (row_num : nat)
    (result : option ProcessingResult) : t :=
  match result with
  | None => self
  | Some (success, message) =>
      if success then
        set_tally self (row_count self + 1) (success_count self + 1)
          (failed_rows self)
      else
        set_tally self (row_count self + 1) (success_count self)
          (failed_rows self ++ [(row_num, message)])
  end.

(** [for row_index, row_values in enumerate(row_iterator)], from
    [row_index] on. *)
Fixpoint run_rows (w : World) (row_index : nat) (rows : list RowData)
    (self : t) (fs : gset string) : gset string * t :=
  match rows with
  | [] => (fs, self)
  | row_values :: rest =>
      let row_num := (row_index + 2)%nat in
      let r := _process_single_row w self row_num row_values fs in
      run_rows w (S row_index) rest (record self row_num r.2) r.1
  end.

(** The rows [iter_rows(min_row=2)] yields. *)
Definition data_rows (sh : Worksheet) : list RowData := tail (sheet_rows sh).

Definition setup (w : World) (self : t) : result (t * Worksheet) :=
  self ← _read_pdf_template_fields w self;
  self ← _read_excel_data w self;
  self ← _validate_headers_and_map_fields self;
  match sheet self with
  | None =>
      Raise (Exn PyBulkPDFError
               "Internal error: Excel sheet not loaded after setup." None)
  | Some sh => Ok (self, sh)
  end.

Definition run (w : World) (self : t) (fs : gset string)
  : gset string * result t :=
  match setup w self with
  | Raise e => (fs, Raise e)
  | Ok (self, sh) =>
      let done := run_rows w 0 (data_rows sh) self fs in
      (done.1, Ok done.2)
  end.

(** [fill_pdf_forms]: the exit status is [Some 1] when [sys.exit(1)] is
    called and [None] when the function returns. *)
Definition fill_pdf_forms (w : World) (fs : gset string)
    (template_pdf_path data_file_path output_dir : string) (overwrite : bool)
  : gset string * option Z :=
  match (_ ← Validation.check_file_exists w fs template_pdf_path;
         _ ← Validation.check_file_exists w fs data_file_path;
         __init__ w fs template_pdf_path data_file_path output_dir overwrite)
  with
  | Raise _ => (fs, Some 1)
  | Ok filler =>
      match run w filler fs with
      | (fs', Raise _) => (fs', Some 1)
      | (fs', Ok _) => (fs', None)
      end
  end.

End FormFiller.

(** ** cli.py *)

Module Cli.
Import Exceptions External.

(** The parsed command line: the mode and its arguments. *)
Inductive Args : Type :=
  | generate_template (template output_dir : string)
  | fill_form (template data_file output_dir : string) (overwrite : bool).

(** [main] after the arguments are parsed: the files left behind and the
    exit status of the process. An exception of the preparation and a
    [sys.exit(1)] of the selected mode both end in status 1. *)
Definition main (w : World) (os : Validation.Os) (fs : gset string)
    (args : Args) : gset string * Z :=
  match args with
  | generate_template template output_dir =>
      match Validation.prepare_output_directory w os fs output_dir false true
      with
      | Raise _ => (fs, 1)
      | Ok w' =>
          let r := TemplateGenerator.generate_template_files w' os fs
                     template output_dir in
          let written :=
            from_option (fun wb => {[TemplateGenerator.wb_path wb]}) ∅
              (TemplateGenerator.xlsx r.1)
            ∪ from_option (fun t => {[TemplateGenerator.txt_path t]}) ∅
                (TemplateGenerator.txt r.1) in
          (written ∪ fs, match r.2 with Some code => code | None => 0 end)
      end
  | fill_form template data_file output_dir overwrite =>
      match Validation.prepare_output_directory w os fs output_dir true
              overwrite with
      | Raise _ => (fs, 1)
      | Ok w' =>
          let r := FormFiller.fill_pdf_forms w' fs template data_file
                     output_dir overwrite in
          (r.1, match r.2 with Some code => code | None => 0 end)
      end
  end.

End Cli.

(** ** Notions used to state the properties *)

Module Props.
Import Exceptions External.

(** Every character of [s] is whitespace. *)
Fixpoint all_space (s : string) : bool :=
  match s with
  | EmptyString => true
  | String c s' => Py.isspace c && all_space s'
  end.

Definition first_char (s : string) : option ascii :=
  match s with
  | EmptyString => None
  | String c _ => Some c
  end.

Fixpoint last_char (s : string) : option ascii :=
  match s with
  | EmptyString => None
  | String c EmptyString => Some c
  | String _ s' => last_char s'
  end.

(** [s] neither starts nor ends with whitespace. *)
Definition trimmed (s : string) : Prop :=
  (∀ c, first_char s = Some c → Py.isspace c = false) ∧
  (∀ c, last_char s = Some c → Py.isspace c = false).

(** The tally of a run is consistent. *)
Definition tally_consistent (self : FormFiller.t) : Prop :=
  (FormFiller.success_count self + length (FormFiller.failed_rows self)
   = FormFiller.row_count self)%nat.

(** The rows of a sheet that count as data rows. *)
Definition non_blank (rows : list RowData) : list RowData :=
  filter (fun r => FormFiller.all_none r = false) rows.

(** Two states of a filler that differ at most in the tally. *)
Definition same_setup (a b : FormFiller.t) : Prop :=
  FormFiller.xlsx_headers a = FormFiller.xlsx_headers b ∧
  FormFiller.common_fields a = FormFiller.common_fields b ∧
  FormFiller.output_dir a = FormFiller.output_dir b ∧
  FormFiller.overwrite a = FormFiller.overwrite b.

(** The reasons given for the two expected skips. *)
Definition reason_empty : string :=
  "'" +:+ Config.OUTPUT_FILENAME_COL +:+ "' is empty".
Definition reason_exists (filename : string) : string :=
  "Output file exists: " +:+ filename +:+ " (use --overwrite)".

(** The file name and the path a row is written to. *)
Definition normalized_filename (headers : list string) (row : RowData)
  : string :=
  FormFiller.with_pdf_extension (FormFiller.output_filename_of headers row).
Definition output_path (self : FormFiller.t) (headers : list string)
    (row : RowData) : string :=
  Py.os_path_join (FormFiller.output_dir self)
    (normalized_filename headers row).

(** The engine completes every step. *)
Definition engine_ok (b : writer_behaviour) : Prop :=
  clone b = None ∧ cleanup b = None ∧ open_file b = None ∧ write b = None.

(** The engine gets as far as creating the output file. *)
Definition engine_opens (b : writer_behaviour) : Prop :=
  clone b = None ∧ cleanup b = None ∧ open_file b = None.

(** The engine raises [e] at one of its steps: cloning, the clean-up,
    opening the output, writing. *)
Definition engine_raises (b : writer_behaviour) (e : exn) : Prop :=
  clone b = Some e
  ∨ (clone b = None ∧ cleanup b = Some e)
  ∨ (clone b = None ∧ cleanup b = None ∧ open_file b = Some e)
  ∨ (clone b = None ∧ cleanup b = None ∧ open_file b = None
     ∧ write b = Some e).

(** The exception [_fill_single_pdf] raises for an exception [e] of the
    engine. *)
Definition wrapped (output_filepath : string) (e : exn) : exn :=
  if isinstance e [PdfReadError] then
    Exn PDFReadError
      ("Template read error during cloning for "
       +:+ Py.os_path_basename output_filepath) (Some e)
  else
    Exn PDFWriteError
      ("PDF write error for " +:+ Py.os_path_basename output_filepath)
      (Some e).

(** The designator invariant as the specification words it: a header
    row in which the designator column does not appear exactly once is
    rejected with a [ConfigurationError]. *)
Definition designator_exactly_once : Prop :=
  ∀ (self : FormFiller.t) (names : gset string) (headers : list string),
    FormFiller.pdf_field_names self = Some names →
    FormFiller.xlsx_headers self = Some headers →
    length (filter (fun h => h = Config.OUTPUT_FILENAME_COL) headers) ≠ 1%nat →
    ∃ msg, FormFiller._validate_headers_and_map_fields self
           = Raise (Exn ConfigurationError msg None).

(** The token the specification gives for one entry of an options list:
    the second element of a pair, the first of a one-element entry, the
    string form of anything else. *)
Definition spec_choice_token (opt : PDFAnalyzer.pyval) : string :=
  match opt with
  | PDFAnalyzer.VSeq (_ :: export :: _) _ => PDFAnalyzer.py_str export
  | PDFAnalyzer.VSeq [single] _ => PDFAnalyzer.py_str single
  | _ => PDFAnalyzer.py_str opt
  end.

(** The specification read entry by entry. *)
Definition choice_tokens_per_entry : Prop :=
  ∀ (properties : PDFAnalyzer.field_properties)
    (options : list PDFAnalyzer.pyval),
    PDFAnalyzer.Opt properties = Some options →
    options ≠ [] →
    PDFAnalyzer.choice_export_values properties
    = Ok (spec_choice_token <$> options).

(** A list or tuple with at least one element. *)
Definition is_nonempty_seq (v : PDFAnalyzer.pyval) : bool :=
  match v with
  | PDFAnalyzer.VSeq (_ :: _) _ => true
  | _ => false
  end.

(** A failed/skipped entry whose reason is the existing output. *)
Definition skipped_as_existing (info : FormFiller.FailedRowInfo) : Prop :=
  Py.startswith info.2 "Output file exists: " = true.

(** Idempotence under no-overwrite as the specification words it: after a
    first run, a second run on the same inputs creates nothing, succeeds on
    no row, and marks every row it sees as skipped because the output
    exists. *)
Definition idempotent_under_no_overwrite : Prop :=
  ∀ (w : World) (fs0 fs1 fs2 : gset string)
    (template_path data_path output_dir : string)
    (self s1 s2 : FormFiller.t),
    FormFiller.__init__ w fs0 template_path data_path output_dir false
    = Ok self →
    FormFiller.run w self fs0 = (fs1, Ok s1) →
    FormFiller.run w self fs1 = (fs2, Ok s2) →
    fs2 = fs1
    ∧ FormFiller.success_count s2 = 0%nat
    ∧ length (FormFiller.failed_rows s2) = FormFiller.row_count s2
    ∧ Forall skipped_as_existing (FormFiller.failed_rows s2).

(** The reason a row is skipped for when it is processed again after its
    output has been created. *)
Definition rerun_reason (headers : list string) (row : RowData) : string :=
  if String.eqb (FormFiller.output_filename_of headers row) ""
  then reason_empty
  else reason_exists (normalized_filename headers row).

Fixpoint rerun_failures (headers : list string) (row_index : nat)
    (rows : list RowData) : list FormFiller.FailedRowInfo :=
  match rows with
  | [] => []
  | row :: rest =>
      (if FormFiller.all_none row then []
       else [((row_index + 2)%nat, rerun_reason headers row)])
      ++ rerun_failures headers (S row_index) rest
  end.

(** The output paths of the rows that are not blank and have a
    designator. *)
Definition row_paths (self : FormFiller.t) (headers : list string)
    (rows : list RowData) : gset string :=
  list_to_set
    (output_path self headers
     <$> filter (fun row =>
                   FormFiller.all_none row = false
                   ∧ FormFiller.output_filename_of headers row ≠ "") rows).

(** The entries a run adds to the failed/skipped list when only the rows
    without designator are turned down. *)
Fixpoint empty_designator_failures (headers : list string) (row_index : nat)
    (rows : list RowData) : list FormFiller.FailedRowInfo :=
  match rows with
  | [] => []
  | row :: rest =>
      (if FormFiller.all_none row then []
       else if String.eqb (FormFiller.output_filename_of headers row) ""
            then [((row_index + 2)%nat, reason_empty)]
            else [])
      ++ empty_designator_failures headers (S row_index) rest
  end.

(** The rows that have a designator. *)
Definition named_rows (headers : list string) (rows : list RowData)
  : list RowData :=
  filter (fun row =>
            FormFiller.all_none row = false
            ∧ FormFiller.output_filename_of headers row ≠ "") rows.

(** A field that is a button or a choice. *)
Definition non_text (f : string * PDFAnalyzer.field_properties) : Prop :=
  PDFAnalyzer.FT f.2 = Some Config.FIELD_TYPE_BUTTON
  ∨ PDFAnalyzer.FT f.2 = Some Config.FIELD_TYPE_CHOICE.

Global Instance non_text_dec f : Decision (non_text f).
Proof. unfold non_text. apply _. Defined.

(** An options list on which the choice branch cannot raise: empty,
    starting with something that is not a non-empty list or tuple, or
    made of non-empty lists and tuples only. *)
Definition uniform_options (options : list PDFAnalyzer.pyval) : Prop :=
  match options with
  | [] => True
  | first :: _ =>
      is_nonempty_seq first = false
      ∨ Forall (fun o => is_nonempty_seq o = true) options
  end.

(** The engine behaviour [b] with other outcomes of the page updates. *)
Definition with_pages (b : writer_behaviour) (pages : list (option exn))
  : writer_behaviour :=
  {| clone := clone b; page_updates := pages; cleanup := cleanup b;
     open_file := open_file b; write := write b |}.

(** The world [w] with another document engine. *)
Definition with_engine (w : World) (engine : nat → writer_behaviour)
  : World :=
  {| isdir := isdir w; isother := isother w;
     pdf_get_fields := pdf_get_fields w; load_workbook := load_workbook w;
     pdf_writer := engine; workbook_save := workbook_save w |}.

(** Two worlds that differ at most in what the engine does when it fills
    a document. *)
Definition same_inputs (w w' : World) : Prop :=
  (∀ p, isdir w' p = isdir w p)
  ∧ (∀ p, isother w' p = isother w p)
  ∧ (∀ p, pdf_get_fields w' p = pdf_get_fields w p)
  ∧ (∀ p, load_workbook w' p = load_workbook w p).

(** An entry of the list refers to the row of that number, which is not
    blank; [i] is the index of the first of [rows]. *)
Definition refers (i : nat) (rows : list RowData)
    (info : FormFiller.FailedRowInfo) : Prop :=
  ∃ (k : nat) (row : RowData),
    info.1 = (i + 2 + k)%nat ∧ rows !! k = Some row
    ∧ FormFiller.all_none row = false.

(** A line of the field information that describes the field [f]. *)
Definition describes (f : string * PDFAnalyzer.field_properties)
    (line : string) : Prop :=
  ∃ rest : string,
    line = ("Field '" +:+ f.1 +:+ "' (Button): Expected values ") +:+ rest
    ∨ line = ("Field '" +:+ f.1 +:+ "' (Choice): Expected values ") +:+ rest.

(** The path of the tabular template a generator writes. *)
Definition xlsx_path_of (self : TemplateGenerator.t) : string :=
  Py.os_path_join (TemplateGenerator.output_dir self)
    (TemplateGenerator.base_filename self +:+ Config.TEMPLATE_SUFFIX).

(** The path of its field-information file. *)
Definition txt_path_of (self : TemplateGenerator.t) : string :=
  Py.os_path_join (TemplateGenerator.output_dir self)
    (TemplateGenerator.base_filename self +:+ Config.FIELD_INFO_SUFFIX).

(** The exception [_generate_field_info_file] raises for an exception
    [cause] met while the text file is written. *)
Definition text_failure (self : TemplateGenerator.t) (cause : exn) : exn :=
  Exn FileOperationError
    ("Failed to write field info file '" +:+ txt_path_of self +:+ "'")
    (Some cause).

(** The classes of the exceptions that asking an entry for its length or
    for one of its elements raises. *)
Definition subscript_error (e : exn) : Prop :=
  exn_cls e = TypeError ∨ exn_cls e = IndexError ∨ exn_cls e = KeyError.

(** An exception arises while the engine produces a document: at one of
    the steps of [engine_raises], or at the update of a page, other than
    the [KeyError] of a field that the page does not have. *)
Definition engine_exception (b : writer_behaviour) (e : exn) : Prop :=
  engine_raises b e
  ∨ (clone b = None ∧ Some e ∈ page_updates b
     ∧ isinstance e [KeyError] = false).

(** The containment of the exceptions of a row as the specification words
    it: whenever an exception arises while the document of a row is
    produced, the row ends as failed. *)
Definition exceptions_become_failures : Prop :=
  ∀ (w : World) (self : FormFiller.t) (headers : list string)
    (common : gset string) (n : nat) (row : RowData) (fs : gset string)
    (e : exn),
    FormFiller.xlsx_headers self = Some headers →
    FormFiller.common_fields self = Some common →
    FormFiller.all_none row = false →
    FormFiller.output_filename_of headers row ≠ "" →
    negb (FormFiller.overwrite self)
    && exists_ w fs (output_path self headers row) = false →
    engine_exception (pdf_writer w n) e →
    ∃ reason,
      (FormFiller._process_single_row w self n row fs).2
      = Some (false, reason).

End Props.

(** ** Concrete scenarios *)

Module Scenario.
Import Exceptions External.

Definition text_field : PDFAnalyzer.field_properties :=
  {| PDFAnalyzer.FT := Some Config.FIELD_TYPE_TEXT;
     PDFAnalyzer.AP := None; PDFAnalyzer.Opt := None |}.

(** The template with the fields Name, Date and Approved. *)
Definition template : PDFAnalyzer.fields_dict :=
  [("Name", text_field); ("Date", text_field); ("Approved", text_field)].

Definition header_row : RowData :=
  [CStr "Name"; CStr "Date"; CStr "Approved"; CStr "_output_filename"].

Definition alice : RowData :=
  [CStr "Alice"; CStr "2025-04-16"; CBool true; CStr "alice"].
Definition no_designator : RowData :=
  [CStr "Bob"; CStr "2025-04-17"; CBool false; CStr "  "].
Definition blank : RowData := [CNone; CNone; CNone; CNone].

(** An engine step sequence without failure, on a one-page template. *)
Definition healthy : writer_behaviour :=
  {| clone := None; page_updates := [None]; cleanup := None;
     open_file := None; write := None |}.

(** A world in which [get_fields] answers [fields], the sheet holds
    [rows], and the engine behaves as [engine] says. *)
Definition world (fields : option PDFAnalyzer.fields_dict)
    (rows : list RowData) (engine : nat → writer_behaviour) : World :=
  {| isdir := fun p => bool_decide (p = "out");
     isother := fun _ => false;
     pdf_get_fields := fun _ => Ok fields;
     load_workbook := fun _ =>
       Ok {| active := Some {| sheet_rows := rows;
                               max_row := Z.of_nat (length rows) |} |};
     pdf_writer := engine;
     workbook_save := fun _ => None |}.

Definition files : gset string := {["template.pdf"; "data.xlsx"]}.

(** The filler [FormFiller("template.pdf", "data.xlsx", "out", overwrite)]
    right after construction. *)
Definition filler (overwrite : bool) : FormFiller.t :=
  {| FormFiller.template_path := "template.pdf";
     FormFiller.data_path := "data.xlsx";
     FormFiller.output_dir := "out";
     FormFiller.overwrite := overwrite;
     FormFiller.pdf_field_names := None;
     FormFiller.xlsx_headers := None;
     FormFiller.sheet := None;
     FormFiller.total_rows := 0;
     FormFiller.common_fields := None;
     FormFiller.row_count := 0;
     FormFiller.success_count := 0;
     FormFiller.failed_rows := [] |}.

(** The same filler once the set-up has succeeded on [header_row]. *)
Definition ready (overwrite : bool) : FormFiller.t :=
  FormFiller.set_common_fields
    (FormFiller.set_excel_data
       (FormFiller.set_pdf_field_names (filler overwrite)
          {["Name"; "Date"; "Approved"]})
       {| sheet_rows := [header_row]; max_row := 1 |}
       ["Name"; "Date"; "Approved"; "_output_filename"] 0)
    {["Name"; "Date"; "Approved"]}.

(** What a run returns, or the filler it started from when it raised. *)
Definition outcome (w : World) (self : FormFiller.t) (fs : gset string)
  : FormFiller.t :=
  match (FormFiller.run w self fs).2 with
  | Ok self' => self'
  | Raise _ => self
  end.

(** The filler once the template and a sheet with the given header names
    have been read. *)
Definition loaded (headers : list string) : FormFiller.t :=
  FormFiller.set_excel_data
    (FormFiller.set_pdf_field_names (filler false)
       {["Name"; "Date"; "Approved"]})
    {| sheet_rows := [CStr <$> headers]; max_row := 1 |} headers 0.

(** A choice field whose options list starts with a display/export pair
    and goes on with a bare value. *)
Definition mixed_choice : PDFAnalyzer.field_properties :=
  {| PDFAnalyzer.FT := Some Config.FIELD_TYPE_CHOICE;
     PDFAnalyzer.AP := None;
     PDFAnalyzer.Opt :=
       Some [PDFAnalyzer.VSeq [PDFAnalyzer.VStr "D1"; PDFAnalyzer.VStr "E1"]
               "['D1', 'E1']";
             PDFAnalyzer.VStr "ab"] |}.

(** A choice field given as display/export pairs, and a checkbox. *)
Definition paired_choice : PDFAnalyzer.field_properties :=
  {| PDFAnalyzer.FT := Some Config.FIELD_TYPE_CHOICE;
     PDFAnalyzer.AP := None;
     PDFAnalyzer.Opt :=
       Some [PDFAnalyzer.VSeq
               [PDFAnalyzer.VStr "Display1"; PDFAnalyzer.VStr "Export1"]
               "('Display1', 'Export1')";
             PDFAnalyzer.VSeq
               [PDFAnalyzer.VStr "Display2"; PDFAnalyzer.VStr "Export2"]
               "('Display2', 'Export2')"] |}.
Definition checkbox : PDFAnalyzer.field_properties :=
  {| PDFAnalyzer.FT := Some Config.FIELD_TYPE_BUTTON;
     PDFAnalyzer.AP :=
       Some (PDFAnalyzer.ApDict (Some (PDFAnalyzer.NDict ["/Yes"; "/Off"])));
     PDFAnalyzer.Opt := None |}.

(** An operating system on which every call succeeds and the output
    directory is empty. *)
Definition calm : Validation.Os :=
  {| Validation.listdir := fun _ => Ok [];
     Validation.makedirs := fun _ => None;
     Validation.text_write := fun _ => Validation.Completed |}.

(** The same with a file already in every directory. *)
Definition crowded : Validation.Os :=
  {| Validation.listdir := fun _ => Ok ["old.pdf"];
     Validation.makedirs := fun _ => None;
     Validation.text_write := fun _ => Validation.Completed |}.

(** A template with a text field, a checkbox and a choice. *)
Definition form : PDFAnalyzer.fields_dict :=
  [("Name", text_field); ("Agree", checkbox); ("Colour", paired_choice)].

(** An engine that fills the document although the update of its one
    page raises. *)
Definition grumbling : writer_behaviour :=
  {| clone := None;
     page_updates :=
       [Some (Exn (OtherException "ValueError") "bad field value" None)];
     cleanup := None; open_file := None; write := None |}.

(** A choice field whose options list starts with a display/export pair
    and goes on with a dictionary. *)
Definition dict_choice : PDFAnalyzer.field_properties :=
  {| PDFAnalyzer.FT := Some Config.FIELD_TYPE_CHOICE;
     PDFAnalyzer.AP := None;
     PDFAnalyzer.Opt :=
       Some [PDFAnalyzer.VSeq [PDFAnalyzer.VStr "D"; PDFAnalyzer.VStr "E"]
               "['D', 'E']";
             PDFAnalyzer.VDict
               {[PDFAnalyzer.KStr "/V" := PDFAnalyzer.VStr "x"]}
               "{'/V': 'x'}"] |}.

(** The same with a number in place of the dictionary. *)
Definition number_choice : PDFAnalyzer.field_properties :=
  {| PDFAnalyzer.FT := Some Config.FIELD_TYPE_CHOICE;
     PDFAnalyzer.AP := None;
     PDFAnalyzer.Opt :=
       Some [PDFAnalyzer.VSeq [PDFAnalyzer.VStr "D"; PDFAnalyzer.VStr "E"]
               "['D', 'E']";
             PDFAnalyzer.VObj "int" "5"] |}.

(** An operating system on which the text file is opened and the writing
    then fails. *)
Definition full_disk : Validation.Os :=
  {| Validation.listdir := fun _ => Ok [];
     Validation.makedirs := fun _ => None;
     Validation.text_write := fun _ =>
       Validation.Interrupted
         (Exn (OtherException "OSError") "No space left on device" None)
         "Information about" |}.

(** A world with the directory "out" and a device at "/dev/null". *)
Definition with_device : World :=
  {| isdir := fun p => bool_decide (p = "out");
     isother := fun p => bool_decide (p = "/dev/null");
     pdf_get_fields := fun _ => Ok None;
     load_workbook := fun _ => Ok {| active := None |};
     pdf_writer := fun _ => healthy;
     workbook_save := fun _ => None |}.

(** A world for the two-row sheet [alice], [alice]. *)
Definition twice : World :=
  world (Some template) [header_row; alice; no_designator; alice]
    (fun _ => healthy).

End Scenario.

(** * Properties *)

Import Exceptions External Props.

(** ** Facts on the string built-ins *)

Section PyFacts.

Example strip_ex : Py.strip "  report " = "report".
Proof. reflexivity. Qed.
Example sorted_ex : Py.sorted ["b"; "a"; "C"] = ["C"; "a"; "b"].
Proof. reflexivity. Qed.
Example join_ex : Py.os_path_join "out" "a.pdf" = "out/a.pdf".
Proof. reflexivity. Qed.
Example base_ex : Py.os_path_basename "out/x/a.pdf" = "a.pdf".
Proof. reflexivity. Qed.
Example lower_ex : Py.lower "Report.PDF" = "report.pdf".
Proof. reflexivity. Qed.
Example str_ex : Py.str_int (-123) = "-123".
Proof. reflexivity. Qed.

Lemma eqb_string_refl (s : string) : String.eqb s s = true.
Proof. apply String.eqb_refl. Qed.

Lemma app_cons (c : ascii) (a b : string) :
  String c a +:+ b = String c (a +:+ b).
Proof. reflexivity. Qed.

Lemma app_nil_s (b : string) : "" +:+ b = b.
Proof. reflexivity. Qed.

Lemma app_empty_r (s : string) : s +:+ "" = s.
Proof. induction s as [|c s IH]; [done|]. by rewrite app_cons, IH. Qed.

Lemma app_assoc_s (a b c : string) : (a +:+ b) +:+ c = a +:+ (b +:+ c).
Proof. induction a as [|x a IH]; [done|]. by rewrite !app_cons, IH. Qed.

Lemma endswith_unfold (s suffix : string) :
  Py.endswith s suffix =
  if String.eqb s suffix then true
  else match s with
       | EmptyString => false
       | String _ s' => Py.endswith s' suffix
       end.
Proof. by destruct s. Qed.

Lemma endswith_spec (s suffix : string) :
  Py.endswith s suffix = true ↔ ∃ p, s = p +:+ suffix.
Proof.
  induction s as [|c s IH]; rewrite endswith_unfold;
    [destruct (String.eqb_spec "" suffix) as [<-|Hne]
    |destruct (String.eqb_spec (String c s) suffix) as [<-|Hne]].
  - split; [intros _; exists ""; reflexivity|done].
  - split; [intros [=]|]. intros [[|c p] Hp]; [by rewrite app_nil_s in Hp|].
    by rewrite app_cons in Hp.
  - split; [intros _; exists ""; reflexivity|done].
  - rewrite IH. split.
    + intros [p ->]. exists (String c p). reflexivity.
    + intros [[|c' p] Hp]; [by rewrite app_nil_s in Hp|].
      rewrite app_cons in Hp. exists p. congruence.
Qed.

Lemma endswith_app (p suffix : string) :
  Py.endswith (p +:+ suffix) suffix = true.
Proof. apply endswith_spec. exists p. reflexivity. Qed.

Lemma lower_app (a b : string) :
  Py.lower (a +:+ b) = Py.lower a +:+ Py.lower b.
Proof.
  induction a as [|c a IH]; [done|].
  rewrite app_cons. simpl. by rewrite app_cons, IH.
Qed.

Lemma lstrip_split (s : string) :
  ∃ l, s = l +:+ Py.lstrip s ∧ all_space l = true.
Proof.
  induction s as [|c s [l [Hl Hs]]]; simpl.
  - exists "". split; reflexivity.
  - destruct (Py.isspace c) eqn:Hc.
    + exists (String c l). rewrite app_cons. simpl. rewrite Hc, Hs.
      split; [congruence|done].
    + exists "". split; reflexivity.
Qed.

Lemma lstrip_first (s : string) c :
  first_char (Py.lstrip s) = Some c → Py.isspace c = false.
Proof.
  induction s as [|x s IH]; simpl; [done|].
  destruct (Py.isspace x) eqn:Hx; [done|]. simpl. congruence.
Qed.

Lemma rstrip_split (s : string) :
  ∃ r, s = Py.rstrip s +:+ r ∧ all_space r = true.
Proof.
  induction s as [|c s [r [Hr Hs]]]; simpl.
  - exists "". split; reflexivity.
  - destruct (Py.rstrip s) as [|c' t] eqn:Ht.
    + rewrite app_nil_s in Hr. destruct (Py.isspace c) eqn:Hc.
      * exists (String c r). rewrite app_nil_s. simpl. rewrite Hc, Hs.
        split; [congruence|done].
      * exists r. rewrite app_cons, app_nil_s. split; [congruence|done].
    + exists r. rewrite app_cons. split; [congruence|done].
Qed.

Lemma rstrip_last (s : string) c :
  last_char (Py.rstrip s) = Some c → Py.isspace c = false.
Proof.
  induction s as [|x s IH]; simpl; [done|].
  destruct (Py.rstrip s) as [|c' t] eqn:Ht.
  - destruct (Py.isspace x) eqn:Hx; simpl; [done|congruence].
  - intros H. apply IH. exact H.
Qed.

Lemma rstrip_first (s : string) c :
  first_char (Py.rstrip s) = Some c → first_char s = Some c.
Proof.
  destruct s as [|x s]; simpl; [done|].
  destruct (Py.rstrip s); [destruct (Py.isspace x)|]; simpl; congruence.
Qed.

(** [strip] removes a whitespace prefix and a whitespace suffix, and what
    is left neither starts nor ends with whitespace. *)
Lemma strip_spec (s : string) :
  (∃ l r, s = l +:+ Py.strip s +:+ r ∧ all_space l = true ∧ all_space r = true)
  ∧ trimmed (Py.strip s).
Proof.
  unfold Py.strip. split.
  - destruct (lstrip_split s) as [l [Hl Hsl]].
    destruct (rstrip_split (Py.lstrip s)) as [r [Hr Hsr]].
    exists l, r. split; [|done]. by rewrite <- Hr.
  - split; intros c Hc.
    + eapply lstrip_first, rstrip_first, Hc.
    + eapply rstrip_last, Hc.
Qed.

Lemma with_pdf_extension_ends (s : string) :
  Py.endswith (Py.lower (FormFiller.with_pdf_extension s)) ".pdf" = true.
Proof.
  unfold FormFiller.with_pdf_extension.
  destruct (Py.endswith (Py.lower s) ".pdf") eqn:E; simpl; [done|].
  rewrite lower_app. apply endswith_app.
Qed.

End PyFacts.

(** ** Inversion of the set-up steps *)

Section Setup.

Ltac unfold_bind := unfold mbind, result_bind, bind, try_except in *.

Lemma read_pdf_ok (w : World) (self s : FormFiller.t) :
  FormFiller._read_pdf_template_fields w self = Ok s →
  ∃ f fs, pdf_get_fields w (FormFiller.template_path self) = Ok (Some (f :: fs))
          ∧ s = FormFiller.set_pdf_field_names self (list_to_set (f :: fs).*1).
Proof.
  unfold FormFiller._read_pdf_template_fields. unfold_bind.
  destruct (pdf_get_fields w _) as [[[|f fs]|]|e];
    try (by intros [=]); try (by destruct (isinstance _ _); intros [=]).
  intros [= <-]. by exists f, fs.
Qed.

Lemma read_excel_ok (w : World) (self s : FormFiller.t) :
  FormFiller._read_excel_data w self = Ok s →
  ∃ wb sh raw rest,
    load_workbook w (FormFiller.data_path self) = Ok wb
    ∧ active wb = Some sh ∧ sheet_rows sh = raw :: rest
    ∧ s = FormFiller.set_excel_data self sh (FormFiller.header_name <$> raw)
            (if 1 <? max_row sh then max_row sh - 1 else 0).
Proof.
  unfold FormFiller._read_excel_data. unfold_bind.
  destruct (load_workbook w _) as [wb|e]; [|discriminate].
  destruct (active wb) as [sh|] eqn:Hact; [|discriminate].
  destruct (sheet_rows sh) as [|raw rest] eqn:Hrows; [discriminate|].
  destruct (forallb _ _); [discriminate|].
  intros [= <-]. by exists wb, sh, raw, rest.
Qed.

Lemma validate_ok (self s : FormFiller.t) :
  FormFiller._validate_headers_and_map_fields self = Ok s →
  ∃ names headers,
    FormFiller.pdf_field_names self = Some names
    ∧ FormFiller.xlsx_headers self = Some headers
    ∧ Config.OUTPUT_FILENAME_COL ∈ headers
    ∧ names ∩ (list_to_set headers ∖ {[Config.OUTPUT_FILENAME_COL]}) ≠ ∅
    ∧ s = FormFiller.set_common_fields self
            (names ∩ (list_to_set headers ∖ {[Config.OUTPUT_FILENAME_COL]})).
Proof.
  unfold FormFiller._validate_headers_and_map_fields.
  destruct (FormFiller.pdf_field_names self) as [names|]; [|discriminate].
  destruct (FormFiller.xlsx_headers self) as [headers|]; [|discriminate].
  case_bool_decide as Hcol; [discriminate|].
  case_bool_decide as Hcommon; [discriminate|].
  intros [= <-]. exists names, headers. split_and!; try done.
  by apply elem_of_list_to_set in Hcol.
Qed.

(** A successful set-up leaves the tally alone and loads the sheet, the
    headers and the common fields. *)
Lemma setup_ok (w : World) (self s : FormFiller.t) (sh : Worksheet) :
  FormFiller.setup w self = Ok (s, sh) →
  FormFiller.sheet s = Some sh
  ∧ FormFiller.row_count s = FormFiller.row_count self
  ∧ FormFiller.success_count s = FormFiller.success_count self
  ∧ FormFiller.failed_rows s = FormFiller.failed_rows self
  ∧ FormFiller.overwrite s = FormFiller.overwrite self
  ∧ FormFiller.output_dir s = FormFiller.output_dir self
  ∧ is_Some (FormFiller.xlsx_headers s)
  ∧ is_Some (FormFiller.common_fields s).
Proof.
  unfold FormFiller.setup. unfold_bind.
  destruct (FormFiller._read_pdf_template_fields w self) as [s1|] eqn:H1;
    [|discriminate].
  destruct (FormFiller._read_excel_data w s1) as [s2|] eqn:H2; [|discriminate].
  destruct (FormFiller._validate_headers_and_map_fields s2) as [s3|] eqn:H3;
    [|discriminate].
  destruct (FormFiller.sheet s3) as [sh'|] eqn:Hsh; [|discriminate].
  intros [= <- <-].
  apply read_pdf_ok in H1 as (f & fs & _ & ->).
  apply read_excel_ok in H2 as (wb & sh0 & raw & rest & _ & _ & _ & ->).
  apply validate_ok in H3 as (names & headers & _ & Hh & _ & _ & ->).
  simpl in *. split_and!; try done; eauto.
Qed.

End Setup.

(** ** The row loop and its tally *)

Section Tally.

Lemma all_none_Forall (row : RowData) :
  FormFiller.all_none row = true ↔ Forall (fun v => v = CNone) row.
Proof.
  unfold FormFiller.all_none. rewrite forallb_forall, Forall_forall.
  split; intros H v Hv.
  - apply list_elem_of_In in Hv. specialize (H v Hv). by case_bool_decide.
  - apply list_elem_of_In in Hv. specialize (H v Hv). by case_bool_decide.
Qed.

Lemma process_blank (w : World) (self : FormFiller.t) (n : nat)
    (row : RowData) (fs : gset string) :
  FormFiller.all_none row = true →
  FormFiller._process_single_row w self n row fs = (fs, None).
Proof. intros H. unfold FormFiller._process_single_row. by rewrite H. Qed.

Lemma process_non_blank (w : World) (self : FormFiller.t) (n : nat)
    (row : RowData) (fs : gset string) :
  FormFiller.all_none row = false →
  ∃ r, (FormFiller._process_single_row w self n row fs).2 = Some r.
Proof.
  intros H. unfold FormFiller._process_single_row. rewrite H.
  destruct (FormFiller.xlsx_headers self), (FormFiller.common_fields self);
    simpl; eauto.
  destruct (String.eqb _ _); simpl; eauto.
  destruct (negb _ && _); simpl; eauto.
Qed.

Lemma record_consistent (self : FormFiller.t) (n : nat)
    (r : option FormFiller.ProcessingResult) :
  tally_consistent self → tally_consistent (FormFiller.record self n r).
Proof.
  unfold tally_consistent. destruct r as [[[] m]|]; simpl; [| |done].
  - lia.
  - rewrite length_app. simpl. lia.
Qed.

Lemma record_row_count (self : FormFiller.t) (n : nat)
    (r : option FormFiller.ProcessingResult) :
  FormFiller.row_count (FormFiller.record self n r)
  = (FormFiller.row_count self
     + match r with Some _ => 1 | None => 0 end)%nat.
Proof. destruct r as [[[] m]|]; simpl; lia. Qed.

Lemma record_same_setup (self : FormFiller.t) (n : nat)
    (r : option FormFiller.ProcessingResult) :
  same_setup self (FormFiller.record self n r)
  ∧ FormFiller.sheet (FormFiller.record self n r) = FormFiller.sheet self.
Proof. by destruct r as [[[] m]|]. Qed.

Lemma run_rows_tally (w : World) (rows : list RowData) :
  ∀ (i : nat) (self : FormFiller.t) (fs : gset string),
    let self' := (FormFiller.run_rows w i rows self fs).2 in
    (tally_consistent self → tally_consistent self')
    ∧ FormFiller.row_count self'
      = (FormFiller.row_count self + length (non_blank rows))%nat
    ∧ FormFiller.sheet self' = FormFiller.sheet self
    ∧ same_setup self self'.
Proof.
  induction rows as [|row rest IH]; intros i self fs; simpl.
  - split_and!; [done|lia|done|done].
  - set (r := FormFiller._process_single_row w self (i + 2) row fs).
    destruct (IH (S i) (FormFiller.record self (i + 2) r.2) r.1)
      as (Hc & Hn & Hs & Hsame).
    destruct (record_same_setup self (i + 2) r.2) as [Hsame' Hs'].
    split_and!.
    + intros H. by apply Hc, record_consistent.
    + rewrite Hn, record_row_count. unfold non_blank.
      destruct (FormFiller.all_none row) eqn:Hrow.
      * subst r. rewrite process_blank by done. simpl.
        rewrite filter_cons_False by (by rewrite Hrow). lia.
      * destruct (process_non_blank w self (i + 2) row fs Hrow) as [x Hx].
        subst r. rewrite Hx.
        rewrite filter_cons_True by done. simpl. lia.
    + by rewrite Hs.
    + unfold same_setup in *. intuition congruence.
Qed.

End Tally.

(** C1: for every run that completes its row loop, the number of rows seen
    equals the number of succeeded rows plus the number of entries of the
    failed/skipped list, and the rows seen are exactly the rows of the
    sheet that are not blank. *)
Theorem run_tally_invariant (w : World) (fs fs' : gset string)
    (template_path data_path output_dir : string) (overwrite : bool)
    (self self' : FormFiller.t) :
  FormFiller.__init__ w fs template_path data_path output_dir overwrite
  = Ok self →
  FormFiller.run w self fs = (fs', Ok self') →
  (FormFiller.success_count self' + length (FormFiller.failed_rows self')
   = FormFiller.row_count self')%nat
  ∧ ∃ sh, FormFiller.sheet self' = Some sh
          ∧ FormFiller.row_count self'
            = length (non_blank (FormFiller.data_rows sh)).
Proof.
  intros Hinit Hrun.
  assert (FormFiller.row_count self = 0%nat
          ∧ FormFiller.success_count self = 0%nat
          ∧ FormFiller.failed_rows self = []) as (H0 & H1 & H2).
  { unfold FormFiller.__init__ in Hinit.
    repeat (destruct (negb _); [discriminate|]). by injection Hinit as <-. }
  unfold FormFiller.run in Hrun.
  destruct (FormFiller.setup w self) as [[s sh]|e] eqn:Hsetup; [|discriminate].
  injection Hrun as <- <-.
  apply setup_ok in Hsetup as (Hsh & Hr & Hs & Hf & _).
  destruct (run_rows_tally w (FormFiller.data_rows sh) 0 s fs)
    as (Hc & Hn & Hsheet & _).
  split.
  - apply Hc. unfold tally_consistent. rewrite Hr, Hs, Hf, H0, H1, H2. done.
  - exists sh. split; [congruence|]. rewrite Hn, Hr, H0. done.
Qed.

Lemma run_tally_invariant_witness :
  let w := Scenario.world (Some Scenario.template)
             [Scenario.header_row; Scenario.alice; Scenario.no_designator;
              Scenario.blank]
             (fun _ => Scenario.healthy) in
  let self' := Scenario.outcome w (Scenario.filler false) Scenario.files in
  FormFiller.row_count self' = 2%nat
  ∧ (FormFiller.success_count self' + length (FormFiller.failed_rows self')
     = FormFiller.row_count self')%nat.
Proof.
  intros w self'. split; [by vm_compute|].
  refine (proj1 (run_tally_invariant w Scenario.files
    (FormFiller.run w (Scenario.filler false) Scenario.files).1
    "template.pdf" "data.xlsx" "out" false (Scenario.filler false) self' _ _)).
  - by vm_compute.
  - by vm_compute.
Defined.

(** C5: a row whose cells are all empty produces no outcome: the per-row
    operation returns nothing and writes nothing, and the loop goes on to
    the next row with the row count, the success count and the
    failed/skipped list unchanged. *)
Theorem blank_row_excluded (w : World) (self : FormFiller.t) (i : nat)
    (row : RowData) (rest : list RowData) (fs : gset string) :
  Forall (fun v => v = CNone) row →
  FormFiller._process_single_row w self (i + 2) row fs = (fs, None)
  ∧ FormFiller.record self (i + 2) None = self
  ∧ FormFiller.run_rows w i (row :: rest) self fs
    = FormFiller.run_rows w (S i) rest self fs.
Proof.
  intros H%all_none_Forall. split_and!.
  - by apply process_blank.
  - done.
  - simpl. by rewrite process_blank.
Qed.

Lemma blank_row_excluded_witness :
  let w := Scenario.world (Some Scenario.template) []
             (fun _ => Scenario.healthy) in
  FormFiller._process_single_row w (Scenario.ready false) 2 Scenario.blank
    Scenario.files = (Scenario.files, None)
  ∧ FormFiller.run_rows w 0 [Scenario.blank; Scenario.alice]
      (Scenario.ready false) Scenario.files
    = FormFiller.run_rows w 1 [Scenario.alice]
        (Scenario.ready false) Scenario.files.
Proof.
  intros w.
  assert (Forall (fun v => v = CNone) Scenario.blank) as H
    by (repeat constructor).
  destruct (blank_row_excluded w (Scenario.ready false) 0 Scenario.blank
              [Scenario.alice] Scenario.files H) as (H1 & _ & H3).
  exact (conj H1 H3).
Defined.

(** C4: the per-cell coercion is a total function of the cell: [True]
    gives the on-token, [False] the off-token, an empty cell the empty
    string, any other value its string form; coercing the resulting string
    again gives the same string; and the data prepared for a row holds
    exactly this value for every fillable field (the empty string when the
    row has no such column). *)
Theorem coerce_total (self : FormFiller.t) (common : gset string)
    (row_dict : gmap string cell) (field : string) (v : cell) :
  FormFiller.coerce (CBool true) = "/Yes"
  ∧ FormFiller.coerce (CBool false) = "/Off"
  ∧ FormFiller.coerce CNone = ""
  ∧ (∀ n, FormFiller.coerce (CInt n) = Py.str_int n)
  ∧ (∀ s, FormFiller.coerce (CStr s) = s)
  ∧ (∀ shown, FormFiller.coerce (CObj shown) = shown)
  ∧ FormFiller.coerce (CStr (FormFiller.coerce v)) = FormFiller.coerce v
  ∧ FormFiller._prepare_fill_data
      (FormFiller.set_common_fields self common) row_dict !! field
    = (if decide (field ∈ common)
       then Some (FormFiller.coerce (default CNone (row_dict !! field)))
       else None).
Proof.
  split_and!; try done.
  unfold FormFiller._prepare_fill_data. simpl.
  set (f := fun x : string =>
              (x, FormFiller.coerce (FormFiller.dict_get row_dict x))).
  assert (∀ y y', y ∈ common → y' ∈ common → (f y).1 = (f y').1 → y = y')
    as Hinj by done.
  destruct (decide (field ∈ common)) as [Hin|Hnin].
  - apply (lookup_set_to_map f common _ _ Hinj). by exists field.
  - apply eq_None_not_Some. intros [x Hx].
    apply (lookup_set_to_map f common _ _ Hinj) in Hx as (y & Hy & Hf).
    unfold f in Hf. simplify_eq. done.
Qed.

(** ** One row *)

Section Fill.

Context (self : FormFiller.t).

Lemma update_pages_ok (pages : list (option exn)) :
  FormFiller.update_pages pages = Ok ().
Proof.
  induction pages as [|[e|] rest IH]; simpl; [done| |done].
  unfold mbind, result_bind, bind, try_except.
  by destruct (isinstance e [KeyError]).
Qed.

Lemma fill_ok (b : writer_behaviour) (fill_data : gmap string string)
    (path : string) (fs : gset string) :
  engine_ok b →
  FormFiller._fill_single_pdf self b fill_data path fs
  = ({[path]} ∪ fs, Ok ()).
Proof.
  intros (Hc & Hu & Ho & Hw). unfold FormFiller._fill_single_pdf.
  rewrite Hc, Hu, Ho, Hw, update_pages_ok. done.
Qed.

Lemma fill_raises (b : writer_behaviour) (fill_data : gmap string string)
    (path : string) (fs : gset string) (e : exn) :
  engine_raises b e →
  ∃ fs', FormFiller._fill_single_pdf self b fill_data path fs
         = (fs', Raise (wrapped path e))
         ∧ fs ⊆ fs' ∧ fs' ⊆ {[path]} ∪ fs.
Proof.
  unfold FormFiller._fill_single_pdf, wrapped.
  intros [Hc|[(Hc & Hu)|[(Hc & Hu & Ho)|(Hc & Hu & Ho & Hw)]]];
    rewrite ?Hc, ?Hu, ?Ho, ?Hw, ?update_pages_ok; simpl;
    (eexists; split; [by destruct (isinstance e [PdfReadError])|set_solver]).
Qed.

Lemma fill_opens (b : writer_behaviour) (fill_data : gmap string string)
    (path : string) (fs : gset string) :
  engine_opens b →
  (FormFiller._fill_single_pdf self b fill_data path fs).1 = {[path]} ∪ fs.
Proof.
  intros (Hc & Hu & Ho). unfold FormFiller._fill_single_pdf.
  rewrite Hc, Hu, Ho, update_pages_ok. done.
Qed.

Lemma fill_mono (b : writer_behaviour) (fill_data : gmap string string)
    (path : string) (fs : gset string) :
  fs ⊆ (FormFiller._fill_single_pdf self b fill_data path fs).1.
Proof.
  unfold FormFiller._fill_single_pdf.
  destruct (clone b), (FormFiller.update_pages _), (cleanup b), (open_file b);
    simpl; set_solver.
Qed.

Lemma wrapped_class (path : string) (e : exn) :
  isinstance (wrapped path e) [PDFReadError; PDFWriteError] = true.
Proof. unfold wrapped. by destruct (isinstance e [PdfReadError]). Qed.

End Fill.

Section Row.

Context (w : World) (self : FormFiller.t) (headers : list string)
  (common : gset string).
Hypothesis Hheaders : FormFiller.xlsx_headers self = Some headers.
Hypothesis Hcommon : FormFiller.common_fields self = Some common.

(** The per-row operation, case by case, for a row that is not blank. *)
Lemma process_empty_designator (n : nat) (row : RowData) (fs : gset string) :
  FormFiller.all_none row = false →
  FormFiller.output_filename_of headers row = "" →
  FormFiller._process_single_row w self n row fs
  = (fs, Some (false, reason_empty)).
Proof.
  intros Hrow Hname. unfold FormFiller._process_single_row.
  by rewrite Hrow, Hheaders, Hcommon, Hname.
Qed.

Lemma process_collision (n : nat) (row : RowData) (fs : gset string) :
  FormFiller.all_none row = false →
  FormFiller.output_filename_of headers row ≠ "" →
  FormFiller.overwrite self = false →
  exists_ w fs (output_path self headers row) = true →
  FormFiller._process_single_row w self n row fs
  = (fs, Some (false, reason_exists (normalized_filename headers row))).
Proof.
  intros Hrow Hname Hov Hex. unfold FormFiller._process_single_row.
  rewrite Hrow, Hheaders, Hcommon.
  destruct (String.eqb_spec (FormFiller.output_filename_of headers row) "")
    as [|_]; [done|].
  unfold output_path, normalized_filename in Hex. by rewrite Hov, Hex.
Qed.

Lemma process_fill (n : nat) (row : RowData) (fs : gset string) :
  FormFiller.all_none row = false →
  FormFiller.output_filename_of headers row ≠ "" →
  negb (FormFiller.overwrite self)
  && exists_ w fs (output_path self headers row) = false →
  FormFiller._process_single_row w self n row fs
  = let filled :=
      FormFiller._fill_single_pdf self (pdf_writer w n)
        (FormFiller._prepare_fill_data self
           (FormFiller.row_dict_of headers row))
        (output_path self headers row) fs in
    (filled.1,
     Some (FormFiller.fill_attempt (normalized_filename headers row)
             filled.2)).
Proof.
  intros Hrow Hname Hfree. unfold FormFiller._process_single_row.
  rewrite Hrow, Hheaders, Hcommon.
  destruct (String.eqb_spec (FormFiller.output_filename_of headers row) "")
    as [|_]; [done|].
  unfold output_path, normalized_filename in Hfree. by rewrite Hfree.
Qed.

End Row.

(** C6: for a row that is not blank, the designator cell is read as a
    string and trimmed of surrounding whitespace; when nothing is left the
    row is skipped with the reason naming the empty designator; otherwise
    the name is kept as it is when it ends with ".pdf" in any letter case
    and gets ".pdf" appended when it does not, and this is the name under
    which the row is reported and written ("report" becomes "report.pdf",
    "report.PDF" stays). *)
Theorem filename_normalization (w : World) (self : FormFiller.t)
    (headers : list string) (common : gset string) (n : nat)
    (row : RowData) (fs : gset string) :
  FormFiller.xlsx_headers self = Some headers →
  FormFiller.common_fields self = Some common →
  FormFiller.all_none row = false →
  (FormFiller.output_filename_of headers row
   = match FormFiller.dict_get (FormFiller.row_dict_of headers row)
             Config.OUTPUT_FILENAME_COL with
     | CNone => ""
     | raw => Py.strip (cell_str raw)
     end)
  ∧ trimmed (FormFiller.output_filename_of headers row)
  ∧ (FormFiller.output_filename_of headers row = "" →
     FormFiller._process_single_row w self n row fs
     = (fs, Some (false, "'_output_filename' is empty")))
  ∧ (FormFiller.output_filename_of headers row ≠ "" →
     (Py.endswith (Py.lower (FormFiller.output_filename_of headers row))
        ".pdf" = true →
      normalized_filename headers row
      = FormFiller.output_filename_of headers row)
     ∧ (Py.endswith (Py.lower (FormFiller.output_filename_of headers row))
          ".pdf" = false →
        normalized_filename headers row
        = FormFiller.output_filename_of headers row +:+ ".pdf")
     ∧ (FormFiller.overwrite self = false →
        exists_ w fs (output_path self headers row) = true →
        FormFiller._process_single_row w self n row fs
        = (fs, Some (false,
                     "Output file exists: "
                     +:+ normalized_filename headers row
                     +:+ " (use --overwrite)")))
     ∧ (negb (FormFiller.overwrite self)
        && exists_ w fs (output_path self headers row) = false →
        engine_ok (pdf_writer w n) →
        FormFiller._process_single_row w self n row fs
        = ({[Py.os_path_join (FormFiller.output_dir self)
               (normalized_filename headers row)]} ∪ fs,
           Some (true,
                 "Successfully generated "
                 +:+ normalized_filename headers row))))
  ∧ FormFiller.with_pdf_extension (Py.strip "report") = "report.pdf"
  ∧ FormFiller.with_pdf_extension (Py.strip "report.PDF") = "report.PDF".
Proof.
  intros Hh Hc Hrow. split_and!; try done.
  - unfold FormFiller.output_filename_of.
    destruct (FormFiller.dict_get _ _); try apply strip_spec. by split.
  - intros Hname. by apply (process_empty_designator w self headers common).
  - intros Hname. unfold normalized_filename at 1 2.
    unfold FormFiller.with_pdf_extension. split_and!.
    + by intros ->.
    + by intros ->.
    + intros Hov Hex. by apply (process_collision w self headers common).
    + intros Hfree Hok.
      rewrite (process_fill w self headers common) by done. cbv zeta.
      by rewrite fill_ok.
Qed.

Lemma filename_normalization_witness :
  let w := Scenario.world (Some Scenario.template) []
             (fun _ => Scenario.healthy) in
  let headers := ["Name"; "Date"; "Approved"; "_output_filename"] in
  FormFiller._process_single_row w (Scenario.ready false) 2
    [CStr "Ann"; CNone; CNone; CStr " report "] Scenario.files
  = ({["out/report.pdf"]} ∪ Scenario.files,
     Some (true, "Successfully generated report.pdf")).
Proof.
  intros w headers.
  pose proof (filename_normalization w (Scenario.ready false) headers
    {["Name"; "Date"; "Approved"]} 2
    [CStr "Ann"; CNone; CNone; CStr " report "] Scenario.files
    eq_refl eq_refl eq_refl) as (_ & _ & _ & H & _).
  assert (FormFiller.output_filename_of headers
            [CStr "Ann"; CNone; CNone; CStr " report "] ≠ "") as Hne
    by (by vm_compute).
  destruct (H Hne) as (_ & _ & _ & Hfill).
  rewrite Hfill.
  - by vm_compute.
  - by vm_compute.
  - by repeat split.
Defined.

(** Counterexample to C2 as worded: the update of a page raises a
    [ValueError] while the document of a row is produced; the exception is
    passed over inside the fill and the row ends as a success. *)
Lemma page_update_exception_succeeds : ¬ exceptions_become_failures.
Proof.
  intros H.
  pose (w := Scenario.world (Some Scenario.template) []
               (fun _ => Scenario.grumbling)).
  destruct (H w (Scenario.ready false)
              ["Name"; "Date"; "Approved"; "_output_filename"]
              {["Name"; "Date"; "Approved"]} 2%nat Scenario.alice
              Scenario.files
              (Exn (OtherException "ValueError") "bad field value" None))
    as [reason Hr]; [done|done|done|by vm_compute|by vm_compute| |].
  - right. split_and!; [done|apply elem_of_cons; by left|by vm_compute].
  - by vm_compute in Hr.
Qed.

(** C2, amended: while the document of a row is produced, an exception
    that the engine raises when it clones the template, cleans up the form,
    opens the output or writes it is caught in the per-row operation, which
    returns a failed outcome with the reason "PDF processing error: ..."
    naming the wrapped exception. An exception raised by the update of a
    page is no failure of the row: it is passed over inside the fill, so
    the outcome of the row is the same whatever the page updates raise, and
    the row succeeds as soon as the four other steps do. One of the two
    cases always applies, so nothing leaves the per-row operation as an
    exception; the loop records the outcome, goes on with the next row, and
    counts every row that is not blank. *)
Theorem row_exceptions_contained (w : World) (self : FormFiller.t)
    (headers : list string) (common : gset string) (i : nat)
    (row : RowData) (rows : list RowData) (fs : gset string) :
  FormFiller.xlsx_headers self = Some headers →
  FormFiller.common_fields self = Some common →
  FormFiller.all_none row = false →
  FormFiller.output_filename_of headers row ≠ "" →
  negb (FormFiller.overwrite self)
  && exists_ w fs (output_path self headers row) = false →
  let b := pdf_writer w (i + 2) in
  let path := output_path self headers row in
  let r := FormFiller._process_single_row w self (i + 2) row fs in
  (engine_ok b ∨ ∃ e, engine_raises b e)
  ∧ (∀ pages : nat → list (option exn),
       FormFiller._process_single_row
         (with_engine w (fun n => with_pages (pdf_writer w n) (pages n)))
         self (i + 2) row fs = r)
  ∧ (engine_ok b →
     r = ({[path]} ∪ fs,
          Some (true,
                "Successfully generated "
                +:+ normalized_filename headers row))
     ∧ FormFiller.run_rows w i (row :: rows) self fs
       = FormFiller.run_rows w (S i) rows
           (FormFiller.set_tally self (FormFiller.row_count self + 1)
              (FormFiller.success_count self + 1)
              (FormFiller.failed_rows self))
           ({[path]} ∪ fs))
  ∧ (∀ e, engine_raises b e →
       r.2 = Some (false,
                   "PDF processing error: " +:+ exn_str (wrapped path e))
       ∧ fs ⊆ r.1 ∧ r.1 ⊆ {[path]} ∪ fs
       ∧ FormFiller.run_rows w i (row :: rows) self fs
         = FormFiller.run_rows w (S i) rows
             (FormFiller.set_tally self (FormFiller.row_count self + 1)
                (FormFiller.success_count self)
                (FormFiller.failed_rows self
                 ++ [((i + 2)%nat,
                      "PDF processing error: "
                      +:+ exn_str (wrapped path e))]))
             r.1)
  ∧ FormFiller.row_count (FormFiller.run_rows w i (row :: rows) self fs).2
    = (FormFiller.row_count self + length (non_blank (row :: rows)))%nat.
Proof.
  intros Hh Hc Hrow Hname Hfree b path r.
  assert (FormFiller.run_rows w i (row :: rows) self fs
          = FormFiller.run_rows w (S i) rows
              (FormFiller.record self (i + 2) r.2) r.1) as Hstep by done.
  assert (r = let filled :=
                FormFiller._fill_single_pdf self b
                  (FormFiller._prepare_fill_data self
                     (FormFiller.row_dict_of headers row)) path fs in
              (filled.1,
               Some (FormFiller.fill_attempt (normalized_filename headers row)
                       filled.2))) as Hr
    by (by apply (process_fill w self headers common)).
  cbv zeta in Hr. split_and!.
  - destruct (clone b) as [e|] eqn:H1; [right; exists e; by left|].
    destruct (cleanup b) as [e|] eqn:H2;
      [right; exists e; right; by left|].
    destruct (open_file b) as [e|] eqn:H3;
      [right; exists e; right; right; by left|].
    destruct (write b) as [e|] eqn:H4;
      [right; exists e; right; right; by right|].
    by left.
  - intros pages.
    rewrite (process_fill _ self headers common) by done.
    rewrite Hr. cbv zeta.
    unfold FormFiller._fill_single_pdf, with_engine, with_pages. simpl.
    by rewrite !update_pages_ok.
  - intros Hok. rewrite (fill_ok self b _ path fs Hok) in Hr.
    rewrite Hstep, Hr. done.
  - intros e Hraise.
    destruct (fill_raises self b
                (FormFiller._prepare_fill_data self
                   (FormFiller.row_dict_of headers row)) path fs e Hraise)
      as (fs' & Hfill & Hsub & Hsup).
    rewrite Hfill in Hr. cbn [fst snd] in Hr.
    unfold FormFiller.fill_attempt in Hr. rewrite wrapped_class in Hr.
    rewrite Hstep, Hr. done.
  - apply run_rows_tally.
Qed.

Lemma row_exceptions_contained_witness :
  let failing :=
    {| clone := None;
       page_updates :=
         [Some (Exn (OtherException "ValueError") "bad field value" None)];
       cleanup := None; open_file := None;
       write := Some (Exn (OtherException "OSError") "Disk full" None) |} in
  let w := Scenario.world (Some Scenario.template) []
             (fun n => if (n =? 2)%nat then failing
                       else Scenario.grumbling) in
  FormFiller.run_rows w 0 [Scenario.alice; Scenario.alice]
    (Scenario.ready true) Scenario.files
  = ({["out/alice.pdf"]} ∪ Scenario.files,
     FormFiller.set_tally (Scenario.ready true) 2 1
       [(2%nat,
         "PDF processing error: PDF write error for alice.pdf (Original error: Disk full)")]).
Proof.
  intros failing w.
  pose proof (row_exceptions_contained w (Scenario.ready true)
    ["Name"; "Date"; "Approved"; "_output_filename"]
    {["Name"; "Date"; "Approved"]} 0 Scenario.alice [Scenario.alice]
    Scenario.files eq_refl eq_refl eq_refl) as H.
  destruct H as (_ & _ & _ & H & _); [by vm_compute|by vm_compute|].
  destruct (H (Exn (OtherException "OSError") "Disk full" None))
    as (_ & _ & _ & Hrun).
  - right. right. right. by repeat split.
  - rewrite Hrun. by vm_compute.
Defined.

(** ** The template scaffold *)

Section Scaffold.

Lemma load_ok (pdf_path : string)
    (reader : result (option PDFAnalyzer.fields_dict)) (a : PDFAnalyzer.t) :
  PDFAnalyzer._load pdf_path reader = Ok a →
  ∃ fields, reader = Ok fields
            ∧ PDFAnalyzer.field_names a
              = Some (list_to_set (default [] fields).*1).
Proof.
  unfold PDFAnalyzer._load, try_except, mbind, result_bind, bind.
  destruct reader as [[[|f fs]|]|e].
  - intros [= <-]. by exists (Some []).
  - intros [= <-]. by exists (Some (f :: fs)).
  - intros [= <-]. by exists None.
  - by destruct (isinstance e [PdfReadError]),
       (isinstance e [FileNotFoundError]).
Qed.

Lemma generator_init_ok (w : World) (template_pdf_path output_dir : string)
    (self : TemplateGenerator.t) :
  TemplateGenerator.__init__ w template_pdf_path output_dir = Ok self →
  TemplateGenerator.output_dir self = output_dir
  ∧ ∃ fields, pdf_get_fields w template_pdf_path = Ok fields
              ∧ PDFAnalyzer.get_field_names (TemplateGenerator.analyzer self)
                = Some (list_to_set (default [] fields).*1).
Proof.
  unfold TemplateGenerator.__init__, mbind, result_bind, bind.
  destruct (negb (isdir w output_dir)); [discriminate|].
  destruct (PDFAnalyzer._load _ _) as [a|] eqn:Hload; [|discriminate].
  intros [= <-]. split; [done|]. by apply load_ok in Hload.
Qed.

Lemma sorted_spec (names : gset string) :
  StronglySorted String.le (Py.sorted (elements names))
  ∧ Py.sorted (elements names) ≡ₚ elements names
  ∧ NoDup (Py.sorted (elements names)).
Proof.
  unfold Py.sorted. split_and!.
  - apply StronglySorted_merge_sort; apply _.
  - apply merge_sort_Permutation.
  - rewrite merge_sort_Permutation. apply NoDup_elements.
Qed.

(** What [_generate_excel_template] writes after a successful
    construction of the generator. *)
Lemma generated_header_row (w : World)
    (template_pdf_path output_dir : string) (self : TemplateGenerator.t) :
  TemplateGenerator.__init__ w template_pdf_path output_dir = Ok self →
  ∃ (fields : option PDFAnalyzer.fields_dict) (sorted_names : list string),
    pdf_get_fields w template_pdf_path = Ok fields
    ∧ (∀ name, name ∈ sorted_names ↔ name ∈ (default [] fields).*1)
    ∧ NoDup sorted_names
    ∧ StronglySorted String.le sorted_names
    ∧ (∀ wb, TemplateGenerator._generate_excel_template w self = Ok wb →
             TemplateGenerator.wb_rows wb
             = [sorted_names ++ [Config.OUTPUT_FILENAME_COL]])
    ∧ (workbook_save w
         (Py.os_path_join output_dir
            (TemplateGenerator.base_filename self +:+ Config.TEMPLATE_SUFFIX))
       = None →
       ∃ wb, TemplateGenerator._generate_excel_template w self = Ok wb)
    ∧ last (sorted_names ++ [Config.OUTPUT_FILENAME_COL])
      = Some Config.OUTPUT_FILENAME_COL.
Proof.
  intros (Hdir & fields & Hget & Hnames)%generator_init_ok.
  set (names := list_to_set (default [] fields).*1 : gset string) in *.
  destruct (sorted_spec names) as (Hsorted & Hperm & Hnodup).
  exists fields, (Py.sorted (elements names)). split_and!; try done.
  - intros name. rewrite Hperm, elem_of_elements. unfold names.
    by rewrite elem_of_list_to_set.
  - intros wb. unfold TemplateGenerator._generate_excel_template.
    rewrite Hnames. unfold try_except.
    destruct (workbook_save w _); [discriminate|]. by intros [= <-].
  - intros Hsave. unfold TemplateGenerator._generate_excel_template.
    rewrite Hnames, Hdir, Hsave. unfold try_except. eauto.
  - apply last_snoc.
Qed.

End Scaffold.

(** C10: the header row of the generated tabular template is the field
    identifiers of the template in ascending order, each once, followed by
    the output-designator column, which is therefore always present and
    last; this is the row written whenever the workbook can be saved. *)
Theorem scaffold_header_row (w : World)
    (template_pdf_path output_dir : string) (self : TemplateGenerator.t) :
  TemplateGenerator.__init__ w template_pdf_path output_dir = Ok self →
  ∃ (fields : option PDFAnalyzer.fields_dict) (sorted_names : list string),
    pdf_get_fields w template_pdf_path = Ok fields
    ∧ (∀ name, name ∈ sorted_names ↔ name ∈ (default [] fields).*1)
    ∧ NoDup sorted_names
    ∧ StronglySorted String.le sorted_names
    ∧ (∀ wb, TemplateGenerator._generate_excel_template w self = Ok wb →
             TemplateGenerator.wb_rows wb
             = [sorted_names ++ [Config.OUTPUT_FILENAME_COL]])
    ∧ (workbook_save w
         (Py.os_path_join output_dir
            (TemplateGenerator.base_filename self +:+ Config.TEMPLATE_SUFFIX))
       = None →
       ∃ wb, TemplateGenerator._generate_excel_template w self = Ok wb)
    ∧ last (sorted_names ++ [Config.OUTPUT_FILENAME_COL])
      = Some Config.OUTPUT_FILENAME_COL.
Proof. apply generated_header_row. Qed.

Lemma scaffold_header_row_witness :
  let w := Scenario.world (Some Scenario.template) [] (fun _ => Scenario.healthy) in
  ∃ self wb,
    TemplateGenerator.__init__ w "template.pdf" "out" = Ok self
    ∧ TemplateGenerator._generate_excel_template w self = Ok wb
    ∧ TemplateGenerator.wb_rows wb
      = [["Approved"; "Date"; "Name"; "_output_filename"]].
Proof.
  intros w.
  destruct (TemplateGenerator.__init__ w "template.pdf" "out")
    as [self|e] eqn:Hinit; [|by vm_compute in Hinit].
  destruct (scaffold_header_row w "template.pdf" "out" self Hinit)
    as (fields & sorted_names & _ & _ & _ & _ & Hrows & Hsave & _).
  destruct Hsave as [wb Hwb]; [done|].
  exists self, wb. split_and!; [done|done|].
  vm_compute in Hinit. injection Hinit as <-.
  vm_compute in Hwb. by injection Hwb as <-.
Defined.

(** C3: a template that parses but has no fillable field. The row-filling
    caller aborts, but with the read-class error [PDFReadError]: the
    [ConfigurationError] raised for the empty catalog is caught by the
    general handler of the same [try] and wrapped. The scaffold caller goes
    on with the empty catalog and writes a header row that holds the
    output-designator column only. *)
Theorem empty_catalog (w : World) (self : FormFiller.t) (fs : gset string)
    (output_dir : string) (gen : TemplateGenerator.t) :
  pdf_get_fields w (FormFiller.template_path self) = Ok None
  ∨ pdf_get_fields w (FormFiller.template_path self) = Ok (Some []) →
  FormFiller.run w self fs
  = (fs,
     Raise (Exn PDFReadError
              ("Unexpected error reading PDF template fields '"
               +:+ FormFiller.template_path self +:+ "'")
              (Some (Exn ConfigurationError
                       ("No fillable fields found in template PDF: "
                        +:+ FormFiller.template_path self) None))))
  ∧ (TemplateGenerator.__init__ w (FormFiller.template_path self) output_dir
     = Ok gen →
     ∀ wb, TemplateGenerator._generate_excel_template w gen = Ok wb →
           TemplateGenerator.wb_rows wb = [[Config.OUTPUT_FILENAME_COL]]).
Proof.
  intros Hget. split.
  - unfold FormFiller.run, FormFiller.setup,
      FormFiller._read_pdf_template_fields, try_except, mbind, result_bind,
      bind.
    by destruct Hget as [-> | ->].
  - intros Hinit wb Hwb.
    destruct (generated_header_row w _ _ _ Hinit)
      as (fields & sorted_names & Hf & Hin & _ & _ & Hrows & _).
    rewrite (Hrows wb Hwb).
    assert (sorted_names = []) as ->; [|done].
    destruct sorted_names as [|x l]; [done|].
    assert (x ∈ (default [] fields).*1) as Hx by (apply Hin; left).
    destruct Hget as [Hg|Hg]; rewrite Hg in Hf; injection Hf as <-;
      by apply elem_of_nil in Hx.
Qed.

Lemma empty_catalog_witness :
  let w := Scenario.world None [Scenario.header_row; Scenario.alice]
             (fun _ => Scenario.healthy) in
  (FormFiller.run w (Scenario.filler false) Scenario.files).2
  = Raise (Exn PDFReadError
             "Unexpected error reading PDF template fields 'template.pdf'"
             (Some (Exn ConfigurationError
                      "No fillable fields found in template PDF: template.pdf"
                      None))).
Proof.
  intros w.
  destruct (TemplateGenerator.__init__ w "template.pdf" "out")
    as [gen|e] eqn:Hinit; [|by vm_compute in Hinit].
  destruct (empty_catalog w (Scenario.filler false) Scenario.files "out" gen
              (or_introl eq_refl)) as [Hrun _].
  by rewrite Hrun.
Defined.

(** ** Reconciliation of the headers *)

(** Counterexample to C7 as worded: a header row that names the
    designator column twice passes the validation. *)
Lemma duplicate_designator_accepted : ¬ designator_exactly_once.
Proof.
  intros H.
  destruct (H (Scenario.loaded ["Name"; "_output_filename"; "_output_filename"])
              {["Name"; "Date"; "Approved"]}
              ["Name"; "_output_filename"; "_output_filename"]
              eq_refl eq_refl) as [msg Hmsg].
  - by vm_compute.
  - by vm_compute in Hmsg.
Qed.

(** C7, amended: the output-designator column must appear among the
    headers, compared as exact strings: when it is absent the validation
    raises a [ConfigurationError], and [run] raises it with the file system
    untouched; when it is present, once or several times, the validation
    goes on to the common fields and succeeds as soon as there is one. *)
Theorem designator_column_required (w : World) (self0 s1 self : FormFiller.t)
    (fs : gset string) (names : gset string) (headers : list string) :
  FormFiller._read_pdf_template_fields w self0 = Ok s1 →
  FormFiller._read_excel_data w s1 = Ok self →
  FormFiller.pdf_field_names self = Some names →
  FormFiller.xlsx_headers self = Some headers →
  (Config.OUTPUT_FILENAME_COL ∉ headers →
   FormFiller._validate_headers_and_map_fields self
   = Raise (Exn ConfigurationError
              "Required column '_output_filename' not found in Excel file headers."
              None)
   ∧ FormFiller.run w self0 fs
     = (fs, Raise (Exn ConfigurationError
                     "Required column '_output_filename' not found in Excel file headers."
                     None)))
  ∧ (Config.OUTPUT_FILENAME_COL ∈ headers →
     names ∩ (list_to_set headers ∖ {[Config.OUTPUT_FILENAME_COL]}) ≠ ∅ →
     FormFiller._validate_headers_and_map_fields self
     = Ok (FormFiller.set_common_fields self
             (names ∩ (list_to_set headers ∖ {[Config.OUTPUT_FILENAME_COL]})))).
Proof.
  intros H1 H2 Hn Hh. split.
  - intros Hcol.
    assert (FormFiller._validate_headers_and_map_fields self
            = Raise (Exn ConfigurationError
                "Required column '_output_filename' not found in Excel file headers."
                None)) as Hv.
    { unfold FormFiller._validate_headers_and_map_fields. rewrite Hn, Hh.
      rewrite bool_decide_true; [done|]. by rewrite elem_of_list_to_set. }
    split; [done|].
    unfold FormFiller.run, FormFiller.setup, mbind, result_bind, bind.
    by rewrite H1, H2, Hv.
  - intros Hcol Hcommon.
    unfold FormFiller._validate_headers_and_map_fields. rewrite Hn, Hh.
    rewrite bool_decide_false by (rewrite elem_of_list_to_set; tauto).
    by rewrite bool_decide_false.
Qed.

Lemma designator_column_required_witness :
  let rows := [[CStr "Name"; CStr "_OUTPUT_FILENAME"]; [CStr "Al"; CStr "al"]] in
  let w := Scenario.world (Some Scenario.template) rows
             (fun _ => Scenario.healthy) in
  FormFiller.run w (Scenario.filler false) Scenario.files
  = (Scenario.files,
     Raise (Exn ConfigurationError
              "Required column '_output_filename' not found in Excel file headers."
              None)).
Proof.
  intros rows w.
  pose (s1 := FormFiller.set_pdf_field_names (Scenario.filler false)
                (list_to_set Scenario.template.*1)).
  pose (s2 := FormFiller.set_excel_data s1
                {| sheet_rows := rows; max_row := 2 |}
                ["Name"; "_OUTPUT_FILENAME"] 1).
  assert (FormFiller._read_pdf_template_fields w (Scenario.filler false)
          = Ok s1) as H1 by (by vm_compute).
  assert (FormFiller._read_excel_data w s1 = Ok s2) as H2 by (by vm_compute).
  destruct (designator_column_required w (Scenario.filler false) s1 s2
              Scenario.files (list_to_set Scenario.template.*1)
              ["Name"; "_OUTPUT_FILENAME"] H1 H2 eq_refl eq_refl) as [H _].
  apply H. apply (bool_decide_unpack _). by vm_compute.
Defined.

(** ** Permissible tokens *)

Section Tokens.

Lemma filter_other (x : string) (l : list string) :
  x ∉ l → filter (fun k => k ≠ x) l = l.
Proof.
  induction l as [|y l IH]; [done|].
  rewrite not_elem_of_cons. intros [Hxy Hl].
  rewrite filter_cons_True by done. by rewrite IH.
Qed.

Lemma list_remove_filter (x : string) (l : list string) :
  NoDup l → PDFAnalyzer.list_remove x l = filter (fun k => k ≠ x) l.
Proof.
  induction 1 as [|y l Hy Hl IH]; simpl; [done|].
  destruct (String.eqb_spec y x) as [->|Hne].
  - rewrite filter_cons_False by (intros H; by apply H).
    by rewrite filter_other.
  - rewrite filter_cons_True by done. by rewrite IH.
Qed.

Lemma pair_token (opt : PDFAnalyzer.pyval) :
  is_nonempty_seq opt = true →
  PDFAnalyzer.pair_export_value opt = Ok (spec_choice_token opt).
Proof. by destruct opt as [|[|a [|b l]]| | |]. Qed.

Lemma comprehension_pairs (options : list PDFAnalyzer.pyval) :
  Forall (fun o => is_nonempty_seq o = true) options →
  PDFAnalyzer.comprehension PDFAnalyzer.pair_export_value options
  = Ok (spec_choice_token <$> options).
Proof.
  induction 1 as [|o l Ho Hl IH]; simpl; [done|].
  unfold mbind, result_bind, bind. by rewrite pair_token, IH.
Qed.

End Tokens.

(** Counterexample to C9 as worded: after a first entry that is a pair, a
    bare entry "ab" yields "b", not its string form. *)
Lemma mixed_options_differ : ¬ choice_tokens_per_entry.
Proof.
  intros H.
  specialize (H Scenario.mixed_choice _ eq_refl).
  assert (PDFAnalyzer.choice_export_values Scenario.mixed_choice
          = Ok ["E1"; "b"]) as Hcode by (by vm_compute).
  rewrite Hcode in H. by specialize (H ltac:(done)).
Qed.

(** C9, amended: the encoding of a non-empty options list of a choice
    field is decided by its first entry. When the first entry and all the
    others are non-empty lists or tuples, each token is the second element
    of its entry when the entry has more than one element, and its first
    element otherwise; when the first entry is not a non-empty list or
    tuple, each token is the string form of its entry. For a button field
    the tokens are the keys of the appearance-state dictionary without the
    off-token, and none when there is no such dictionary. *)
Theorem export_tokens (properties : PDFAnalyzer.field_properties)
    (first : PDFAnalyzer.pyval) (rest : list PDFAnalyzer.pyval)
    (keys : list string) :
  (PDFAnalyzer.Opt properties = Some (first :: rest) →
   (is_nonempty_seq first = true →
    Forall (fun o => is_nonempty_seq o = true) rest →
    PDFAnalyzer.choice_export_values properties
    = Ok (spec_choice_token <$> first :: rest))
   ∧ (is_nonempty_seq first = false →
      PDFAnalyzer.choice_export_values properties
      = Ok (PDFAnalyzer.py_str <$> first :: rest)))
  ∧ (PDFAnalyzer.AP properties
     = Some (PDFAnalyzer.ApDict (Some (PDFAnalyzer.NDict keys))) →
     NoDup keys →
     PDFAnalyzer.button_export_values properties
     = filter (fun k => k ≠ Config.PDF_VALUE_CHECKBOX_OFF) keys)
  ∧ ((∀ ks, PDFAnalyzer.AP properties
            ≠ Some (PDFAnalyzer.ApDict (Some (PDFAnalyzer.NDict ks)))) →
     PDFAnalyzer.button_export_values properties = []).
Proof.
  split_and!.
  - intros Hopt. unfold PDFAnalyzer.choice_export_values. rewrite Hopt.
    split.
    + intros Hfirst Hrest.
      destruct first as [|[|a l]| | |]; try done. simpl.
      unfold mbind, result_bind, bind.
      rewrite pair_token by done. by rewrite comprehension_pairs.
    + intros Hfirst. by destruct first as [|[|a l]| | |].
  - intros Hap Hkeys. unfold PDFAnalyzer.button_export_values.
    rewrite Hap. simpl. by apply list_remove_filter.
  - intros Hap. unfold PDFAnalyzer.button_export_values.
    destruct (PDFAnalyzer.AP properties) as [[[[ks|]|]|]|]; try done.
    by destruct (Hap ks).
Qed.

Lemma export_tokens_witness :
  PDFAnalyzer.choice_export_values Scenario.paired_choice
  = Ok ["Export1"; "Export2"]
  ∧ PDFAnalyzer.button_export_values Scenario.checkbox = ["/Yes"].
Proof.
  split.
  - destruct (export_tokens Scenario.paired_choice
                (PDFAnalyzer.VSeq
                   [PDFAnalyzer.VStr "Display1"; PDFAnalyzer.VStr "Export1"]
                   "('Display1', 'Export1')")
                [PDFAnalyzer.VSeq
                   [PDFAnalyzer.VStr "Display2"; PDFAnalyzer.VStr "Export2"]
                   "('Display2', 'Export2')"] []) as [H _].
    destruct (H eq_refl) as [Hpairs _].
    rewrite Hpairs; [done|done|]. by repeat constructor.
  - destruct (export_tokens Scenario.checkbox (PDFAnalyzer.VStr "") []
                ["/Yes"; "/Off"]) as (_ & H & _).
    rewrite H; [done|done|].
    apply (bool_decide_unpack _). by vm_compute.
Defined.

(** ** Running twice without overwrite *)

Section Rerun.

Lemma exists_mono (w : World) (fs fs' : gset string) (p : string) :
  fs ⊆ fs' → exists_ w fs p = true → exists_ w fs' p = true.
Proof.
  unfold exists_, isfile. intros Hsub [H|H]%orb_true_iff.
  - apply bool_decide_eq_true in H. apply orb_true_iff. left.
    apply bool_decide_eq_true. set_solver.
  - apply orb_true_iff. by right.
Qed.

Lemma exists_ext (w w' : World) (fs : gset string) (p : string) :
  (∀ q, isdir w' q = isdir w q) → exists_ w' fs p = exists_ w fs p.
Proof. intros H. unfold exists_. by rewrite H. Qed.

Lemma process_mono (w : World) (self : FormFiller.t) (n : nat)
    (row : RowData) (fs : gset string) :
  fs ⊆ (FormFiller._process_single_row w self n row fs).1.
Proof.
  unfold FormFiller._process_single_row.
  destruct (FormFiller.all_none row); [done|].
  destruct (FormFiller.xlsx_headers self), (FormFiller.common_fields self);
    try done.
  destruct (String.eqb _ _); [done|].
  destruct (negb _ && _); [done|]. apply fill_mono.
Qed.

Lemma run_rows_mono (w : World) (rows : list RowData) :
  ∀ (i : nat) (self : FormFiller.t) (fs : gset string),
    fs ⊆ (FormFiller.run_rows w i rows self fs).1.
Proof.
  induction rows as [|row rest IH]; intros i self fs; simpl; [done|].
  etrans; [apply (process_mono w self (i + 2) row fs)|apply IH].
Qed.

(** After a row with a designator has been processed without overwrite by
    an engine that gets as far as opening the output, its output path
    exists. *)
Lemma processed_exists (w : World) (self : FormFiller.t)
    (headers : list string) (common : gset string) (n : nat)
    (row : RowData) (fs : gset string) :
  FormFiller.xlsx_headers self = Some headers →
  FormFiller.common_fields self = Some common →
  FormFiller.overwrite self = false →
  engine_opens (pdf_writer w n) →
  FormFiller.all_none row = false →
  FormFiller.output_filename_of headers row ≠ "" →
  exists_ w (FormFiller._process_single_row w self n row fs).1
    (output_path self headers row) = true.
Proof.
  intros Hh Hc Hov Hopen Hrow Hname.
  destruct (exists_ w fs (output_path self headers row)) eqn:Hex.
  - by rewrite (process_collision w self headers common).
  - rewrite (process_fill w self headers common)
      by (try done; by rewrite Hex, andb_false_r).
    cbv zeta. rewrite fill_opens by done. cbn [fst].
    unfold exists_, isfile. apply orb_true_iff. left.
    apply bool_decide_eq_true. set_solver.
Qed.

Lemma setup_ext (w w' : World) (self : FormFiller.t) :
  pdf_get_fields w' (FormFiller.template_path self)
  = pdf_get_fields w (FormFiller.template_path self) →
  load_workbook w' (FormFiller.data_path self)
  = load_workbook w (FormFiller.data_path self) →
  FormFiller.setup w' self = FormFiller.setup w self.
Proof.
  intros Hp Hl. unfold FormFiller.setup, mbind, result_bind, bind.
  assert (FormFiller._read_pdf_template_fields w' self
          = FormFiller._read_pdf_template_fields w self) as ->.
  { unfold FormFiller._read_pdf_template_fields. by rewrite Hp. }
  destruct (FormFiller._read_pdf_template_fields w self) as [s1|e] eqn:H1;
    [|done].
  apply read_pdf_ok in H1 as (f & fs & _ & ->).
  assert (∀ x, FormFiller._read_excel_data w'
                 (FormFiller.set_pdf_field_names self x)
               = FormFiller._read_excel_data w
                   (FormFiller.set_pdf_field_names self x)) as ->; [|done].
  intros x. unfold FormFiller._read_excel_data. simpl. by rewrite Hl.
Qed.

(** The second pass over the rows: nothing is written, no row succeeds,
    and every row that is not blank is skipped. *)
Lemma rerun_rows (w1 w2 : World) (headers : list string)
    (common : gset string) (fsB : gset string) (rows : list RowData) :
  (∀ p, isdir w2 p = isdir w1 p) →
  (∀ n, engine_opens (pdf_writer w1 n)) →
  ∀ (i : nat) (sA sB : FormFiller.t) (fsA : gset string),
    FormFiller.xlsx_headers sA = Some headers →
    FormFiller.common_fields sA = Some common →
    FormFiller.overwrite sA = false →
    same_setup sA sB →
    (FormFiller.run_rows w1 i rows sA fsA).1 ⊆ fsB →
    let r := FormFiller.run_rows w2 i rows sB fsB in
    r.1 = fsB
    ∧ FormFiller.success_count r.2 = FormFiller.success_count sB
    ∧ FormFiller.row_count r.2
      = (FormFiller.row_count sB + length (non_blank rows))%nat
    ∧ FormFiller.failed_rows r.2
      = FormFiller.failed_rows sB ++ rerun_failures headers i rows.
Proof.
  intros Hdir Hopen.
  induction rows as [|row rest IH];
    intros i sA sB fsA Hh Hc Hov Hsame Hsub; simpl.
  - split_and!; [done|done|lia|by rewrite app_nil_r].
  - simpl in Hsub.
    set (rA := FormFiller._process_single_row w1 sA (i + 2) row fsA) in *.
    destruct (record_same_setup sA (i + 2) rA.2) as [HsameA _].
    destruct Hsame as (Hh' & Hc' & Hd' & Hov').
    assert (FormFiller.xlsx_headers sB = Some headers) as HhB by congruence.
    assert (FormFiller.common_fields sB = Some common) as HcB by congruence.
    assert (FormFiller.overwrite sB = false) as HovB by congruence.
    assert (rA.1 ⊆ fsB) as HrA.
    { etrans; [|exact Hsub]. apply run_rows_mono. }
    assert (∀ sB', same_setup sB sB' →
              same_setup (FormFiller.record sA (i + 2) rA.2) sB') as Hnext.
    { intros sB' Hs. unfold same_setup in *. intuition congruence. }
    destruct HsameA as (HhA & HcA & HdA & HovA).
    assert (∀ sB', same_setup sB sB' →
      let r := FormFiller.run_rows w2 (S i) rest sB' fsB in
      r.1 = fsB
      ∧ FormFiller.success_count r.2 = FormFiller.success_count sB'
      ∧ FormFiller.row_count r.2
        = (FormFiller.row_count sB' + length (non_blank rest))%nat
      ∧ FormFiller.failed_rows r.2
        = FormFiller.failed_rows sB' ++ rerun_failures headers (S i) rest)
      as Hrest.
    { intros sB' Hs.
      apply (IH (S i) (FormFiller.record sA (i + 2) rA.2) sB' rA.1);
        [congruence|congruence|congruence|by apply Hnext|done]. }
    unfold non_blank.
    destruct (FormFiller.all_none row) eqn:Hrow.
    + rewrite process_blank by done. simpl.
      rewrite filter_cons_False by (by rewrite Hrow).
      apply Hrest. by destruct (record_same_setup sB 0 None).
    + rewrite filter_cons_True by done.
      assert (FormFiller._process_single_row w2 sB (i + 2) row fsB
              = (fsB, Some (false, rerun_reason headers row))) as ->.
      { unfold rerun_reason.
        destruct (String.eqb_spec (FormFiller.output_filename_of headers row)
                    "") as [Hname|Hname].
        - by apply (process_empty_designator w2 sB headers common).
        - apply (process_collision w2 sB headers common); try done.
          rewrite (exists_ext w1 w2) by done.
          apply (exists_mono w1 rA.1); [done|].
          unfold output_path. rewrite <- Hd'.
          by apply (processed_exists w1 sA headers common). }
      simpl.
      destruct (Hrest (FormFiller.record sB (i + 2)
                         (Some (false, rerun_reason headers row))))
        as (H1 & H2 & H3 & H4).
      { by destruct (record_same_setup sB (i + 2)
                       (Some (false, rerun_reason headers row))). }
      simpl in *. split_and!; [done|done|unfold non_blank in *; lia|].
      rewrite H4. by rewrite <- app_assoc.
Qed.

End Rerun.

(** Counterexample to C8 as worded: a row without designator is skipped
    in the second run for its empty designator, not for an existing
    output. *)
Lemma empty_designator_rerun : ¬ idempotent_under_no_overwrite.
Proof.
  intros H.
  pose (w := Scenario.world (Some Scenario.template)
               [Scenario.header_row; Scenario.no_designator]
               (fun _ => Scenario.healthy)).
  destruct (H w Scenario.files Scenario.files Scenario.files
              "template.pdf" "data.xlsx" "out" (Scenario.filler false)
              (Scenario.outcome w (Scenario.filler false) Scenario.files)
              (Scenario.outcome w (Scenario.filler false) Scenario.files))
    as (_ & _ & _ & Hall); [by vm_compute..|].
  assert (FormFiller.failed_rows
            (Scenario.outcome w (Scenario.filler false) Scenario.files)
          = [(2%nat, "'_output_filename' is empty")]) as Hrows
    by (by vm_compute).
  rewrite Hrows in Hall. apply Forall_cons in Hall as [Hone _].
  by vm_compute in Hone.
Qed.

(** C8, amended: run the row-fill twice on the same template, data and
    output directory with overwrite disabled, the engine of the first run
    getting as far as opening its output for every row it fills. Then the
    second run writes nothing and succeeds on no row; every row that is not
    blank is skipped again: with the "output exists" reason when it has a
    designator, with the empty-designator reason when it has none. *)
Theorem second_run_skips (w1 w2 : World) (self s1 : FormFiller.t)
    (fs0 fs1 : gset string) :
  FormFiller.overwrite self = false →
  (∀ p, isdir w2 p = isdir w1 p) →
  pdf_get_fields w2 (FormFiller.template_path self)
  = pdf_get_fields w1 (FormFiller.template_path self) →
  load_workbook w2 (FormFiller.data_path self)
  = load_workbook w1 (FormFiller.data_path self) →
  (∀ n, engine_opens (pdf_writer w1 n)) →
  FormFiller.run w1 self fs0 = (fs1, Ok s1) →
  ∃ (sh : Worksheet) (headers : list string) (s2 : FormFiller.t),
    FormFiller.sheet s1 = Some sh
    ∧ FormFiller.xlsx_headers s1 = Some headers
    ∧ FormFiller.run w2 self fs1 = (fs1, Ok s2)
    ∧ FormFiller.success_count s2 = FormFiller.success_count self
    ∧ FormFiller.row_count s2
      = (FormFiller.row_count self
         + length (non_blank (FormFiller.data_rows sh)))%nat
    ∧ FormFiller.failed_rows s2
      = FormFiller.failed_rows self
        ++ rerun_failures headers 0 (FormFiller.data_rows sh).
Proof.
  intros Hov Hdir Hpdf Hwb Hopen Hrun.
  unfold FormFiller.run in *. rewrite (setup_ext w1 w2) by done.
  destruct (FormFiller.setup w1 self) as [[s sh]|e] eqn:Hsetup;
    [|discriminate].
  injection Hrun as <- <-.
  apply setup_ok in Hsetup
    as (Hsh & Hr & Hs & Hf & Hov' & _ & [headers Hh] & [common Hc]).
  destruct (run_rows_tally w1 (FormFiller.data_rows sh) 0 s fs0)
    as (_ & _ & Hsheet & (Hh1 & _)).
  destruct (rerun_rows w1 w2 headers common
              (FormFiller.run_rows w1 0 (FormFiller.data_rows sh) s fs0).1
              (FormFiller.data_rows sh) Hdir Hopen 0 s s fs0)
    as (H1 & H2 & H3 & H4); [done|done|congruence|done|done|].
  exists sh, headers,
    (FormFiller.run_rows w2 0 (FormFiller.data_rows sh) s
       (FormFiller.run_rows w1 0 (FormFiller.data_rows sh) s fs0).1).2.
  split_and!; congruence.
Qed.

Lemma second_run_skips_witness :
  let w := Scenario.world (Some Scenario.template)
             [Scenario.header_row; Scenario.alice; Scenario.no_designator;
              Scenario.blank; Scenario.alice]
             (fun _ => Scenario.healthy) in
  let fs1 := (FormFiller.run w (Scenario.filler false) Scenario.files).1 in
  ∃ s2, FormFiller.run w (Scenario.filler false) fs1 = (fs1, Ok s2)
        ∧ FormFiller.success_count s2 = 0%nat
        ∧ FormFiller.failed_rows s2
          = [(2%nat, "Output file exists: alice.pdf (use --overwrite)");
             (3%nat, "'_output_filename' is empty");
             (5%nat, "Output file exists: alice.pdf (use --overwrite)")].
Proof.
  intros w fs1.
  destruct (second_run_skips w w (Scenario.filler false)
              (Scenario.outcome w (Scenario.filler false) Scenario.files)
              Scenario.files fs1)
    as (sh & headers & s2 & Hsh & Hh & Hrun & Hs & _ & Hf);
    [done|done|done|done|by repeat split|by vm_compute|].
  exists s2. split_and!; [done|done|].
  rewrite Hf. vm_compute in Hsh, Hh.
  injection Hsh as <-. injection Hh as <-. by vm_compute.
Defined.

(** * Further properties of the code *)

Set Warnings "-clear-no-such-hyp".

(** ** Reconciliation *)

(** X1: a successful validation stores as common fields exactly the names
    that are template fields and headers other than the designator column;
    there is at least one; together with the two sets reported as warnings
    they split the template fields and the data columns into disjoint
    parts. *)
Theorem reconciliation_partition (self s : FormFiller.t)
    (names : gset string) (headers : list string) :
  FormFiller.pdf_field_names self = Some names →
  FormFiller.xlsx_headers self = Some headers →
  FormFiller._validate_headers_and_map_fields self = Ok s →
  ∃ common : gset string,
    FormFiller.common_fields s = Some common
    ∧ common ≠ ∅
    ∧ (∀ f, f ∈ common
            ↔ f ∈ names ∧ f ∈ headers ∧ f ≠ Config.OUTPUT_FILENAME_COL)
    ∧ common ∪ FormFiller.pdf_only_fields names headers = names
    ∧ common ∪ FormFiller.xlsx_only_fields names headers
      = list_to_set headers ∖ {[Config.OUTPUT_FILENAME_COL]}
    ∧ common ## FormFiller.pdf_only_fields names headers
    ∧ common ## FormFiller.xlsx_only_fields names headers
    ∧ FormFiller.pdf_only_fields names headers
      ## FormFiller.xlsx_only_fields names headers.
Proof.
  intros Hn Hh Hv.
  apply validate_ok in Hv as (names' & headers' & Hn' & Hh' & _ & Hne & ->).
  assert (names' = names) as -> by congruence.
  assert (headers' = headers) as -> by congruence.
  eexists. split; [reflexivity|]. split; [done|].
  unfold FormFiller.pdf_only_fields, FormFiller.xlsx_only_fields.
  set (D := list_to_set headers ∖ {[Config.OUTPUT_FILENAME_COL]} : gset string).
  split_and!.
  - intros f. unfold D.
    rewrite elem_of_intersection, elem_of_difference, elem_of_list_to_set,
      elem_of_singleton. tauto.
  - apply set_eq. intros x. destruct (decide (x ∈ D)); set_solver.
  - apply set_eq. intros x. destruct (decide (x ∈ names)); set_solver.
  - set_solver.
  - set_solver.
  - set_solver.
Qed.

Lemma reconciliation_partition_witness :
  ∃ s common,
    FormFiller._validate_headers_and_map_fields
      (Scenario.loaded ["Name"; "Extra"; "_output_filename"]) = Ok s
    ∧ FormFiller.common_fields s = Some common
    ∧ ("Name" ∈ common) ∧ ("Extra" ∉ common)
    ∧ ("_output_filename" ∉ common).
Proof.
  destruct (FormFiller._validate_headers_and_map_fields
              (Scenario.loaded ["Name"; "Extra"; "_output_filename"]))
    as [s|e] eqn:Hv; [|by vm_compute in Hv].
  destruct (reconciliation_partition
              (Scenario.loaded ["Name"; "Extra"; "_output_filename"]) s
              {["Name"; "Date"; "Approved"]}
              ["Name"; "Extra"; "_output_filename"] eq_refl eq_refl Hv)
    as (common & Hc & _ & Hin & _).
  exists s, common. split_and!; [done|done|..]; rewrite Hin.
  - split_and!; [|by left|done]. apply (bool_decide_unpack _). by vm_compute.
  - intros (H & _). revert H. apply (bool_decide_unpack _). by vm_compute.
  - by intros (_ & _ & H).
Defined.

(** X2: the validation does not depend on the order of the columns, nor on
    how often a name is repeated: two header rows with the same names give
    the same outcome, the same common fields and the same warnings. *)
Theorem reconciliation_order_independent (self1 self2 : FormFiller.t)
    (names : gset string) (headers1 headers2 : list string) :
  FormFiller.pdf_field_names self1 = Some names →
  FormFiller.pdf_field_names self2 = Some names →
  FormFiller.xlsx_headers self1 = Some headers1 →
  FormFiller.xlsx_headers self2 = Some headers2 →
  (∀ h, h ∈ headers1 ↔ h ∈ headers2) →
  match FormFiller._validate_headers_and_map_fields self1,
        FormFiller._validate_headers_and_map_fields self2 with
  | Ok s1, Ok s2 => FormFiller.common_fields s1 = FormFiller.common_fields s2
  | Raise e1, Raise e2 => e1 = e2
  | _, _ => False
  end
  ∧ FormFiller.pdf_only_fields names headers1
    = FormFiller.pdf_only_fields names headers2
  ∧ FormFiller.xlsx_only_fields names headers1
    = FormFiller.xlsx_only_fields names headers2.
Proof.
  intros Hn1 Hn2 Hh1 Hh2 Hsame.
  assert (list_to_set headers1 = (list_to_set headers2 : gset string)) as Hset.
  { apply set_eq. intros x. by rewrite !elem_of_list_to_set. }
  unfold FormFiller.pdf_only_fields, FormFiller.xlsx_only_fields,
    FormFiller._validate_headers_and_map_fields.
  rewrite Hn1, Hn2, Hh1, Hh2, Hset. split; [|done].
  destruct (bool_decide (Config.OUTPUT_FILENAME_COL ∉ _)); [done|].
  by destruct (bool_decide (_ = ∅)).
Qed.

Lemma reconciliation_order_independent_witness :
  FormFiller.pdf_only_fields {["Name"; "Date"; "Approved"]}
    ["Name"; "_output_filename"; "Date"]
  = FormFiller.pdf_only_fields {["Name"; "Date"; "Approved"]}
      ["Date"; "Name"; "Date"; "_output_filename"].
Proof.
  refine (proj1 (proj2 (reconciliation_order_independent
    (Scenario.loaded ["Name"; "_output_filename"; "Date"])
    (Scenario.loaded ["Date"; "Name"; "Date"; "_output_filename"])
    {["Name"; "Date"; "Approved"]} _ _ eq_refl eq_refl eq_refl eq_refl _))).
  intros h. rewrite !elem_of_cons, !elem_of_nil. tauto.
Defined.




(** ** Set-up and its failures *)

Section SetupFailures.

Lemma forallb_false_Exists {A} (f : A → bool) (l : list A) :
  forallb f l = false → Exists (fun x => f x = false) l.
Proof.
  induction l as [|x l IH]; simpl; [done|].
  destruct (f x) eqn:Hx; simpl; [|by left]. intros H. right. by apply IH.
Qed.

Lemma read_pdf_raise (w : World) (self : FormFiller.t) (e : exn) :
  FormFiller._read_pdf_template_fields w self = Raise e →
  exn_cls e = PDFReadError.
Proof.
  unfold FormFiller._read_pdf_template_fields, try_except, mbind,
    result_bind, bind.
  destruct (pdf_get_fields w _) as [[[|f fs]|]|e0]; try discriminate;
    try (by intros [= <-]).
  by destruct (isinstance e0 [PdfReadError]); intros [= <-].
Qed.

Lemma read_excel_raise (w : World) (self : FormFiller.t) (e : exn) :
  FormFiller._read_excel_data w self = Raise e →
  ∃ cause,
    e = Exn ExcelReadError
          ("Error reading Excel file " +:+ FormFiller.data_path self)
          (Some cause).
Proof.
  unfold FormFiller._read_excel_data, try_except, mbind, result_bind, bind.
  destruct (load_workbook w _) as [wb|e0]; [|intros [= <-]; eauto].
  destruct (active wb) as [sh|]; [|intros [= <-]; eauto].
  destruct (sheet_rows sh) as [|raw rest]; [intros [= <-]; eauto|].
  destruct (forallb _ _); [intros [= <-]; eauto|discriminate].
Qed.

Lemma validate_raise (self : FormFiller.t) (e : exn) :
  FormFiller._validate_headers_and_map_fields self = Raise e →
  exn_cls e = ConfigurationError.
Proof.
  unfold FormFiller._validate_headers_and_map_fields.
  destruct (FormFiller.pdf_field_names self), (FormFiller.xlsx_headers self);
    try (by intros [= <-]).
  repeat case_bool_decide; try discriminate; by intros [= <-].
Qed.

Lemma setup_raise (w : World) (self : FormFiller.t) (e : exn) :
  FormFiller.setup w self = Raise e →
  exn_cls e = PDFReadError ∨ exn_cls e = ExcelReadError
  ∨ exn_cls e = ConfigurationError.
Proof.
  unfold FormFiller.setup, mbind, result_bind, bind.
  destruct (FormFiller._read_pdf_template_fields w self) as [s1|e1] eqn:H1.
  2:{ intros [= <-]. left. by eapply read_pdf_raise. }
  destruct (FormFiller._read_excel_data w s1) as [s2|e2] eqn:H2.
  2:{ intros [= <-]. right. left.
      by destruct (read_excel_raise w s1 e2 H2) as [cause ->]. }
  destruct (FormFiller._validate_headers_and_map_fields s2) as [s3|e3] eqn:H3.
  2:{ intros [= <-]. right. right. by eapply validate_raise. }
  apply read_excel_ok in H2 as (wb & sh & raw & rest & _ & _ & _ & ->).
  apply validate_ok in H3 as (names & headers & _ & _ & _ & _ & ->).
  simpl. discriminate.
Qed.

End SetupFailures.

(** X4: when the data file is read successfully, there is one header per
    cell of the first row, every header is free of surrounding whitespace
    (an empty cell giving the empty header), and at least one header is not
    empty. *)
Theorem read_excel_headers (w : World) (self s : FormFiller.t) :
  FormFiller._read_excel_data w self = Ok s →
  ∃ (sh : Worksheet) (raw : RowData) (headers : list string),
    FormFiller.sheet s = Some sh
    ∧ head (sheet_rows sh) = Some raw
    ∧ FormFiller.xlsx_headers s = Some headers
    ∧ length headers = length raw
    ∧ Forall trimmed headers
    ∧ Exists (fun h => h ≠ "") headers
    ∧ (∀ i, raw !! i = Some CNone → headers !! i = Some "").
Proof.
  unfold FormFiller._read_excel_data, try_except, mbind, result_bind, bind.
  destruct (load_workbook w _) as [wb|e]; [|discriminate].
  destruct (active wb) as [sh|]; [|discriminate].
  destruct (sheet_rows sh) as [|raw rest] eqn:Hrows; [discriminate|].
  destruct (forallb _ _) eqn:Hall; [discriminate|].
  intros [= <-]. exists sh, raw, (FormFiller.header_name <$> raw).
  simpl. rewrite Hrows. split_and!; try done.
  - by rewrite length_fmap.
  - apply Forall_fmap, Forall_forall. intros c _.
    destruct c; try apply strip_spec. by split.
  - apply forallb_false_Exists in Hall.
    eapply Exists_impl; [exact Hall|]. simpl. intros h Hh ->. done.
  - intros i Hi.
    by apply (list_lookup_fmap_Some_2 FormFiller.header_name) in Hi.
Qed.

Lemma read_excel_headers_witness :
  let w := Scenario.world (Some Scenario.template)
             [[CStr " Name "; CNone; CStr "_output_filename"]]
             (fun _ => Scenario.healthy) in
  ∃ s, FormFiller._read_excel_data w (Scenario.filler false) = Ok s
       ∧ FormFiller.xlsx_headers s = Some ["Name"; ""; "_output_filename"].
Proof.
  intros w.
  destruct (FormFiller._read_excel_data w (Scenario.filler false))
    as [s|e] eqn:Hr; [|by vm_compute in Hr].
  destruct (read_excel_headers w (Scenario.filler false) s Hr)
    as (sh & raw & headers & _ & _ & Hh & _).
  exists s. split; [done|].
  vm_compute in Hr. by injection Hr as <-.
Defined.

(** X5: a run that fails raises one of [PDFReadError], [ExcelReadError]
    and [ConfigurationError], and it does so before anything is written:
    the files are the ones it started with. The internal error for a
    missing sheet cannot occur. *)
Theorem run_failure (w : World) (self : FormFiller.t) (fs fs' : gset string)
    (e : exn) :
  FormFiller.run w self fs = (fs', Raise e) →
  fs' = fs
  ∧ (exn_cls e = PDFReadError ∨ exn_cls e = ExcelReadError
     ∨ exn_cls e = ConfigurationError).
Proof.
  unfold FormFiller.run.
  destruct (FormFiller.setup w self) as [[s sh]|e0] eqn:Hsetup;
    [discriminate|].
  intros [= <- <-]. split; [done|]. by eapply setup_raise.
Qed.

Lemma run_failure_witness :
  let w := Scenario.world (Some Scenario.template) []
             (fun _ => Scenario.healthy) in
  (FormFiller.run w (Scenario.filler false) Scenario.files).1 = Scenario.files
  ∧ exn_cls (Exn ExcelReadError "Error reading Excel file data.xlsx"
               (Some (Exn ExcelReadError
                        "Excel file has no header row: data.xlsx" None)))
    = ExcelReadError.
Proof.
  intros w.
  destruct (run_failure w (Scenario.filler false) Scenario.files
              (FormFiller.run w (Scenario.filler false) Scenario.files).1
              (Exn ExcelReadError "Error reading Excel file data.xlsx"
                 (Some (Exn ExcelReadError
                          "Excel file has no header row: data.xlsx" None))))
    as [H1 _]; [by vm_compute|].
  by split.
Defined.

(** The cases of [fill_pdf_forms]. *)
Lemma fill_pdf_forms_cases (w w' : World) (fs : gset string)
    (template_pdf_path data_file_path output_dir : string)
    (overwrite : bool) :
  same_inputs w w' →
  let r := FormFiller.fill_pdf_forms w fs template_pdf_path data_file_path
             output_dir overwrite in
  (r.2 = None
   ↔ ∃ self x,
       template_pdf_path ∈ fs ∧ data_file_path ∈ fs
       ∧ FormFiller.__init__ w fs template_pdf_path data_file_path
           output_dir overwrite = Ok self
       ∧ FormFiller.setup w self = Ok x)
  ∧ (r.2 ≠ None → r.2 = Some 1 ∧ r.1 = fs)
  ∧ (FormFiller.fill_pdf_forms w' fs template_pdf_path data_file_path
       output_dir overwrite).2 = r.2.
Proof.
  intros (Hdir & Hother & Hpdf & Hwb). cbv zeta.
  unfold FormFiller.fill_pdf_forms, Validation.check_file_exists,
    FormFiller.__init__, FormFiller.run, exists_, isfile,
    mbind, result_bind, bind.
  rewrite !Hdir, !Hother.
  destruct (decide (template_pdf_path ∈ fs)) as [Ht|Ht].
  2:{ rewrite (bool_decide_false _ Ht).
      destruct (isdir w template_pdf_path); simpl;
        (split_and!; [split; [done|naive_solver]|done|done]). }
  rewrite (bool_decide_true _ Ht). simpl.
  destruct (isother w template_pdf_path); simpl.
  { split_and!; [split; [done|naive_solver]|done|done]. }
  destruct (decide (data_file_path ∈ fs)) as [Hd|Hd].
  2:{ rewrite (bool_decide_false _ Hd).
      destruct (isdir w data_file_path); simpl;
        (split_and!; [split; [done|naive_solver]|done|done]). }
  rewrite (bool_decide_true _ Hd). simpl.
  destruct (isother w data_file_path); simpl.
  { split_and!; [split; [done|naive_solver]|done|done]. }
  destruct (isdir w output_dir) eqn:Ho; simpl.
  2:{ split_and!; [split; [done|naive_solver]|done|done]. }
  rewrite (setup_ext w w') by (simpl; done).
  destruct (FormFiller.setup w _) as [[s sh]|e] eqn:Hsetup; simpl.
  - split_and!; [split; [eauto 10|done]|done|done].
  - split_and!; [split; [done|]|done|done].
    intros (self & x & _ & _ & [= <-] & Hx). congruence.
Qed.

(** X6: [fill_pdf_forms] either returns or exits with status 1; it returns
    exactly when both input files exist, the output directory exists and
    the set-up succeeds, so the status does not depend on what the engine
    does on the rows; and when it exits with status 1 it has written
    nothing. *)
Theorem fill_pdf_forms_status (w w' : World) (fs : gset string)
    (template_pdf_path data_file_path output_dir : string)
    (overwrite : bool) :
  same_inputs w w' →
  let r := FormFiller.fill_pdf_forms w fs template_pdf_path data_file_path
             output_dir overwrite in
  (r.2 = None
   ↔ ∃ self x,
       template_pdf_path ∈ fs ∧ data_file_path ∈ fs
       ∧ FormFiller.__init__ w fs template_pdf_path data_file_path
           output_dir overwrite = Ok self
       ∧ FormFiller.setup w self = Ok x)
  ∧ (r.2 ≠ None → r.2 = Some 1 ∧ r.1 = fs)
  ∧ (FormFiller.fill_pdf_forms w' fs template_pdf_path data_file_path
       output_dir overwrite).2 = r.2.
Proof. apply fill_pdf_forms_cases. Qed.

Lemma fill_pdf_forms_status_witness :
  let failing :=
    {| clone := Some (Exn PdfReadError "broken" None); page_updates := [];
       cleanup := None; open_file := None; write := None |} in
  let rows := [Scenario.header_row; Scenario.alice] in
  (FormFiller.fill_pdf_forms
     (Scenario.world (Some Scenario.template) rows (fun _ => failing))
     Scenario.files "template.pdf" "data.xlsx" "out" false).2 = None.
Proof.
  intros failing rows.
  destruct (fill_pdf_forms_status
              (Scenario.world (Some Scenario.template) rows
                 (fun _ => Scenario.healthy))
              (Scenario.world (Some Scenario.template) rows
                 (fun _ => failing))
              Scenario.files "template.pdf" "data.xlsx" "out" false)
    as (_ & _ & H); [by repeat split|].
  rewrite H. by vm_compute.
Defined.

(** ** What a row does to the files *)

Section Footprint.

Lemma fill_ok_inv (self : FormFiller.t) (b : writer_behaviour)
    (fill_data : gmap string string) (path : string) (fs : gset string) :
  (FormFiller._fill_single_pdf self b fill_data path fs).2 = Ok () →
  engine_ok b.
Proof.
  unfold FormFiller._fill_single_pdf, engine_ok, try_except.
  rewrite update_pages_ok.
  destruct (clone b) as [e|], (cleanup b) as [e'|], (open_file b) as [e''|],
    (write b) as [e'''|]; simpl; try done;
    match goal with |- context [isinstance ?x _] =>
      by destruct (isinstance x [PdfReadError]) end.
Qed.

Lemma fill_footprint (self : FormFiller.t) (b : writer_behaviour)
    (fill_data : gmap string string) (path : string) (fs : gset string) :
  (FormFiller._fill_single_pdf self b fill_data path fs).1 ⊆ {[path]} ∪ fs.
Proof.
  unfold FormFiller._fill_single_pdf. rewrite update_pages_ok.
  destruct (clone b), (cleanup b), (open_file b); simpl; set_solver.
Qed.

Lemma process_footprint (w : World) (self : FormFiller.t)
    (headers : list string) (n : nat) (row : RowData) (fs : gset string) :
  FormFiller.xlsx_headers self = Some headers →
  (FormFiller._process_single_row w self n row fs).1
  ⊆ fs ∪ row_paths self headers [row].
Proof.
  intros Hh. unfold FormFiller._process_single_row, row_paths. rewrite Hh.
  destruct (FormFiller.all_none row) eqn:Hrow; [set_solver|].
  destruct (FormFiller.common_fields self); [|set_solver].
  destruct (String.eqb_spec (FormFiller.output_filename_of headers row) "")
    as [Hname|Hname]; [set_solver|].
  destruct (negb _ && _); [set_solver|]. cbv zeta. cbn [fst].
  etrans; [apply fill_footprint|].
  rewrite filter_cons_True by done. rewrite filter_nil. simpl.
  unfold output_path, normalized_filename. set_solver.
Qed.

Lemma row_paths_cons (self : FormFiller.t) (headers : list string)
    (row : RowData) (rows : list RowData) :
  row_paths self headers (row :: rows)
  = row_paths self headers [row] ∪ row_paths self headers rows.
Proof.
  unfold row_paths. rewrite !filter_cons, filter_nil.
  destruct (decide _); simpl; set_solver.
Qed.

Lemma row_paths_same (a b : FormFiller.t) (headers : list string)
    (rows : list RowData) :
  FormFiller.output_dir a = FormFiller.output_dir b →
  row_paths a headers rows = row_paths b headers rows.
Proof. intros H. unfold row_paths, output_path. by rewrite H. Qed.

Lemma run_rows_footprint (w : World) (headers : list string)
    (rows : list RowData) :
  ∀ (i : nat) (self : FormFiller.t) (fs : gset string),
    FormFiller.xlsx_headers self = Some headers →
    (FormFiller.run_rows w i rows self fs).1
    ⊆ fs ∪ row_paths self headers rows.
Proof.
  induction rows as [|row rest IH]; intros i self fs Hh; simpl.
  - set_solver.
  - set (r := FormFiller._process_single_row w self (i + 2) row fs).
    destruct (record_same_setup self (i + 2) r.2)
      as [(Hh' & _ & Hd & _) _].
    etrans; [apply IH; congruence|].
    rewrite <- (row_paths_same self) by done.
    rewrite (row_paths_cons self headers row rest).
    pose proof (process_footprint w self headers (i + 2) row fs Hh).
    set_solver.
Qed.

End Footprint.

(** X7: a row is reported as successful only when the document engine
    completed every step: the row is not blank, it has a designator, there
    was no collision to respect, the message names the normalised file
    name, and the output file exists afterwards at the path joined from
    the output directory and that name. *)
Theorem success_sound (w : World) (self : FormFiller.t) (n : nat)
    (row : RowData) (fs fs' : gset string) (message : string) :
  FormFiller._process_single_row w self n row fs
  = (fs', Some (true, message)) →
  ∃ headers : list string,
    FormFiller.xlsx_headers self = Some headers
    ∧ FormFiller.all_none row = false
    ∧ FormFiller.output_filename_of headers row ≠ ""
    ∧ engine_ok (pdf_writer w n)
    ∧ message = "Successfully generated " +:+ normalized_filename headers row
    ∧ fs' = {[output_path self headers row]} ∪ fs
    ∧ (FormFiller.overwrite self = true
       ∨ exists_ w fs (output_path self headers row) = false).
Proof.
  unfold FormFiller._process_single_row.
  destruct (FormFiller.all_none row) eqn:Hrow; [discriminate|].
  destruct (FormFiller.xlsx_headers self) as [headers|]; [|discriminate].
  destruct (FormFiller.common_fields self) as [common|]; [|discriminate].
  destruct (String.eqb_spec (FormFiller.output_filename_of headers row) "")
    as [Hname|Hname]; [discriminate|].
  destruct (negb _ && _) eqn:Hfree; [discriminate|].
  cbv zeta.
  change (Py.os_path_join (FormFiller.output_dir self)
            (FormFiller.with_pdf_extension
               (FormFiller.output_filename_of headers row)))
    with (output_path self headers row) in *.
  change (FormFiller.with_pdf_extension
            (FormFiller.output_filename_of headers row))
    with (normalized_filename headers row).
  set (fd := FormFiller._prepare_fill_data self
               (FormFiller.row_dict_of headers row)).
  destruct (FormFiller._fill_single_pdf self (pdf_writer w n) fd
              (output_path self headers row) fs) as [fs1 r] eqn:Hfill.
  cbn [fst snd]. intros [= <- Hres]. exists headers.
  destruct r as [[]|e].
  - assert (engine_ok (pdf_writer w n)) as Hok.
    { eapply fill_ok_inv. by rewrite Hfill. }
    rewrite fill_ok in Hfill by done. injection Hfill as <-.
    injection Hres as <-. split_and!; try done.
    apply andb_false_iff in Hfree as [H|H]; [left|by right].
    by destruct (FormFiller.overwrite self).
  - unfold FormFiller.fill_attempt in Hres.
    by destruct (isinstance e _).
Qed.

Lemma success_sound_witness :
  let w := Scenario.world (Some Scenario.template) []
             (fun _ => Scenario.healthy) in
  (FormFiller._process_single_row w (Scenario.ready false) 2 Scenario.alice
     Scenario.files).1
  = {["out/alice.pdf"]} ∪ Scenario.files.
Proof.
  intros w.
  destruct (success_sound w (Scenario.ready false) 2 Scenario.alice
              Scenario.files
              (FormFiller._process_single_row w (Scenario.ready false) 2
                 Scenario.alice Scenario.files).1
              "Successfully generated alice.pdf")
    as (headers & Hh & _ & _ & _ & _ & Hfs & _); [by vm_compute|].
  rewrite Hfs. vm_compute in Hh. injection Hh as <-. by vm_compute.
Defined.

(** X8: a run never removes a file, and the only files it can add are the
    outputs of its rows: the paths joined from the output directory and
    the normalised designators of the rows that are not blank. *)
Theorem run_footprint (w : World) (self s' : FormFiller.t)
    (fs fs' : gset string) :
  FormFiller.run w self fs = (fs', Ok s') →
  ∃ (sh : Worksheet) (headers : list string),
    FormFiller.sheet s' = Some sh
    ∧ FormFiller.xlsx_headers s' = Some headers
    ∧ fs ⊆ fs'
    ∧ fs' ⊆ fs ∪ row_paths self headers (FormFiller.data_rows sh).
Proof.
  unfold FormFiller.run.
  destruct (FormFiller.setup w self) as [[s sh]|e] eqn:Hsetup; [|discriminate].
  intros [= <- <-].
  apply setup_ok in Hsetup
    as (Hsh & _ & _ & _ & _ & Hd & [headers Hh] & _).
  destruct (run_rows_tally w (FormFiller.data_rows sh) 0 s fs)
    as (_ & _ & Hsheet & (Hh' & _)).
  exists sh, headers. split_and!; [congruence|congruence|..].
  - apply run_rows_mono.
  - rewrite <- (row_paths_same s self) by done. by apply run_rows_footprint.
Qed.

Lemma run_footprint_witness :
  (FormFiller.run Scenario.twice (Scenario.filler true) Scenario.files).1
  ⊆ Scenario.files ∪ {["out/alice.pdf"]}.
Proof.
  destruct (run_footprint Scenario.twice (Scenario.filler true)
              (Scenario.outcome Scenario.twice (Scenario.filler true)
                 Scenario.files)
              Scenario.files
              (FormFiller.run Scenario.twice (Scenario.filler true)
                 Scenario.files).1)
    as (sh & headers & Hsh & Hh & _ & Hsub); [by vm_compute|].
  etrans; [exact Hsub|].
  vm_compute in Hsh, Hh. injection Hsh as <-. injection Hh as <-.
  apply (bool_decide_unpack _). by vm_compute.
Defined.

(** ** The failed/skipped list *)

Section FailedRows.

Lemma run_rows_failed (w : World) (rows : list RowData) :
  ∀ (i : nat) (self : FormFiller.t) (fs : gset string),
    ∃ new : list FormFiller.FailedRowInfo,
      FormFiller.failed_rows (FormFiller.run_rows w i rows self fs).2
      = FormFiller.failed_rows self ++ new
      ∧ StronglySorted lt new.*1
      ∧ Forall (refers i rows) new.
Proof.
  induction rows as [|row rest IH]; intros i self fs; simpl.
  - exists []. rewrite app_nil_r. split_and!; [done|constructor|constructor].
  - set (r := FormFiller._process_single_row w self (i + 2) row fs).
    destruct (IH (S i) (FormFiller.record self (i + 2) r.2) r.1)
      as (new & Hnew & Hsorted & Hrefers).
    assert (Forall (refers i (row :: rest)) new) as Hrefers'.
    { eapply Forall_impl; [exact Hrefers|].
      intros info (k & row' & Hk & Hrow' & Hnb).
      exists (S k), row'. split_and!; [lia|done|done]. }
    destruct r.2 as [[[] m]|] eqn:Hr; simpl in Hnew |- *.
    + exists new. by split_and!.
    + exists (((i + 2)%nat, m) :: new). split_and!.
      * by rewrite Hnew, <- app_assoc.
      * simpl. constructor; [done|].
        apply Forall_fmap. eapply Forall_impl; [exact Hrefers|].
        intros info (k & _ & Hk & _). simpl. lia.
      * constructor; [|done]. exists 0%nat, row. split_and!; [simpl; lia|done|].
        destruct (FormFiller.all_none row) eqn:Hrow; [|done].
        subst r. by rewrite process_blank in Hr.
    + exists new. by split_and!.
Qed.

Lemma run_rows_cons (w : World) (i : nat) (row : RowData)
    (rest : list RowData) (self : FormFiller.t) (fs : gset string) :
  FormFiller.run_rows w i (row :: rest) self fs
  = FormFiller.run_rows w (S i) rest
      (FormFiller.record self (i + 2)
         (FormFiller._process_single_row w self (i + 2) row fs).2)
      (FormFiller._process_single_row w self (i + 2) row fs).1.
Proof. reflexivity. Qed.

Lemma run_rows_app (w : World) (l1 l2 : list RowData) :
  ∀ (i : nat) (self : FormFiller.t) (fs : gset string),
    FormFiller.run_rows w i (l1 ++ l2) self fs
    = FormFiller.run_rows w (i + length l1) l2
        (FormFiller.run_rows w i l1 self fs).2
        (FormFiller.run_rows w i l1 self fs).1.
Proof.
  induction l1 as [|row rest IH]; intros i self fs; simpl.
  - by rewrite Nat.add_0_r.
  - rewrite IH. by replace (S i + length rest)%nat with (i + S (length rest))%nat
      by lia.
Qed.

End FailedRows.

(** X9: after a run, the failed/skipped list is in source order: its row
    numbers increase strictly, and every entry carries the number of a row
    of the sheet that is not blank (the header being row 1 and the first
    data row row 2). *)
Theorem failed_rows_in_order (w : World) (fs fs' : gset string)
    (template_path data_path output_dir : string) (overwrite : bool)
    (self s' : FormFiller.t) :
  FormFiller.__init__ w fs template_path data_path output_dir overwrite
  = Ok self →
  FormFiller.run w self fs = (fs', Ok s') →
  ∃ sh : Worksheet,
    FormFiller.sheet s' = Some sh
    ∧ StronglySorted lt (FormFiller.failed_rows s').*1
    ∧ ∀ n reason, (n, reason) ∈ FormFiller.failed_rows s' →
        (2 ≤ n)%nat
        ∧ ∃ row, FormFiller.data_rows sh !! (n - 2)%nat = Some row
                 ∧ FormFiller.all_none row = false.
Proof.
  intros Hinit Hrun.
  assert (FormFiller.failed_rows self = []) as H0.
  { unfold FormFiller.__init__ in Hinit.
    repeat (destruct (negb _); [discriminate|]). by injection Hinit as <-. }
  unfold FormFiller.run in Hrun.
  destruct (FormFiller.setup w self) as [[s sh]|e] eqn:Hsetup; [|discriminate].
  injection Hrun as <- <-.
  apply setup_ok in Hsetup as (Hsh & _ & _ & Hf & _).
  destruct (run_rows_tally w (FormFiller.data_rows sh) 0 s fs)
    as (_ & _ & Hsheet & _).
  destruct (run_rows_failed w (FormFiller.data_rows sh) 0 s fs)
    as (new & Hnew & Hsorted & Hrefers).
  rewrite Hf, H0 in Hnew. simpl in Hnew.
  exists sh. split; [congruence|]. rewrite Hnew. split; [done|].
  intros n reason Hin. rewrite Forall_forall in Hrefers.
  destruct (Hrefers _ Hin) as (k & row & Hk & Hrow & Hnb). simpl in Hk.
  split; [lia|]. exists row. split; [|done].
  by replace (n - 2)%nat with k by lia.
Qed.

Lemma failed_rows_in_order_witness :
  (FormFiller.failed_rows
     (Scenario.outcome Scenario.twice (Scenario.filler false)
        Scenario.files)).*1
  = [3%nat; 4%nat].
Proof.
  destruct (failed_rows_in_order Scenario.twice Scenario.files
              (FormFiller.run Scenario.twice (Scenario.filler false)
                 Scenario.files).1
              "template.pdf" "data.xlsx" "out" false (Scenario.filler false)
              (Scenario.outcome Scenario.twice (Scenario.filler false)
                 Scenario.files))
    as (sh & _ & _ & _); [by vm_compute|by vm_compute|].
  by vm_compute.
Defined.

(** X10: without overwrite, a row that names the same output as an
    earlier row of the same run whose output file was created is skipped
    with "Output file exists", whatever rows lie between the two: a run
    does not replace what it has written itself. *)
Theorem duplicate_output_skipped (w : World) (self : FormFiller.t)
    (headers : list string) (common : gset string) (i : nat)
    (row1 row2 : RowData) (mid rest : list RowData) (fs : gset string) :
  FormFiller.xlsx_headers self = Some headers →
  FormFiller.common_fields self = Some common →
  FormFiller.overwrite self = false →
  FormFiller.all_none row1 = false →
  FormFiller.output_filename_of headers row1 ≠ "" →
  FormFiller.all_none row2 = false →
  FormFiller.output_filename_of headers row2 ≠ "" →
  normalized_filename headers row2 = normalized_filename headers row1 →
  engine_opens (pdf_writer w (i + 2)) →
  ((i + 2 + S (length mid))%nat,
   "Output file exists: " +:+ normalized_filename headers row1
   +:+ " (use --overwrite)")
  ∈ FormFiller.failed_rows
      (FormFiller.run_rows w i (row1 :: mid ++ row2 :: rest) self fs).2.
Proof.
  intros Hh Hc Hov Hr1 Hn1 Hr2 Hn2 Hsame Hopen. rewrite run_rows_cons.
  set (r1 := FormFiller._process_single_row w self (i + 2) row1 fs).
  set (self1 := FormFiller.record self (i + 2) r1.2).
  assert (exists_ w r1.1 (output_path self headers row1) = true) as Hex.
  { by apply (processed_exists w self headers common). }
  rewrite run_rows_app.
  set (m := FormFiller.run_rows w (S i) mid self1 r1.1).
  destruct (record_same_setup self (i + 2) r1.2) as [(Ha & Hb & Hd & He) _].
  destruct (run_rows_tally w mid (S i) self1 r1.1)
    as (_ & _ & _ & (Ha' & Hb' & Hd' & He')).
  fold m in Ha', Hb', Hd', He'. fold self1 in Ha, Hb, Hd, He.
  rewrite run_rows_cons.
  assert (FormFiller._process_single_row w m.2 (S i + length mid + 2) row2 m.1
          = (m.1, Some (false, reason_exists (normalized_filename headers row2))))
    as ->.
  { apply (process_collision w m.2 headers common); try congruence.
    apply (exists_mono w r1.1); [apply run_rows_mono|].
    unfold output_path in *. rewrite Hsame.
    by replace (FormFiller.output_dir m.2) with (FormFiller.output_dir self)
      by congruence. }
  cbn [fst snd].
  destruct (run_rows_failed w rest (S (S i + length mid))
              (FormFiller.record m.2 (S i + length mid + 2)
                 (Some (false, reason_exists (normalized_filename headers row2))))
              m.1) as (new & -> & _).
  simpl. rewrite Hsame. apply elem_of_app. left. apply elem_of_app. right.
  replace (S (i + length mid + 2)) with (i + 2 + S (length mid))%nat by lia.
  by apply elem_of_cons; left.
Qed.

Lemma duplicate_output_skipped_witness :
  (4%nat, "Output file exists: alice.pdf (use --overwrite)")
  ∈ FormFiller.failed_rows
      (FormFiller.run_rows Scenario.twice 0
         [Scenario.alice; Scenario.no_designator; Scenario.alice]
         (Scenario.ready false) Scenario.files).2.
Proof.
  apply (duplicate_output_skipped Scenario.twice (Scenario.ready false)
           ["Name"; "Date"; "Approved"; "_output_filename"]
           {["Name"; "Date"; "Approved"]} 0 Scenario.alice Scenario.alice
           [Scenario.no_designator] [] Scenario.files);
    try done; by vm_compute.
Defined.

(** ** A run with overwrite and an engine that does not fail *)

Section Overwrite.

Lemma named_rows_cons (headers : list string) (row : RowData)
    (rows : list RowData) :
  named_rows headers (row :: rows)
  = (if decide (FormFiller.all_none row = false
                ∧ FormFiller.output_filename_of headers row ≠ "")
     then [row] else []) ++ named_rows headers rows.
Proof. unfold named_rows. rewrite filter_cons. by destruct (decide _). Qed.

Lemma overwrite_rows (w : World) (headers : list string)
    (common : gset string) (rows : list RowData) :
  (∀ n, engine_ok (pdf_writer w n)) →
  ∀ (i : nat) (self : FormFiller.t) (fs : gset string),
    FormFiller.xlsx_headers self = Some headers →
    FormFiller.common_fields self = Some common →
    FormFiller.overwrite self = true →
    let r := FormFiller.run_rows w i rows self fs in
    r.1 = fs ∪ row_paths self headers rows
    ∧ FormFiller.success_count r.2
      = (FormFiller.success_count self + length (named_rows headers rows))%nat
    ∧ FormFiller.failed_rows r.2
      = FormFiller.failed_rows self
        ++ empty_designator_failures headers i rows.
Proof.
  intros Hok.
  induction rows as [|row rest IH]; intros i self fs Hh Hc Hov.
  - simpl. unfold row_paths. simpl. split_and!;
      [set_solver|lia|by rewrite app_nil_r].
  - rewrite run_rows_cons. cbv zeta.
    set (p := FormFiller._process_single_row w self (i + 2) row fs).
    destruct (record_same_setup self (i + 2) p.2) as [(Ha & Hb & Hd & He) _].
    destruct (IH (S i) (FormFiller.record self (i + 2) p.2) p.1)
      as (H1 & H2 & H3); [congruence..|].
    rewrite H1, H2, H3.
    rewrite <- (row_paths_same self) by done.
    rewrite (row_paths_cons self headers row rest), named_rows_cons.
    unfold row_paths at 2. rewrite filter_cons, filter_nil.
    cbn [empty_designator_failures].
    destruct (decide (FormFiller.all_none row = false
                      ∧ FormFiller.output_filename_of headers row ≠ ""))
      as [[Hrow Hname]|Hnot].
    + subst p.
      rewrite (process_fill w self headers common)
        by (try done; by rewrite Hov).
      cbv zeta. rewrite fill_ok by done. cbn [fst snd].
      rewrite Hrow.
      destruct (String.eqb_spec (FormFiller.output_filename_of headers row) "")
        as [|_]; [done|].
      simpl. split_and!; [set_solver|lia|done].
    + destruct (FormFiller.all_none row) eqn:Hrow.
      * subst p. rewrite process_blank by done. simpl.
        split_and!; [set_solver|lia|done].
      * destruct (String.eqb_spec (FormFiller.output_filename_of headers row)
                    "") as [Hname|Hname]; [|by destruct Hnot].
        subst p.
        rewrite (process_empty_designator w self headers common) by done.
        simpl. split_and!; [set_solver|lia|by rewrite <- app_assoc].
Qed.

End Overwrite.

(** X11: with overwrite enabled and a document engine that completes
    every step, a run fills every row that has a designator: the files
    afterwards are the earlier ones together with the outputs of those
    rows, the success count grows by their number, and the failed/skipped
    list receives exactly the rows without designator, in order. *)
Theorem overwrite_run (w : World) (self s' : FormFiller.t)
    (fs fs' : gset string) :
  FormFiller.overwrite self = true →
  (∀ n, engine_ok (pdf_writer w n)) →
  FormFiller.run w self fs = (fs', Ok s') →
  ∃ (sh : Worksheet) (headers : list string),
    FormFiller.sheet s' = Some sh
    ∧ FormFiller.xlsx_headers s' = Some headers
    ∧ fs' = fs ∪ row_paths self headers (FormFiller.data_rows sh)
    ∧ FormFiller.success_count s'
      = (FormFiller.success_count self
         + length (named_rows headers (FormFiller.data_rows sh)))%nat
    ∧ FormFiller.failed_rows s'
      = FormFiller.failed_rows self
        ++ empty_designator_failures headers 0 (FormFiller.data_rows sh).
Proof.
  intros Hov Hok. unfold FormFiller.run.
  destruct (FormFiller.setup w self) as [[s sh]|e] eqn:Hsetup; [|discriminate].
  intros [= <- <-].
  apply setup_ok in Hsetup
    as (Hsh & _ & Hs & Hf & Hov' & Hd & [headers Hh] & [common Hc]).
  destruct (run_rows_tally w (FormFiller.data_rows sh) 0 s fs)
    as (_ & _ & Hsheet & (Hh' & _)).
  destruct (overwrite_rows w headers common (FormFiller.data_rows sh) Hok
              0 s fs Hh Hc) as (H1 & H2 & H3); [congruence|].
  exists sh, headers. split_and!; [congruence|congruence|..].
  - rewrite H1. by rewrite (row_paths_same s self).
  - by rewrite H2, Hs.
  - by rewrite H3, Hf.
Qed.

Lemma overwrite_run_witness :
  let s' := Scenario.outcome Scenario.twice (Scenario.filler true)
              Scenario.files in
  FormFiller.success_count s' = 2%nat
  ∧ FormFiller.failed_rows s' = [(3%nat, "'_output_filename' is empty")].
Proof.
  intros s'.
  destruct (overwrite_run Scenario.twice (Scenario.filler true) s'
              Scenario.files
              (FormFiller.run Scenario.twice (Scenario.filler true)
                 Scenario.files).1)
    as (sh & headers & Hsh & Hh & _ & Hs & Hf);
    [done|by repeat split|by vm_compute|].
  rewrite Hs, Hf. vm_compute in Hsh, Hh.
  injection Hsh as <-. injection Hh as <-. by vm_compute.
Defined.

(** ** Filling one document *)

(** X12: what the page updates raise never changes the outcome of filling
    a document. The outcome is either the output file created and no
    exception, when cloning, clean-up, opening and writing all succeed, or
    the exception of the first failing step wrapped as [PDFReadError] when
    it is a pypdf read error (whatever the step) and as [PDFWriteError]
    otherwise; no file other than the output is touched. *)
Theorem fill_outcome (self : FormFiller.t) (b : writer_behaviour)
    (pages : list (option exn)) (fill_data : gmap string string)
    (path : string) (fs : gset string) :
  FormFiller._fill_single_pdf self (with_pages b pages) fill_data path fs
  = FormFiller._fill_single_pdf self b fill_data path fs
  ∧ ((engine_ok b
      ∧ FormFiller._fill_single_pdf self b fill_data path fs
        = ({[path]} ∪ fs, Ok ()))
     ∨ ∃ (e : exn) (fs' : gset string),
         engine_raises b e
         ∧ FormFiller._fill_single_pdf self b fill_data path fs
           = (fs', Raise (Exn (if isinstance e [PdfReadError]
                               then PDFReadError else PDFWriteError)
                            ((if isinstance e [PdfReadError]
                              then "Template read error during cloning for "
                              else "PDF write error for ")
                             +:+ Py.os_path_basename path)
                            (Some e)))
         ∧ fs ⊆ fs' ∧ fs' ⊆ {[path]} ∪ fs).
Proof.
  split.
  - unfold FormFiller._fill_single_pdf, with_pages. simpl.
    by rewrite !update_pages_ok.
  - assert (∀ e, engine_raises b e →
              ∃ fs', engine_raises b e
                ∧ FormFiller._fill_single_pdf self b fill_data path fs
                  = (fs', Raise (Exn (if isinstance e [PdfReadError]
                                      then PDFReadError else PDFWriteError)
                                   ((if isinstance e [PdfReadError]
                                     then "Template read error during cloning for "
                                     else "PDF write error for ")
                                    +:+ Py.os_path_basename path)
                                   (Some e)))
                ∧ fs ⊆ fs' ∧ fs' ⊆ {[path]} ∪ fs) as Hraise.
    { intros e He.
      destruct (fill_raises self b fill_data path fs e He)
        as (fs' & Hf & Hs1 & Hs2).
      exists fs'. rewrite Hf. unfold wrapped.
      by destruct (isinstance e [PdfReadError]). }
    destruct (clone b) as [e|] eqn:Hc.
    { right. exists e. apply Hraise. by left. }
    destruct (cleanup b) as [e|] eqn:Hu.
    { right. exists e. apply Hraise. right. by left. }
    destruct (open_file b) as [e|] eqn:Ho.
    { right. exists e. apply Hraise. right. right. by left. }
    destruct (write b) as [e|] eqn:Hw.
    { right. exists e. apply Hraise. right. right. by right. }
    left. split; [done|]. by apply fill_ok.
Qed.

(** ** The dictionary of a row and the file name *)

Section RowDict.

Lemma foldl_insert_lookup (l : list (string * cell)) :
  ∀ (m : gmap string cell) (h : string),
    foldl (fun m hv => <[hv.1 := hv.2]> m) m l !! h
    = match last (filter (fun hv => hv.1 = h) l) with
      | Some hv => Some hv.2
      | None => m !! h
      end.
Proof.
  induction l as [|hv l IH]; intros m h; simpl; [done|].
  rewrite IH, filter_cons.
  destruct (decide (hv.1 = h)) as [Heq|Hne].
  - destruct (filter _ l) as [|x t] eqn:Hf.
    + simpl. by rewrite <- Heq, lookup_insert_eq.
    + rewrite last_cons_cons.
      destruct (last (x :: t)) eqn:Hl; [done|]. by apply last_None in Hl.
  - destruct (last (filter _ l)); [done|]. by rewrite lookup_insert_ne.
Qed.

End RowDict.

(** X13: the value a row gives for a header name is the cell under the
    last column of that name that the row reaches, and nothing when there
    is no such column; in particular a column appended at the right end
    overrides every earlier column of the same name. *)
Theorem row_dict_last_wins (headers : list string) (row : RowData)
    (h : string) (v : cell) :
  FormFiller.row_dict_of headers row !! h
  = snd <$> last (filter (fun hv => hv.1 = h) (zip headers row))
  ∧ (length headers = length row →
     FormFiller.dict_get
       (FormFiller.row_dict_of (headers ++ [h]) (row ++ [v])) h = v)
  ∧ (h ∉ headers →
     FormFiller.dict_get (FormFiller.row_dict_of headers row) h = CNone).
Proof.
  assert (∀ hs r, FormFiller.row_dict_of hs r !! h
                  = snd <$> last (filter (fun hv => hv.1 = h) (zip hs r)))
    as Hgen.
  { intros hs r. unfold FormFiller.row_dict_of.
    rewrite foldl_insert_lookup. by destruct (last _). }
  split_and!; [done|..].
  - intros Hlen. unfold FormFiller.dict_get. rewrite Hgen.
    rewrite zip_with_app by done. simpl.
    rewrite filter_app, filter_cons_True, filter_nil by done.
    by rewrite last_snoc.
  - intros Hnin. unfold FormFiller.dict_get. rewrite Hgen.
    destruct (filter (fun hv : string * cell => hv.1 = h) (zip headers row))
      as [|x t] eqn:Hf; [done|].
    assert (x ∈ filter (fun hv : string * cell => hv.1 = h) (zip headers row))
      as Hx by (rewrite Hf; left).
    apply list_elem_of_filter in Hx as [Hxh Hxz].
    destruct x as [a c]. apply elem_of_zip_l in Hxz. simpl in Hxh.
    by subst a.
Qed.

Lemma row_dict_last_wins_witness :
  FormFiller.dict_get
    (FormFiller.row_dict_of ["_output_filename"; "Name"; "_output_filename"]
       [CStr "first"; CStr "Al"; CStr "second"]) "_output_filename"
  = CStr "second".
Proof.
  by apply (row_dict_last_wins ["_output_filename"; "Name"]
              [CStr "first"; CStr "Al"] "_output_filename" (CStr "second")).
Defined.

(** X14: normalising a file name always gives a name that ends with
    ".pdf" in some letter case, keeps the given name as a prefix, and
    changes nothing when applied a second time. *)
Theorem with_pdf_extension_idempotent (name : string) :
  Py.endswith (Py.lower (FormFiller.with_pdf_extension name)) ".pdf" = true
  ∧ (FormFiller.with_pdf_extension name = name
     ∨ FormFiller.with_pdf_extension name = name +:+ ".pdf")
  ∧ FormFiller.with_pdf_extension (FormFiller.with_pdf_extension name)
    = FormFiller.with_pdf_extension name.
Proof.
  split_and!.
  - apply with_pdf_extension_ends.
  - unfold FormFiller.with_pdf_extension.
    destruct (negb _); [by right|by left].
  - pose proof (with_pdf_extension_ends name) as H.
    unfold FormFiller.with_pdf_extension at 1. by rewrite H.
Qed.

(** ** The analysis of a template *)

(** X15: loading a template either raises a [PDFReadError] that wraps what
    the reader raised, or gives an analyzer whose set of field names is
    always present: the keys of the reader's dictionary, and the empty set
    when the reader found no field, in which case the field dictionary
    itself is absent. *)
Theorem load_outcome (pdf_path : string)
    (reader : result (option PDFAnalyzer.fields_dict)) :
  match PDFAnalyzer._load pdf_path reader with
  | Ok a =>
      ∃ found : option PDFAnalyzer.fields_dict,
        reader = Ok found
        ∧ PDFAnalyzer.pdf_path a = pdf_path
        ∧ PDFAnalyzer.get_field_names a
          = Some (list_to_set (default [] found).*1)
        ∧ (PDFAnalyzer.get_fields a = None ↔ default [] found = [])
        ∧ (∀ fs, PDFAnalyzer.get_fields a = Some fs →
                 found = Some fs ∧ fs ≠ [])
  | Raise e =>
      ∃ (cause : exn) (msg : string),
        reader = Raise cause ∧ e = Exn PDFReadError msg (Some cause)
  end.
Proof.
  unfold PDFAnalyzer._load, try_except, mbind, result_bind, bind.
  destruct reader as [[[|f fs]|]|cause]; simpl.
  - exists (Some []). by split_and!.
  - exists (Some (f :: fs)). split_and!; try done.
    intros fs' [= <-]. done.
  - exists None. by split_and!.
  - destruct (isinstance cause [PdfReadError]); [eauto|].
    destruct (isinstance cause [FileNotFoundError]); eauto.
Qed.

Section Analysis.

Lemma analyze_field_lines (name : string)
    (properties : PDFAnalyzer.field_properties) (lines : list string) :
  PDFAnalyzer.analyze_field name properties = Ok lines →
  (non_text (name, properties)
   ∧ ∃ line, lines = [line] ∧ describes (name, properties) line)
  ∨ (¬ non_text (name, properties) ∧ lines = []).
Proof.
  unfold PDFAnalyzer.analyze_field, non_text, describes. simpl.
  case_bool_decide as Hb.
  - intros [= <-]. left. split; [by left|]. eexists. split; [done|].
    eexists. by left.
  - case_bool_decide as Hc.
    + unfold mbind, result_bind, bind.
      destruct (PDFAnalyzer.choice_export_values properties); [|discriminate].
      intros [= <-]. left. split; [by right|]. eexists. split; [done|].
      eexists. by right.
    + intros [= <-]. right. split; [|done]. by intros [?|?].
Qed.

Lemma analyze_fields_lines (fs : PDFAnalyzer.fields_dict) :
  ∀ lines, PDFAnalyzer.analyze_fields fs = Ok lines →
           Forall2 describes (filter non_text fs) lines.
Proof.
  induction fs as [|[name properties] fs IH]; intros lines.
  - intros [= <-]. constructor.
  - unfold PDFAnalyzer.fields_dict in *. rewrite filter_cons.
    cbn [PDFAnalyzer.analyze_fields].
    unfold mbind, result_bind, bind.
    destruct (PDFAnalyzer.analyze_field name properties) as [here|] eqn:Hh;
      [|discriminate].
    destruct (PDFAnalyzer.analyze_fields fs) as [rest|]; [|discriminate].
    intros [= <-].
    apply analyze_field_lines in Hh as [(Hnt & line & -> & Hd)|(Hnt & ->)].
    + rewrite decide_True by done. simpl. constructor; [done|by apply IH].
    + rewrite decide_False by done. simpl. by apply IH.
Qed.

Lemma pair_export_raise (opt : PDFAnalyzer.pyval) (e : exn) :
  PDFAnalyzer.pair_export_value opt = Raise e → subscript_error e.
Proof.
  unfold PDFAnalyzer.pair_export_value, subscript_error, mbind, result_bind,
    bind.
  destruct opt as [s|items shown|type_name shown|data shown|entries shown];
    simpl.
  - destruct (1 <? String.length s)%nat.
    + destruct (String.get 1 s); [discriminate|]. intros [= <-]. right. by left.
    + destruct (String.get 0 s); [discriminate|]. intros [= <-]. right. by left.
  - destruct (1 <? length items)%nat.
    + destruct (items !! 1%nat); [discriminate|]. intros [= <-].
      right. by left.
    + destruct (items !! 0%nat); [discriminate|]. intros [= <-].
      right. by left.
  - intros [= <-]. by left.
  - destruct (1 <? length data)%nat.
    + destruct (data !! 1%nat); [discriminate|]. intros [= <-].
      right. by left.
    + destruct (data !! 0%nat); [discriminate|]. intros [= <-].
      right. by left.
  - destruct (1 <? size entries)%nat.
    + destruct (entries !! _); [discriminate|]. intros [= <-].
      right. by right.
    + destruct (entries !! _); [discriminate|]. intros [= <-].
      right. by right.
Qed.

Lemma comprehension_raise (options : list PDFAnalyzer.pyval) (e : exn) :
  PDFAnalyzer.comprehension PDFAnalyzer.pair_export_value options = Raise e →
  ∃ opt, opt ∈ options ∧ PDFAnalyzer.pair_export_value opt = Raise e.
Proof.
  induction options as [|o l IH]; simpl; [discriminate|].
  unfold mbind, result_bind, bind.
  destruct (PDFAnalyzer.pair_export_value o) eqn:Ho.
  - destruct (PDFAnalyzer.comprehension _ l); [discriminate|].
    intros [= <-]. destruct (IH eq_refl) as (opt & Hin & Hopt).
    exists opt. split; [by right|done].
  - intros [= <-]. exists o. split; [by left|done].
Qed.

Lemma choice_raise (properties : PDFAnalyzer.field_properties) (e : exn) :
  PDFAnalyzer.choice_export_values properties = Raise e →
  ∃ opt, opt ∈ default [] (PDFAnalyzer.Opt properties)
         ∧ PDFAnalyzer.pair_export_value opt = Raise e.
Proof.
  unfold PDFAnalyzer.choice_export_values, mbind, result_bind, bind.
  destruct (default [] (PDFAnalyzer.Opt properties)) as [|first rest];
    [discriminate|].
  destruct first as [s|[|a items] shown|type_name shown|data shown
                     |entries shown]; simpl; try discriminate.
  apply (comprehension_raise (PDFAnalyzer.VSeq (a :: items) shown :: rest)).
Qed.

Lemma choice_uniform (properties : PDFAnalyzer.field_properties) :
  uniform_options (default [] (PDFAnalyzer.Opt properties)) →
  ∃ tokens, PDFAnalyzer.choice_export_values properties = Ok tokens.
Proof.
  unfold PDFAnalyzer.choice_export_values, uniform_options.
  destruct (default [] (PDFAnalyzer.Opt properties)) as [|first rest];
    [eauto|].
  intros [Hfirst|Hall].
  - destruct first as [s|[|a items] shown|type_name shown|data shown
                       |entries shown]; simpl; eauto. done.
  - pose proof (Forall_inv Hall) as Hfirst.
    destruct first as [s|[|a items] shown|type_name shown|data shown
                       |entries shown]; try done.
    unfold mbind, result_bind, bind.
    cbn -[PDFAnalyzer.comprehension].
    rewrite (comprehension_pairs (PDFAnalyzer.VSeq (a :: items) shown :: rest))
      by done. eauto.
Qed.

Lemma analyze_fields_raise (fs : PDFAnalyzer.fields_dict) (e : exn) :
  PDFAnalyzer.analyze_fields fs = Raise e →
  ∃ f opt,
    f ∈ fs ∧ PDFAnalyzer.FT f.2 = Some Config.FIELD_TYPE_CHOICE
    ∧ opt ∈ default [] (PDFAnalyzer.Opt f.2)
    ∧ PDFAnalyzer.pair_export_value opt = Raise e.
Proof.
  induction fs as [|[name properties] fs IH]; simpl; [discriminate|].
  unfold mbind, result_bind, bind.
  destruct (PDFAnalyzer.analyze_field name properties) as [here|e'] eqn:Hh.
  - destruct (PDFAnalyzer.analyze_fields fs); [discriminate|].
    intros [= <-]. destruct (IH eq_refl) as (f & opt & Hin & Hrest).
    exists f, opt. split; [by right|done].
  - intros [= <-]. revert Hh. unfold PDFAnalyzer.analyze_field.
    case_bool_decide; [discriminate|].
    case_bool_decide as Hchoice; [|discriminate].
    unfold mbind, result_bind, bind.
    destruct (PDFAnalyzer.choice_export_values properties) eqn:Hc;
      [discriminate|].
    intros [= <-]. destruct (choice_raise _ _ Hc) as (opt & Hin & Hopt).
    exists (name, properties), opt. split_and!; [by left|done|done|done].
Qed.

Lemma analyze_fields_uniform (fs : PDFAnalyzer.fields_dict) :
  Forall (fun f => PDFAnalyzer.FT f.2 = Some Config.FIELD_TYPE_CHOICE →
                   uniform_options (default [] (PDFAnalyzer.Opt f.2))) fs →
  ∃ lines, PDFAnalyzer.analyze_fields fs = Ok lines.
Proof.
  induction 1 as [|[name properties] fs Hf Hfs [rest IH]]; simpl; [eauto|].
  unfold mbind, result_bind, bind. rewrite IH.
  unfold PDFAnalyzer.analyze_field.
  case_bool_decide; [eauto|]. case_bool_decide as Hc; [|eauto].
  unfold mbind, result_bind, bind.
  destruct (choice_uniform properties (Hf Hc)) as [tokens ->]. eauto.
Qed.

Lemma fields_of (a : PDFAnalyzer.t) :
  PDFAnalyzer.analyze_field_types a
  = PDFAnalyzer.analyze_fields (default [] (PDFAnalyzer.fields a)).
Proof.
  unfold PDFAnalyzer.analyze_field_types.
  by destruct (PDFAnalyzer.fields a) as [[|f fs]|].
Qed.

End Analysis.

(** X16: when the analysis of the field types returns, it has one line
    per button or choice field, in the order of the field dictionary, each
    line starting with the name and the kind of its field; text fields
    give no line. *)
Theorem analysis_lines (a : PDFAnalyzer.t) (lines : list string) :
  PDFAnalyzer.analyze_field_types a = Ok lines →
  Forall2 describes
    (filter non_text (default [] (PDFAnalyzer.get_fields a))) lines
  ∧ length lines
    = length (filter non_text (default [] (PDFAnalyzer.get_fields a))).
Proof.
  rewrite fields_of. intros H%analyze_fields_lines. split; [done|].
  symmetry. by eapply Forall2_length.
Qed.

Lemma analysis_lines_witness :
  ∃ a, PDFAnalyzer._load "form.pdf" (Ok (Some Scenario.form)) = Ok a
       ∧ PDFAnalyzer.analyze_field_types a
         = Ok ["Field 'Agree' (Button): Expected values (e.g., /Yes)";
               "Field 'Colour' (Choice): Expected values : Export1, Export2"].
Proof.
  destruct (PDFAnalyzer._load "form.pdf" (Ok (Some Scenario.form)))
    as [a|e] eqn:Hload; [|by vm_compute in Hload].
  exists a. split; [done|].
  destruct (PDFAnalyzer.analyze_field_types a) as [lines|e] eqn:Hl.
  - destruct (analysis_lines a lines Hl) as [_ Hlen].
    vm_compute in Hload. injection Hload as <-.
    vm_compute in Hl. by injection Hl as <-.
  - vm_compute in Hload. injection Hload as <-. by vm_compute in Hl.
Defined.

(** X17: the analysis is not guarded. When it raises, the exception is
    the very one that taking the token of an entry raised, for an entry of
    the options list of a choice field; it is a [TypeError] (the entry has
    no length), an [IndexError] (it is empty) or a [KeyError] (it is a
    dictionary without the key). It cannot raise when every choice field
    has an options list that is empty, starts with something other than a
    non-empty list or tuple, or holds non-empty lists and tuples only. *)
Theorem analysis_raises (a : PDFAnalyzer.t) :
  (∀ e, PDFAnalyzer.analyze_field_types a = Raise e →
        (exn_cls e = TypeError ∨ exn_cls e = IndexError
         ∨ exn_cls e = KeyError)
        ∧ ∃ f opt,
            f ∈ default [] (PDFAnalyzer.get_fields a)
            ∧ PDFAnalyzer.FT f.2 = Some Config.FIELD_TYPE_CHOICE
            ∧ opt ∈ default [] (PDFAnalyzer.Opt f.2)
            ∧ PDFAnalyzer.pair_export_value opt = Raise e)
  ∧ (Forall (fun f =>
               PDFAnalyzer.FT f.2 = Some Config.FIELD_TYPE_CHOICE →
               uniform_options (default [] (PDFAnalyzer.Opt f.2)))
       (default [] (PDFAnalyzer.get_fields a)) →
     ∃ lines, PDFAnalyzer.analyze_field_types a = Ok lines).
Proof.
  rewrite fields_of. split.
  - intros e He.
    destruct (analyze_fields_raise _ _ He) as (f & opt & Hf & Hft & Ho & Hp).
    split; [by apply (pair_export_raise opt)|]. by exists f, opt.
  - apply analyze_fields_uniform.
Qed.

Lemma analysis_raises_witness :
  let a := {| PDFAnalyzer.pdf_path := "form.pdf";
              PDFAnalyzer.fields := Some [("Colour", Scenario.dict_choice)];
              PDFAnalyzer.field_names := Some {["Colour"]} |} in
  PDFAnalyzer.analyze_field_types a = Raise (Exn KeyError "0" None)
  ∧ PDFAnalyzer.analyze_field_types
      {| PDFAnalyzer.pdf_path := "form.pdf";
         PDFAnalyzer.fields := Some [("Colour", Scenario.number_choice)];
         PDFAnalyzer.field_names := Some {["Colour"]} |}
    = Raise (Exn TypeError "object of type 'int' has no len()" None)
  ∧ ∃ lines,
      PDFAnalyzer.analyze_field_types
        {| PDFAnalyzer.pdf_path := "form.pdf";
           PDFAnalyzer.fields := Some Scenario.form;
           PDFAnalyzer.field_names := Some {["Name"; "Agree"; "Colour"]} |}
      = Ok lines.
Proof.
  intros a. split_and!; [by vm_compute|by vm_compute|].
  apply analysis_raises. simpl.
  apply Forall_cons. split; [intros [=]|].
  apply Forall_cons. split; [intros [=]|].
  apply Forall_cons. split; [|constructor].
  intros _. right. repeat (constructor; [reflexivity|]). constructor.
Defined.

(** ** Generating the template files *)

Section Generation.

Lemma info_none (os : Validation.Os) (self : TemplateGenerator.t) :
  (TemplateGenerator._generate_field_info_file os self).2 = Ok None
  ↔ PDFAnalyzer.analyze_field_types (TemplateGenerator.analyzer self) = Ok [].
Proof.
  unfold TemplateGenerator._generate_field_info_file.
  destruct (PDFAnalyzer.analyze_field_types _) as [[|l ls]|e];
    [done| |done].
  destruct (Validation.text_write os _); split; discriminate.
Qed.

(** The cases of [_generate_field_info_file]. *)
Lemma info_cases (os : Validation.Os) (self : TemplateGenerator.t) :
  let info := TemplateGenerator._generate_field_info_file os self in
  match PDFAnalyzer.analyze_field_types (TemplateGenerator.analyzer self) with
  | Raise e => info = (None, Raise e)
  | Ok [] => info = (None, Ok None)
  | Ok lines =>
      match Validation.text_write os (txt_path_of self) with
      | Validation.Completed =>
          info
          = (Some {| TemplateGenerator.txt_path := txt_path_of self;
                     TemplateGenerator.txt_content :=
                       TemplateGenerator.field_info_header
                       +:+ TemplateGenerator.field_info_lines lines |},
             Ok (Some (txt_path_of self)))
      | Validation.NotOpened cause =>
          info = (None, Raise (text_failure self cause))
      | Validation.Interrupted cause partial =>
          info
          = (Some {| TemplateGenerator.txt_path := txt_path_of self;
                     TemplateGenerator.txt_content := partial |},
             Raise (text_failure self cause))
      end
  end.
Proof.
  cbv zeta.
  unfold TemplateGenerator._generate_field_info_file, txt_path_of,
    text_failure.
  destruct (PDFAnalyzer.analyze_field_types _) as [[|l ls]|e]; [done| |done].
  by destruct (Validation.text_write os _).
Qed.

Lemma excel_raise (w : World) (template_pdf_path output_dir : string)
    (self : TemplateGenerator.t) (e : exn) :
  TemplateGenerator.__init__ w template_pdf_path output_dir = Ok self →
  TemplateGenerator._generate_excel_template w self = Raise e →
  ∃ cause,
    workbook_save w (xlsx_path_of self) = Some cause
    ∧ e = Exn ExcelWriteError
            ("Failed to create or save Excel template '"
             +:+ xlsx_path_of self +:+ "'") (Some cause).
Proof.
  intros (_ & fields & _ & Hnames)%generator_init_ok.
  unfold TemplateGenerator._generate_excel_template, try_except, xlsx_path_of.
  rewrite Hnames.
  destruct (workbook_save w _) as [cause|]; [|discriminate].
  intros [= <-]. eauto.
Qed.

End Generation.

(** X18: once the generator has been constructed, writing the tabular
    template can fail in one way only: the workbook cannot be built or
    saved, which is raised as an [ExcelWriteError] naming the path and
    wrapping the cause. The error for field names that were not loaded
    cannot occur. *)
Theorem excel_template_failure (w : World)
    (template_pdf_path output_dir : string) (self : TemplateGenerator.t)
    (e : exn) :
  TemplateGenerator.__init__ w template_pdf_path output_dir = Ok self →
  TemplateGenerator._generate_excel_template w self = Raise e →
  ∃ cause,
    workbook_save w
      (Py.os_path_join output_dir
         (TemplateGenerator.base_filename self +:+ Config.TEMPLATE_SUFFIX))
    = Some cause
    ∧ e = Exn ExcelWriteError
            ("Failed to create or save Excel template '"
             +:+ Py.os_path_join output_dir
                   (TemplateGenerator.base_filename self
                    +:+ Config.TEMPLATE_SUFFIX)
             +:+ "'") (Some cause).
Proof.
  intros Hinit Hgen.
  destruct (generator_init_ok w _ _ _ Hinit) as [Hdir _].
  destruct (excel_raise w _ _ self e Hinit Hgen) as (cause & Hsave & ->).
  unfold xlsx_path_of in *. rewrite Hdir in *. eauto.
Qed.

Lemma excel_template_failure_witness :
  let w :=
    {| isdir := fun p => bool_decide (p = "out");
       isother := fun _ => false;
       pdf_get_fields := fun _ => Ok (Some Scenario.template);
       load_workbook := fun _ => Raise (Exn FileNotFoundError "" None);
       pdf_writer := fun _ => Scenario.healthy;
       workbook_save := fun _ =>
         Some (Exn (OtherException "PermissionError") "denied" None) |} in
  ∃ self,
    TemplateGenerator.__init__ w "in/template.pdf" "out" = Ok self
    ∧ TemplateGenerator._generate_excel_template w self
      = Raise (Exn ExcelWriteError
                 "Failed to create or save Excel template 'out/template_template.xlsx'"
                 (Some (Exn (OtherException "PermissionError") "denied" None))).
Proof.
  intros w.
  destruct (TemplateGenerator.__init__ w "in/template.pdf" "out")
    as [self|e] eqn:Hinit; [|by vm_compute in Hinit].
  exists self. split; [done|].
  destruct (TemplateGenerator._generate_excel_template w self)
    as [wb|e] eqn:Hgen.
  - vm_compute in Hinit. injection Hinit as <-. by vm_compute in Hgen.
  - destruct (excel_template_failure w _ _ self e Hinit Hgen)
      as (cause & Hsave & ->).
    vm_compute in Hinit. injection Hinit as <-.
    vm_compute in Hsave. injection Hsave as <-. by vm_compute.
Defined.

(** X19: the field-information file is left out exactly when the template
    has no button and no choice field, and then no file is touched. When
    the call returns a path, it is the output directory joined with the base
    name and "_field_info.txt", and the file at that path holds the fixed
    header followed by the lines of the analysis, one per button or choice
    field. *)
Theorem field_info_file (os : Validation.Os) (self : TemplateGenerator.t) :
  ((TemplateGenerator._generate_field_info_file os self).2 = Ok None
   ↔ filter non_text
       (default [] (PDFAnalyzer.get_fields (TemplateGenerator.analyzer self)))
     = [])
  ∧ ((TemplateGenerator._generate_field_info_file os self).2 = Ok None →
     (TemplateGenerator._generate_field_info_file os self).1 = None)
  ∧ ∀ path,
      (TemplateGenerator._generate_field_info_file os self).2
      = Ok (Some path) →
      ∃ lines,
        PDFAnalyzer.analyze_field_types (TemplateGenerator.analyzer self)
        = Ok lines
        ∧ length lines
          = length (filter non_text
                      (default []
                         (PDFAnalyzer.get_fields
                            (TemplateGenerator.analyzer self))))
        ∧ path
          = Py.os_path_join (TemplateGenerator.output_dir self)
              (TemplateGenerator.base_filename self
               +:+ Config.FIELD_INFO_SUFFIX)
        ∧ (TemplateGenerator._generate_field_info_file os self).1
          = Some {| TemplateGenerator.txt_path := path;
                    TemplateGenerator.txt_content :=
                      TemplateGenerator.field_info_header
                      +:+ TemplateGenerator.field_info_lines lines |}.
Proof.
  split_and!.
  - rewrite info_none, fields_of. unfold PDFAnalyzer.get_fields. split.
    + intros H%analyze_fields_lines. by apply Forall2_nil_inv_r in H.
    + intros Hnone.
      destruct (PDFAnalyzer.analyze_fields _) as [lines|e] eqn:Ha.
      * apply analyze_fields_lines in Ha.
        unfold PDFAnalyzer.fields_dict in *. rewrite Hnone in Ha.
        by apply Forall2_nil_inv_l in Ha as ->.
      * exfalso. revert Ha Hnone.
        generalize (default [] (PDFAnalyzer.fields
                                  (TemplateGenerator.analyzer self))).
        unfold PDFAnalyzer.fields_dict.
        induction l as [|[name properties] l IH]; [done|].
        rewrite filter_cons. cbn [PDFAnalyzer.analyze_fields].
        unfold mbind, result_bind, bind.
        destruct (decide (non_text (name, properties))) as [|Hnt]; [done|].
        intros Ha Hnone.
        assert (PDFAnalyzer.analyze_field name properties = Ok []) as Hf.
        { unfold PDFAnalyzer.analyze_field, non_text in *. simpl in Hnt.
          repeat case_bool_decide; tauto. }
        rewrite Hf in Ha.
        destruct (PDFAnalyzer.analyze_fields l); [discriminate|].
        by apply IH.
  - intros H%info_none. pose proof (info_cases os self) as Hc.
    cbv zeta in Hc. rewrite H in Hc. by rewrite Hc.
  - intros path. pose proof (info_cases os self) as Hc. cbv zeta in Hc.
    destruct (PDFAnalyzer.analyze_field_types _) as [[|l ls]|e] eqn:Ha;
      [by rewrite Hc|..|by rewrite Hc].
    destruct (Validation.text_write os _); rewrite Hc; [|done|done].
    intros [= <-]. exists (l :: ls). split_and!; try done.
    rewrite fields_of in Ha. apply analyze_fields_lines in Ha.
    symmetry. by eapply Forall2_length.
Qed.

(** X20: [generate_files] writes the tabular template first and the field
    information after it. When it raises without a tabular template, the
    cause is the saving of the workbook and no text file has been touched.
    When it raises after the tabular template has been written, either the
    exception is the one the analysis of the field types raised, passed on
    as it is, and no text file has been touched; or it is the
    [FileOperationError] that wraps what opening or writing the text file
    raised, and then the text file is there, with part of its content,
    exactly when it could be opened. When it does not raise, the tabular
    template has been written; and a field-information file is never left
    behind without the tabular template. *)
Theorem generate_files_order (w : World) (os : Validation.Os)
    (template_pdf_path output_dir : string) (self : TemplateGenerator.t) :
  TemplateGenerator.__init__ w template_pdf_path output_dir = Ok self →
  let g := TemplateGenerator.generate_files w os self in
  (TemplateGenerator.xlsx g = None →
   TemplateGenerator.txt g = None
   ∧ ∃ cause,
       workbook_save w (xlsx_path_of self) = Some cause
       ∧ TemplateGenerator.raised g
         = Some (Exn ExcelWriteError
                   ("Failed to create or save Excel template '"
                    +:+ xlsx_path_of self +:+ "'") (Some cause)))
  ∧ (∀ e, TemplateGenerator.raised g = Some e →
          TemplateGenerator.xlsx g ≠ None →
          (PDFAnalyzer.analyze_field_types (TemplateGenerator.analyzer self)
           = Raise e
           ∧ TemplateGenerator.txt g = None)
          ∨ ∃ cause,
              e = text_failure self cause
              ∧ ((Validation.text_write os (txt_path_of self)
                  = Validation.NotOpened cause
                  ∧ TemplateGenerator.txt g = None)
                 ∨ ∃ partial,
                     Validation.text_write os (txt_path_of self)
                     = Validation.Interrupted cause partial
                     ∧ TemplateGenerator.txt g
                       = Some {| TemplateGenerator.txt_path :=
                                   txt_path_of self;
                                 TemplateGenerator.txt_content := partial |}))
  ∧ (TemplateGenerator.raised g = None →
     ∃ wb, TemplateGenerator.xlsx g = Some wb
           ∧ TemplateGenerator.wb_path wb = xlsx_path_of self)
  ∧ (TemplateGenerator.txt g ≠ None → TemplateGenerator.xlsx g ≠ None).
Proof.
  intros Hinit. cbv zeta. unfold TemplateGenerator.generate_files.
  destruct (TemplateGenerator._generate_excel_template w self)
    as [wb|e] eqn:Hgen.
  - assert (TemplateGenerator.wb_path wb = xlsx_path_of self) as Hpath.
    { revert Hgen.
      unfold TemplateGenerator._generate_excel_template, try_except.
      destruct (PDFAnalyzer.get_field_names _); [|discriminate].
      destruct (workbook_save w _); [discriminate|]. by intros [= <-]. }
    pose proof (info_cases os self) as Hc. cbv zeta in Hc.
    destruct (PDFAnalyzer.analyze_field_types _) as [[|l ls]|e] eqn:Ha.
    + rewrite Hc. simpl. split_and!; [done|done|eauto|done].
    + destruct (Validation.text_write os _) as [|cause|cause partial];
        rewrite Hc; simpl.
      * split_and!; [done|done|eauto|done].
      * split_and!; [done| |done|done].
        intros e [= <-] _. right. exists cause. split; [done|]. by left.
      * split_and!; [done| |done|done].
        intros e [= <-] _. right. exists cause. split; [done|]. right.
        by exists partial.
    + rewrite Hc. simpl. split_and!; [done| |done|done].
      intros e' [= <-] _. by left.
  - destruct (excel_raise w _ _ self e Hinit Hgen) as (cause & Hsave & ->).
    simpl. split_and!; [eauto|done|done|done].
Qed.

Lemma generate_files_order_witness :
  let w := Scenario.world (Some Scenario.form) []
             (fun _ => Scenario.healthy) in
  let r := TemplateGenerator.generate_template_files w Scenario.full_disk
             Scenario.files "template.pdf" "out" in
  TemplateGenerator.xlsx r.1 ≠ None
  ∧ TemplateGenerator.txt r.1
    = Some {| TemplateGenerator.txt_path := "out/template_field_info.txt";
              TemplateGenerator.txt_content := "Information about" |}
  ∧ r.2 = Some 1.
Proof.
  intros w r.
  destruct (TemplateGenerator.__init__ w "template.pdf" "out")
    as [self|e] eqn:Hinit; [|by vm_compute in Hinit].
  destruct (generate_files_order w Scenario.full_disk "template.pdf" "out"
              self Hinit) as (_ & Hafter & _).
  assert (r.1 = TemplateGenerator.generate_files w Scenario.full_disk self)
    as Hr.
  { unfold r, TemplateGenerator.generate_template_files.
    assert (Validation.check_file_exists w Scenario.files "template.pdf"
            = Ok ()) as -> by (by vm_compute).
    unfold mbind, result_bind, bind. by rewrite Hinit. }
  assert (TemplateGenerator.raised r.1
          = Some (Exn FileOperationError
                    "Failed to write field info file 'out/template_field_info.txt'"
                    (Some (Exn (OtherException "OSError")
                             "No space left on device" None)))) as Hraised
    by (by vm_compute).
  assert (TemplateGenerator.xlsx r.1 ≠ None) as Hx by (by vm_compute).
  split_and!; [done| |by vm_compute].
  rewrite Hr in Hraised, Hx |- *.
  destruct (Hafter _ Hraised Hx)
    as [[Ha _]|(cause & _ & [[Hn _]|(partial & Hi & ->)])].
  - vm_compute in Hinit. injection Hinit as <-. by vm_compute in Ha.
  - discriminate Hn.
  - injection Hi as <- <-.
    vm_compute in Hinit. injection Hinit as <-. by vm_compute.
Defined.

(** X21: for a template that parses but has no field, and with the input
    file and the output directory in place, [generate_template_files]
    returns normally as soon as the workbook can be saved: it writes a
    tabular template whose only header is the designator column, and no
    field-information file. *)
Theorem empty_template_files (w : World) (os : Validation.Os)
    (fs : gset string) (template_pdf_path output_dir : string) :
  pdf_get_fields w template_pdf_path = Ok None
  ∨ pdf_get_fields w template_pdf_path = Ok (Some []) →
  isfile w fs template_pdf_path = true →
  isdir w output_dir = true →
  workbook_save w
    (Py.os_path_join output_dir
       (TemplateGenerator.splitext_root false
          (Py.os_path_basename template_pdf_path)
        +:+ Config.TEMPLATE_SUFFIX)) = None →
  ∃ wb,
    TemplateGenerator.generate_template_files w os fs template_pdf_path
      output_dir
    = ({| TemplateGenerator.xlsx := Some wb; TemplateGenerator.txt := None;
          TemplateGenerator.raised := None |}, None)
    ∧ TemplateGenerator.wb_rows wb = [[Config.OUTPUT_FILENAME_COL]].
Proof.
  intros Hget Hin Hdir Hsave.
  assert (exists_ w fs template_pdf_path = true) as Hex.
  { unfold exists_. unfold isfile in Hin.
    apply andb_true_iff in Hin as [-> _]. done. }
  unfold TemplateGenerator.generate_template_files,
    Validation.check_file_exists,
    TemplateGenerator.__init__, mbind, result_bind, bind.
  rewrite Hex, Hin, Hdir. simpl.
  assert (PDFAnalyzer._load template_pdf_path
            (pdf_get_fields w template_pdf_path)
          = Ok {| PDFAnalyzer.pdf_path := template_pdf_path;
                  PDFAnalyzer.fields := None;
                  PDFAnalyzer.field_names := Some ∅ |}) as ->.
  { by destruct Hget as [-> | ->]. }
  unfold TemplateGenerator.generate_files,
    TemplateGenerator._generate_excel_template,
    TemplateGenerator._generate_field_info_file, try_except. simpl.
  rewrite Hsave. simpl. eauto.
Qed.

Lemma empty_template_files_witness :
  let w := Scenario.world None [] (fun _ => Scenario.healthy) in
  (TemplateGenerator.generate_template_files w Scenario.calm Scenario.files
     "template.pdf" "out").2 = None.
Proof.
  intros w.
  destruct (empty_template_files w Scenario.calm Scenario.files
              "template.pdf" "out") as (wb & Hg & _);
    [by left|by vm_compute|done|done|].
  by rewrite Hg.
Defined.

(** ** Checking paths and preparing the output directory *)

(** X22: [check_file_exists] returns exactly for the paths of regular
    files. A path at which something else exists, be it a directory or a
    device, a FIFO or a socket, is turned down as "not a file", and a path
    at which nothing exists as "not found", both with a
    [FileOperationError] that wraps nothing. Once it has accepted the
    template and the data file, the two file checks of the constructor of
    the filler cannot fail: the constructor fails only for an output
    directory that is none. *)
Theorem check_file_exists_spec (w : World) (fs : gset string)
    (filepath : string) :
  (Validation.check_file_exists w fs filepath = Ok ()
   ↔ filepath ∈ fs ∧ isother w filepath = false)
  ∧ (isdir w filepath = true → filepath ∉ fs →
     Validation.check_file_exists w fs filepath
     = Raise (Exn FileOperationError
                ("Input path is not a file: " +:+ filepath) None))
  ∧ (filepath ∈ fs → isother w filepath = true →
     Validation.check_file_exists w fs filepath
     = Raise (Exn FileOperationError
                ("Input path is not a file: " +:+ filepath) None))
  ∧ (exists_ w fs filepath = true → isfile w fs filepath = false →
     Validation.check_file_exists w fs filepath
     = Raise (Exn FileOperationError
                ("Input path is not a file: " +:+ filepath) None))
  ∧ (exists_ w fs filepath = false →
     Validation.check_file_exists w fs filepath
     = Raise (Exn FileOperationError
                ("Input file not found: " +:+ filepath) None))
  ∧ (∀ (data_path output_dir : string) (overwrite : bool),
       Validation.check_file_exists w fs filepath = Ok () →
       Validation.check_file_exists w fs data_path = Ok () →
       (∃ self, FormFiller.__init__ w fs filepath data_path output_dir
                  overwrite = Ok self)
       ↔ isdir w output_dir = true).
Proof.
  assert (∀ p, Validation.check_file_exists w fs p = Ok ()
               ↔ isfile w fs p = true) as Hiff.
  { intros p. unfold Validation.check_file_exists, exists_, isfile.
    destruct (bool_decide (p ∈ fs)), (isother w p), (isdir w p); by simpl. }
  split_and!.
  - rewrite Hiff. unfold isfile.
    rewrite andb_true_iff, bool_decide_eq_true, negb_true_iff. done.
  - intros Hdir Hnin.
    unfold Validation.check_file_exists, exists_, isfile.
    by rewrite (bool_decide_false _ Hnin), Hdir.
  - intros Hin Hother.
    unfold Validation.check_file_exists, exists_, isfile.
    by rewrite (bool_decide_true _ Hin), Hother.
  - unfold Validation.check_file_exists. by intros -> ->.
  - unfold Validation.check_file_exists. by intros ->.
  - intros data_path output_dir overwrite Ht%Hiff Hd%Hiff.
    unfold FormFiller.__init__. rewrite Ht, Hd. simpl.
    destruct (isdir w output_dir); simpl; split; eauto; try done.
    by intros [self [=]].
Qed.

Lemma check_file_exists_spec_witness :
  let fs : gset string := {["/dev/null"; "template.pdf"]} in
  Validation.check_file_exists Scenario.with_device fs "/dev/null"
  = Raise (Exn FileOperationError "Input path is not a file: /dev/null" None)
  ∧ Validation.check_file_exists Scenario.with_device fs "out"
    = Raise (Exn FileOperationError "Input path is not a file: out" None).
Proof.
  intros fs.
  destruct (check_file_exists_spec Scenario.with_device fs "/dev/null")
    as (_ & _ & Hdev & _).
  destruct (check_file_exists_spec Scenario.with_device fs "out")
    as (_ & Hdir & _).
  split.
  - apply Hdev; [|done]. apply (bool_decide_unpack _). by vm_compute.
  - apply Hdir; [done|]. apply (bool_decide_unpack _). by vm_compute.
Defined.

(** X23: when the preparation of the output directory succeeds, the
    directory exists afterwards; every directory that existed before still
    does; a path that existed before leaves the world as it was; and the
    answers of the document and spreadsheet engines are untouched. *)
Theorem prepared_directory_exists (w w' : World) (os : Validation.Os)
    (fs : gset string) (dirpath : string)
    (require_empty allow_overwrite : bool) :
  Validation.prepare_output_directory w os fs dirpath require_empty
    allow_overwrite = Ok w' →
  isdir w' dirpath = true
  ∧ (∀ p, isdir w p = true → isdir w' p = true)
  ∧ (exists_ w fs dirpath = true → w' = w)
  ∧ (exists_ w fs dirpath = false →
     Validation.makedirs os dirpath = None ∧ w' = Validation.with_dir w dirpath)
  ∧ pdf_get_fields w' = pdf_get_fields w
  ∧ load_workbook w' = load_workbook w
  ∧ pdf_writer w' = pdf_writer w.
Proof.
  unfold Validation.prepare_output_directory, mbind, result_bind, bind.
  destruct (exists_ w fs dirpath) eqn:Hex.
  - destruct (isdir w dirpath) eqn:Hdir; simpl; [|discriminate].
    assert (w' = w → isdir w' dirpath = true
            ∧ (∀ p, isdir w p = true → isdir w' p = true)
            ∧ (true = true → w' = w)
            ∧ (true = false →
               Validation.makedirs os dirpath = None
               ∧ w' = Validation.with_dir w dirpath)
            ∧ pdf_get_fields w' = pdf_get_fields w
            ∧ load_workbook w' = load_workbook w
            ∧ pdf_writer w' = pdf_writer w) as Hsame.
    { intros ->. by split_and!. }
    destruct (require_empty && negb allow_overwrite).
    + destruct (Validation.listdir os dirpath) as [[|x l]|e]; try discriminate.
      intros [= <-]. by apply Hsame.
    + destruct (require_empty && allow_overwrite).
      * destruct (Validation.listdir os dirpath); [|discriminate].
        intros [= <-]. by apply Hsame.
      * intros [= <-]. by apply Hsame.
  - destruct (Validation.makedirs os dirpath) as [e|] eqn:Hmk.
    + by destruct (Validation.is_OSError e).
    + intros [= <-]. simpl. split_and!; try done.
      * by rewrite bool_decide_true.
      * intros p ->. by rewrite orb_true_r.
Qed.

Lemma prepared_directory_exists_witness :
  let w := Scenario.world None [] (fun _ => Scenario.healthy) in
  ∃ w', Validation.prepare_output_directory w Scenario.calm Scenario.files
          "new/dir" true false = Ok w'
        ∧ isdir w' "new/dir" = true ∧ isdir w' "out" = true.
Proof.
  intros w.
  destruct (Validation.prepare_output_directory w Scenario.calm
              Scenario.files "new/dir" true false) as [w'|e] eqn:Hp;
    [|by vm_compute in Hp].
  destruct (prepared_directory_exists w w' Scenario.calm Scenario.files
              "new/dir" true false Hp) as (H1 & H2 & _).
  exists w'. split_and!; [done|done|]. by apply H2.
Defined.

(** X24: for an output directory that exists, the preparation fails only
    when an empty directory is required, overwriting is not allowed and the
    directory has an entry; when no empty directory is required the
    directory is not even listed; and what listing the directory raises is
    passed on unwrapped. *)
Theorem prepare_existing_directory (w : World) (os : Validation.Os)
    (fs : gset string) (dirpath : string)
    (require_empty allow_overwrite : bool) :
  isdir w dirpath = true →
  (require_empty = false →
   Validation.prepare_output_directory w os fs dirpath require_empty
     allow_overwrite = Ok w)
  ∧ (∀ entries, Validation.listdir os dirpath = Ok entries →
       if require_empty && negb allow_overwrite
          && negb (bool_decide (entries = []))
       then Validation.prepare_output_directory w os fs dirpath require_empty
              allow_overwrite
            = Raise (Exn FileOperationError
                       ("Output directory '" +:+ dirpath
                        +:+ "' is not empty. Use --overwrite flag or specify a different directory.")
                       None)
       else Validation.prepare_output_directory w os fs dirpath require_empty
              allow_overwrite = Ok w)
  ∧ (∀ e, Validation.listdir os dirpath = Raise e →
       require_empty = true →
       Validation.prepare_output_directory w os fs dirpath require_empty
         allow_overwrite = Raise e).
Proof.
  intros Hdir.
  unfold Validation.prepare_output_directory, exists_, mbind, result_bind,
    bind.
  rewrite Hdir, orb_true_r. simpl. split_and!.
  - by intros ->.
  - intros entries ->.
    destruct require_empty, allow_overwrite, entries; by simpl.
  - intros e -> ->. by destruct allow_overwrite.
Qed.

Lemma prepare_existing_directory_witness :
  let w := Scenario.world None [] (fun _ => Scenario.healthy) in
  Validation.prepare_output_directory w Scenario.crowded Scenario.files
    "out" true false
  = Raise (Exn FileOperationError
             "Output directory 'out' is not empty. Use --overwrite flag or specify a different directory."
             None)
  ∧ Validation.prepare_output_directory w Scenario.crowded Scenario.files
      "out" false true = Ok w.
Proof.
  intros w.
  destruct (prepare_existing_directory w Scenario.crowded Scenario.files
              "out" true false eq_refl) as (_ & H & _).
  destruct (prepare_existing_directory w Scenario.crowded Scenario.files
              "out" false true eq_refl) as (H' & _).
  split; [exact (H ["old.pdf"] eq_refl)|by apply H'].
Defined.

(** ** The command line *)

Section CommandLine.

Lemma same_inputs_refl (w : World) : same_inputs w w.
Proof. by repeat split. Qed.

Lemma generator_init_names (w : World) (template_pdf_path output_dir : string)
    (self : TemplateGenerator.t) :
  TemplateGenerator.__init__ w template_pdf_path output_dir = Ok self →
  TemplateGenerator.output_dir self = output_dir
  ∧ TemplateGenerator.base_filename self
    = TemplateGenerator.splitext_root false
        (Py.os_path_basename template_pdf_path).
Proof.
  unfold TemplateGenerator.__init__, mbind, result_bind, bind.
  destruct (negb (isdir w output_dir)); [discriminate|].
  destruct (PDFAnalyzer._load _ _); [|discriminate]. by intros [= <-].
Qed.

End CommandLine.

(** X25: in fill-form mode the process ends with status 0 or 1. It ends
    with 0 exactly when the output directory could be prepared, both input
    files exist and the set-up of the run succeeds, whatever happens to the
    rows; whenever it ends with 1 no file has been written; and an
    existing output directory that has an entry makes it end with 1 unless
    overwriting was asked for. *)
Theorem main_fill_form (w : World) (os : Validation.Os) (fs : gset string)
    (template data_file output_dir : string) (overwrite : bool) :
  let r := Cli.main w os fs
             (Cli.fill_form template data_file output_dir overwrite) in
  (r.2 = 0 ∨ r.2 = 1)
  ∧ (r.2 = 1 → r.1 = fs)
  ∧ (r.2 = 0
     ↔ ∃ w' self x,
         Validation.prepare_output_directory w os fs output_dir true overwrite
         = Ok w'
         ∧ template ∈ fs ∧ data_file ∈ fs
         ∧ FormFiller.__init__ w' fs template data_file output_dir overwrite
           = Ok self
         ∧ FormFiller.setup w' self = Ok x)
  ∧ (isdir w output_dir = true → overwrite = false →
     ∀ x l, Validation.listdir os output_dir = Ok (x :: l) → r = (fs, 1)).
Proof.
  cbv zeta. unfold Cli.main.
  destruct (Validation.prepare_output_directory w os fs output_dir true
              overwrite) as [w'|e] eqn:Hp.
  - destruct (fill_pdf_forms_cases w' w' fs template data_file output_dir
                overwrite (same_inputs_refl w')) as (Hiff & Hfail & _).
    cbv zeta in Hiff, Hfail.
    destruct (FormFiller.fill_pdf_forms w' fs template data_file output_dir
                overwrite) as [fs' [code|]] eqn:Hf; simpl in *.
    + destruct (Hfail ltac:(done)) as [[= ->] ->].
      split_and!; [by right|done| |].
      * split; [done|]. intros (w2 & self & x & [= <-] & Hrest).
        assert (Some 1 = None) as Habs; [|done]. apply Hiff. eauto 10.
      * intros Hdir -> x l Hl. revert Hp.
        unfold Validation.prepare_output_directory, exists_, mbind,
          result_bind, bind.
        rewrite Hdir, orb_true_r, Hl. simpl. discriminate.
    + split_and!; [by left|done| |].
      * split; [|done]. intros _.
        destruct (proj1 Hiff eq_refl) as (self & x & Ht & Hd & Hi & Hs).
        exists w', self, x. by split_and!.
      * intros Hdir -> x l Hl. revert Hp.
        unfold Validation.prepare_output_directory, exists_, mbind,
          result_bind, bind.
        rewrite Hdir, orb_true_r, Hl. simpl. discriminate.
  - simpl. split_and!; [by right|done| |done].
    split; [done|]. by intros (w2 & self & x & [=] & _).
Qed.

Lemma main_fill_form_witness :
  let w := Scenario.world (Some Scenario.template)
             [Scenario.header_row; Scenario.alice]
             (fun _ => Scenario.healthy) in
  Cli.main w Scenario.crowded Scenario.files
    (Cli.fill_form "template.pdf" "data.xlsx" "out" false)
  = (Scenario.files, 1).
Proof.
  intros w.
  destruct (main_fill_form w Scenario.crowded Scenario.files "template.pdf"
              "data.xlsx" "out" false) as (_ & _ & _ & H).
  by apply (H eq_refl eq_refl "old.pdf" []).
Defined.

(** X26: in generate-template mode the process ends with status 0 or 1
    and removes no file; the content of an existing output directory is
    never looked at; and a status of 0 means that the tabular template
    exists at the output directory joined with the base name of the
    template and "_template.xlsx". *)
Theorem main_generate_template (w : World) (os os' : Validation.Os)
    (fs : gset string) (template output_dir : string) :
  let r := Cli.main w os fs (Cli.generate_template template output_dir) in
  (r.2 = 0 ∨ r.2 = 1)
  ∧ fs ⊆ r.1
  ∧ (r.2 = 0 →
     Py.os_path_join output_dir
       (TemplateGenerator.splitext_root false (Py.os_path_basename template)
        +:+ Config.TEMPLATE_SUFFIX) ∈ r.1)
  ∧ (Validation.makedirs os' = Validation.makedirs os →
     Validation.text_write os' = Validation.text_write os →
     Cli.main w os' fs (Cli.generate_template template output_dir) = r).
Proof.
  cbv zeta. split_and!.
  - unfold Cli.main.
    destruct (Validation.prepare_output_directory _ _ _ _ _ _); [|by right].
    unfold TemplateGenerator.generate_template_files. simpl.
    destruct (_ ≫= _); simpl; [|by right].
    destruct (TemplateGenerator.raised _); [by right|by left].
  - unfold Cli.main.
    destruct (Validation.prepare_output_directory _ _ _ _ _ _); [|done].
    simpl. set_solver.
  - unfold Cli.main.
    destruct (Validation.prepare_output_directory _ _ _ _ _ _) as [w'|];
      [|done].
    unfold TemplateGenerator.generate_template_files. cbn [fst snd].
    unfold mbind, result_bind, bind.
    destruct (Validation.check_file_exists w' fs template); [|done].
    destruct (TemplateGenerator.__init__ w' template output_dir)
      as [self|] eqn:Hinit; [|done].
    destruct (generator_init_names w' _ _ self Hinit) as [Hdir Hbase].
    unfold TemplateGenerator.generate_files.
    destruct (TemplateGenerator._generate_excel_template w' self)
      as [wb|] eqn:Hgen; [|done].
    assert (TemplateGenerator.wb_path wb
            = Py.os_path_join output_dir
                (TemplateGenerator.splitext_root false
                   (Py.os_path_basename template)
                 +:+ Config.TEMPLATE_SUFFIX)) as <-.
    { revert Hgen.
      unfold TemplateGenerator._generate_excel_template, try_except.
      destruct (PDFAnalyzer.get_field_names _); [|discriminate].
      destruct (workbook_save w' _); [discriminate|].
      intros [= <-]. simpl. by rewrite Hdir, Hbase. }
    destruct (TemplateGenerator._generate_field_info_file os self);
      simpl; intros _; set_solver.
  - intros Hmk Htw. unfold Cli.main.
    assert (Validation.prepare_output_directory w os' fs output_dir false true
            = Validation.prepare_output_directory w os fs output_dir false true)
      as ->.
    { unfold Validation.prepare_output_directory. by rewrite Hmk. }
    destruct (Validation.prepare_output_directory w os fs output_dir false true)
      as [w'|]; [|done].
    assert (TemplateGenerator.generate_template_files w' os' fs template
              output_dir
            = TemplateGenerator.generate_template_files w' os fs template
                output_dir) as ->; [|done].
    unfold TemplateGenerator.generate_template_files,
      TemplateGenerator.generate_files,
      TemplateGenerator._generate_field_info_file.
    by rewrite Htw.
Qed.

Lemma main_generate_template_witness :
  let w := Scenario.world (Some Scenario.form) []
             (fun _ => Scenario.healthy) in
  "out/template_template.xlsx"
  ∈ (Cli.main w Scenario.crowded Scenario.files
       (Cli.generate_template "template.pdf" "out")).1.
Proof.
  intros w.
  destruct (main_generate_template w Scenario.crowded Scenario.crowded
              Scenario.files "template.pdf" "out") as (_ & _ & H & _).
  apply H. by vm_compute.
Defined.

Lemma load_outcome_witness :
  ∃ a, PDFAnalyzer._load "form.pdf" (Ok None) = Ok a
       ∧ PDFAnalyzer.get_fields a = None
       ∧ PDFAnalyzer.get_field_names a = Some ∅.
Proof.
  pose proof (load_outcome "form.pdf" (Ok None)) as H.
  destruct (PDFAnalyzer._load "form.pdf" (Ok None)) as [a|e].
  - destruct H as (found & [= <-] & _ & Hn & Hf & _).
    exists a. split_and!; [done|by apply Hf|by rewrite Hn].
  - by destruct H as (cause & msg & [=] & _).
Defined.

Lemma field_info_file_witness :
  let w := Scenario.world (Some Scenario.template) []
             (fun _ => Scenario.healthy) in
  ∃ self,
    TemplateGenerator.__init__ w "template.pdf" "out" = Ok self
    ∧ (TemplateGenerator._generate_field_info_file Scenario.calm self).2
      = Ok None.
Proof.
  intros w.
  destruct (TemplateGenerator.__init__ w "template.pdf" "out")
    as [self|e] eqn:Hinit; [|by vm_compute in Hinit].
  exists self. split; [done|].
  apply (proj1 (field_info_file Scenario.calm self)).
  vm_compute in Hinit. injection Hinit as <-. by vm_compute.
Defined.
